(** * antigravity2api: request builder, streaming interpreter, grounding check
    and API error handling, as a shallow embedding of the JavaScript sources.

    Sources embedded here:
    - [src/utils/converters/common.js], [src/utils/converters/claude.js]
      (the Request Builder),
    - [src/api/client.js], the source part without a name (the streaming
      interpreter, [generateAssistantResponse] and [handleApiError]),
    - [src/server/index.js], which follows the formatter in
      [src/server/formatters/claude.js] (the streaming handler of
      POST /v1/chat/completions),
    - [src/utils/webSearchGrounding.js] ([hasGroundingData]).

    JavaScript strings are sequences of UTF-16 code units, JSON documents are
    an inductive type, arrays mutated in place are threaded as explicit state,
    and a [throw] caught by the enclosing [try] is an outcome of a small
    state-and-exception monad.

    What the sources import from files that are not at hand is a parameter of
    the function that uses it: [JSON.parse], [JSON.stringify],
    [generateToolCallId], [generateRequestId], [sanitizeToolName],
    [modelMapping], [isEnableThinking], [generateGenerationConfig], the
    signature cache, the tool converter and the two HTTP transports. The pool
    of accounts behind [tokenManager] is modelled from its description.

    The backend response is untyped: the interpreter and [hasGroundingData]
    work on any JSON value, with the property accesses, truthiness tests and
    [TypeError]s of the sources. Client messages are typed by their [type]
    field, optional fields being the ones the converter probes. *)

From Stdlib Require Import List Bool NArith ZArith Lia.
From Stdlib.Strings Require Import String Ascii Byte.
From Stdlib Require DecimalString.
Import ListNotations.

Set Implicit Arguments.

(* ================================================================== *)
(** * JavaScript strings *)
(* ================================================================== *)

Module JsString.

(** A JavaScript string: its UTF-16 code units. *)
Definition jsstring := list N.

Definition eqb (a b : jsstring) : bool :=
  if list_eq_dec N.eq_dec a b then true else false.

(** [s.startsWith(p)] *)
Fixpoint startsWith (s p : jsstring) : bool :=
  match p, s with
  | [], _ => true
  | _ :: _, [] => false
  | c :: p', d :: s' => N.eqb c d && startsWith s' p'
  end.

(** [s.slice(n)] for [0 <= n] *)
Definition slice (s : jsstring) (n : nat) : jsstring := skipn n s.

(** White space and line terminators of ECMAScript, as [String.prototype.trim]
    strips them. *)
Definition isWhiteSpace (c : N) : bool :=
  ((9 <=? c) && (c <=? 13) || (c =? 32) || (c =? 160) || (c =? 5760)
   || (8192 <=? c) && (c <=? 8202) || (c =? 8232) || (c =? 8233)
   || (c =? 8239) || (c =? 8287) || (c =? 12288) || (c =? 65279))%N.

Fixpoint trimStart (s : jsstring) : jsstring :=
  match s with
  | c :: s' => if isWhiteSpace c then trimStart s' else s
  | [] => []
  end.

Definition trimEnd (s : jsstring) : jsstring := rev (trimStart (rev s)).

Definition trim (s : jsstring) : jsstring := trimEnd (trimStart s).

(** ** [Buffer.prototype.toString()]: UTF-8 decoding with U+FFFD replacement *)

Definition REPLACEMENT : N := 65533.

(** Decoder state between two bytes: how many continuation bytes are still
    expected, the code point accumulated so far and the range allowed for
    the next byte. *)
Record decoder := {
  needed : nat;
  codepoint : N;
  lower : N;
  upper : N
}.

Definition idle : decoder :=
  {| needed := 0; codepoint := 0; lower := 128; upper := 191 |}.

(** A code point as UTF-16 code units. *)
Definition utf16 (cp : N) : jsstring :=
  if (cp <? 65536)%N then [cp]
  else [(55296 + N.shiftr (cp - 65536) 10)%N;
        (56320 + N.land (cp - 65536) 1023)%N].

(** A byte met while no sequence is open. *)
Definition lead (b : N) : jsstring * decoder :=
  if (b <? 128)%N then ([b], idle)
  else if (194 <=? b)%N && (b <=? 223)%N then
    ([], {| needed := 1; codepoint := N.land b 31; lower := 128; upper := 191 |})
  else if (224 <=? b)%N && (b <=? 239)%N then
    ([], {| needed := 2; codepoint := N.land b 15;
            lower := if (b =? 224)%N then 160 else 128;
            upper := if (b =? 237)%N then 159 else 191 |})
  else if (240 <=? b)%N && (b <=? 244)%N then
    ([], {| needed := 3; codepoint := N.land b 7;
            lower := if (b =? 240)%N then 144 else 128;
            upper := if (b =? 244)%N then 143 else 191 |})
  else ([REPLACEMENT], idle).

Fixpoint decode (d : decoder) (bs : list N) : jsstring :=
  match bs with
  | [] => match needed d with 0 => [] | S _ => [REPLACEMENT] end
  | b :: rest =>
      match needed d with
      | 0 => let (out, d') := lead b in out ++ decode d' rest
      | S k =>
          if (lower d <=? b)%N && (b <=? upper d)%N then
            let cp := (N.shiftl (codepoint d) 6 + N.land b 63)%N in
            match k with
            | 0 => utf16 cp ++ decode idle rest
            | S _ => decode {| needed := k; codepoint := cp;
                               lower := 128; upper := 191 |} rest
            end
          else
            let (out, d') := lead b in
            REPLACEMENT :: out ++ decode d' rest
      end
  end.

(** [buf.toString()] of a [Buffer] holding the bytes [bs]. *)
Definition toString (bs : list byte) : jsstring :=
  decode idle (map Byte.to_N bs).

(** A string literal of the source text (the file is UTF-8). *)
Definition js (s : string) : jsstring := toString (list_byte_of_string s).

End JsString.

Import JsString.

(* ================================================================== *)
(** * JSON values, as [JSON.parse] produces them *)
(* ================================================================== *)

Module Json.

(** A number is kept as the bit pattern of its IEEE-754 binary64 value;
    only its truthiness is ever observed. *)
#[warnings="-register-all"]
Inductive JSON : Type :=
| JNull
| JBool (b : bool)
| JNum (bits : N)
| JStr (s : jsstring)
| JArr (items : list JSON)
| JObj (fields : list (jsstring * JSON)).

(** [undefined] is the absence of a value. *)
Definition jsvalue := option JSON.

(** A binary64 pattern is [+0], [-0] or a NaN. *)
Definition isZeroOrNaN (bits : N) : bool :=
  let magnitude := N.land bits 9223372036854775807 in
  (magnitude =? 0)%N || (9218868437227405312 <? magnitude)%N.

(** ToBoolean *)
Definition truthy (v : JSON) : bool :=
  match v with
  | JNull => false
  | JBool b => b
  | JNum bits => negb (isZeroOrNaN bits)
  | JStr s => match s with [] => false | _ => true end
  | JArr _ | JObj _ => true
  end.

Definition truthy_opt (v : jsvalue) : bool :=
  match v with Some x => truthy x | None => false end.

Fixpoint assoc (k : jsstring) (fields : list (jsstring * JSON)) : jsvalue :=
  match fields with
  | [] => None
  | (k', v) :: rest => if JsString.eqb k k' then Some v else assoc k rest
  end.

(** [v.k] for a [v] that is neither [null] nor [undefined], and a key [k]
    that no prototype defines (every key the sources read is such a key). *)
Definition prop (v : JSON) (k : jsstring) : jsvalue :=
  match v with
  | JObj fields => assoc k fields
  | _ => None
  end.

(** [v?.k] *)
Definition optProp (v : jsvalue) (k : jsstring) : jsvalue :=
  match v with
  | None | Some JNull => None
  | Some x => prop x k
  end.

(** [v?.[0]] *)
Definition optFirst (v : jsvalue) : jsvalue :=
  match v with
  | None | Some JNull => None
  | Some (JArr items) => nth_error items 0
  | Some (JStr (c :: _)) => Some (JStr [c])
  | Some (JObj fields) => assoc (js "0") fields
  | Some _ => None
  end.

(** [Array.isArray(v) && v.length > 0] *)
Definition isNonEmptyArray (v : jsvalue) : bool :=
  match v with
  | Some (JArr (_ :: _)) => true
  | _ => false
  end.

(** [typeof v === 'object'] *)
Definition typeofObject (v : JSON) : bool :=
  match v with
  | JNull | JArr _ | JObj _ => true
  | _ => false
  end.

(** The values a [for (const x of v)] loop visits; [None] when [v] is not
    iterable (a [TypeError]). A string is visited character by character;
    no branch of the sources tells a surrogate pair from two characters. *)
Definition iterate (v : JSON) : option (list JSON) :=
  match v with
  | JArr items => Some items
  | JStr s => Some (map (fun c => JStr [c]) s)
  | _ => None
  end.

End Json.

Import Json.

(* ================================================================== *)
(** * Web-search grounding ([src/utils/webSearchGrounding.js]) *)
(* ================================================================== *)

Module Grounding.

(** [hasGroundingData(candidate)]; the argument is [None] for [undefined]. *)
Definition hasGroundingData (candidate : jsvalue) : bool :=
  match candidate with
  | None => false
  | Some c =>
      if negb (truthy c) then false
      else
        let meta := prop c (js "groundingMetadata") in
        let chunks := prop c (js "groundingChunks") in
        let supports := prop c (js "groundingSupports") in
        if match meta with
           | Some m =>
               truthy m && typeofObject m
               && (isNonEmptyArray (prop m (js "webSearchQueries"))
                   || isNonEmptyArray (prop m (js "groundingChunks"))
                   || isNonEmptyArray (prop m (js "groundingSupports")))
           | None => false
           end
        then true
        else if isNonEmptyArray chunks then true
        else if isNonEmptyArray supports then true
        else false
  end.

(** ** What the specification calls grounding evidence *)

(** The entries of the array [holder.key]; none when [holder] is missing or
    is no object, or when [holder.key] is missing or is no array. *)
Definition entries (holder : jsvalue) (key : jsstring) : list JSON :=
  match optProp holder key with
  | Some (JArr items) => items
  | _ => []
  end.

Definition hasEntries (holder : jsvalue) (key : jsstring) : bool :=
  match entries holder key with
  | [] => false
  | _ :: _ => true
  end.

(** [candidate.groundingMetadata] *)
Definition metadataOf (candidate : jsvalue) : jsvalue :=
  optProp candidate (js "groundingMetadata").

(** A query, a chunk or a support inside the metadata object. *)
Definition evidenceInMetadata (candidate : jsvalue) : bool :=
  hasEntries (metadataOf candidate) (js "webSearchQueries")
  || hasEntries (metadataOf candidate) (js "groundingChunks")
  || hasEntries (metadataOf candidate) (js "groundingSupports").

(** A chunk or a support directly on the candidate. *)
Definition evidenceOnCandidate (candidate : jsvalue) : bool :=
  hasEntries candidate (js "groundingChunks")
  || hasEntries candidate (js "groundingSupports").

(** A query directly on the candidate. *)
Definition queryOnCandidate (candidate : jsvalue) : bool :=
  hasEntries candidate (js "webSearchQueries").

Definition isAbsent (candidate : jsvalue) : bool :=
  match candidate with
  | None | Some JNull => true
  | Some _ => false
  end.

(** The metadata is absent, or is an object without any query, chunk or
    support entry. *)
Definition metadataAbsentOrEmpty (candidate : jsvalue) : bool :=
  match metadataOf candidate with
  | None => true
  | Some (JObj _) => negb (evidenceInMetadata candidate)
  | Some _ => false
  end.

(** The claim as it is worded: [false] for an absent candidate and for absent
    or empty metadata; [true] for a query, a chunk or a support, be it inside
    the metadata or directly on the candidate. *)
Definition groundingClaimAsWorded : Prop :=
  forall candidate : jsvalue,
    (isAbsent candidate = true -> hasGroundingData candidate = false) /\
    (metadataAbsentOrEmpty candidate = true -> hasGroundingData candidate = false) /\
    (evidenceInMetadata candidate || evidenceOnCandidate candidate
     || queryOnCandidate candidate = true ->
     hasGroundingData candidate = true).

End Grounding.

(* ================================================================== *)
(** * The streaming interpreter ([src/api/client.js]) *)
(* ================================================================== *)

Module Stream.

(** An OpenAI tool call, as [convertToToolCall] builds it; [type] is always
    ['function']. *)
Record ToolCall := {
  tc_id : JSON;
  tc_name : jsvalue;
  tc_arguments : option jsstring
}.

(** What the interpreter hands to its callback. *)
Inductive Event :=
| Thinking (content : JSON)
| Text (content : JSON)
| ToolCalls (tool_calls : list ToolCall).

(** [state] of [generateAssistantResponse]. *)
Record StreamState := {
  thinkingStarted : bool;
  toolCalls : list ToolCall
}.

Definition initialState : StreamState :=
  {| thinkingStarted := false; toolCalls := [] |}.

(** Everything a call of [parseAndEmitStreamChunk] can change: the stream
    state, the events the callback has received so far, and how many ids
    [generateToolCallId] has issued. *)
Record World := {
  state : StreamState;
  emitted : list Event;
  idsIssued : nat
}.

Definition initialWorld : World :=
  {| state := initialState; emitted := []; idsIssued := 0 |}.

(** ** Statements that may throw *)

Inductive Outcome (A : Type) :=
| Normal (a : A) (w : World)
| Thrown (w : World).
Arguments Normal {A} a w.
Arguments Thrown {A} w.

Definition M (A : Type) := World -> Outcome A.

Definition ret {A} (a : A) : M A := fun w => Normal a w.

Definition bind {A B} (m : M A) (k : A -> M B) : M B :=
  fun w => match m w with
           | Normal a w' => k a w'
           | Thrown w' => Thrown w'
           end.

Definition throw {A} : M A := fun w => Thrown w.

Notation "x <- m ;; k" := (bind m (fun x => k))
  (at level 61, m at next level, right associativity).
Notation "m ;;; k" := (bind m (fun _ => k))
  (at level 61, right associativity).

(** [callback(ev)] *)
Definition callback (ev : Event) : M unit :=
  fun w => Normal tt {| state := state w;
                        emitted := emitted w ++ [ev];
                        idsIssued := idsIssued w |}.

Definition getState : M StreamState := fun w => Normal (state w) w.

Definition setThinkingStarted (b : bool) : M unit :=
  fun w => Normal tt {| state := {| thinkingStarted := b;
                                    toolCalls := toolCalls (state w) |};
                        emitted := emitted w;
                        idsIssued := idsIssued w |}.

Definition setToolCalls (l : list ToolCall) : M unit :=
  fun w => Normal tt {| state := {| thinkingStarted := thinkingStarted (state w);
                                    toolCalls := l |};
                        emitted := emitted w;
                        idsIssued := idsIssued w |}.

Definition when (b : bool) (m : M unit) : M unit := if b then m else ret tt.

(** [for (const x of xs) body(x)] *)
Fixpoint forEach {A} (xs : list A) (body : A -> M unit) : M unit :=
  match xs with
  | [] => ret tt
  | x :: rest => body x ;;; forEach rest body
  end.

(** [try { m } catch (e) { }]: what [m] did before it threw stays done. *)
Definition tryCatch (m : M unit) : World -> World :=
  fun w => match m w with
           | Normal _ w' => w'
           | Thrown w' => w'
           end.

Section Interpreter.

(** [JSON.parse]; [None] is a [SyntaxError]. *)
Variable JSON_parse : jsstring -> option JSON.
(** [JSON.stringify] of a value that is not [undefined]. *)
Variable JSON_stringify : JSON -> jsstring.
(** [generateToolCallId()] of [src/utils/idGenerator.js]: the id issued after
    [n] earlier ones. *)
Variable generateToolCallId : nat -> jsstring.

Definition freshToolCallId : M JSON :=
  fun w => Normal (JStr (generateToolCallId (idsIssued w)))
                  {| state := state w;
                     emitted := emitted w;
                     idsIssued := S (idsIssued w) |}.

(** [convertToToolCall(functionCall)], for a truthy [functionCall]. *)
Definition convertToToolCall (functionCall : JSON) : M ToolCall :=
  id <- match prop functionCall (js "id") with
        | Some v => if truthy v then ret v else freshToolCallId
        | None => freshToolCallId
        end ;;
  ret {| tc_id := id;
         tc_name := prop functionCall (js "name");
         tc_arguments := option_map JSON_stringify (prop functionCall (js "args")) |}.

Definition THINK_OPEN : JSON := JStr (js "<think>
").
Definition THINK_CLOSE : JSON := JStr (js "
</think>
").

(** The branches of the loop body, for a [part] that is not [null]. *)
Definition dispatchPart (part : JSON) : M unit :=
  match prop part (js "thought") with
  | Some (JBool true) =>
      st <- getState ;;
      when (negb (thinkingStarted st))
           (callback (Thinking THINK_OPEN) ;;; setThinkingStarted true) ;;;
      callback (Thinking match prop part (js "text") with
                         | Some t => if truthy t then t else JStr []
                         | None => JStr []
                         end)
  | _ =>
      match prop part (js "text") with
      | Some t =>
          st <- getState ;;
          when (thinkingStarted st)
               (callback (Thinking THINK_CLOSE) ;;; setThinkingStarted false) ;;;
          callback (Text t)
      | None =>
          match prop part (js "functionCall") with
          | Some fc =>
              when (truthy fc)
                   (tc <- convertToToolCall fc ;;
                    st <- getState ;;
                    setToolCalls (toolCalls st ++ [tc]))
          | None => ret tt
          end
      end
  end.

(** The body of the loop over [parts]; reading [part.thought] of [null] is a
    [TypeError]. *)
Definition handlePart (part : JSON) : M unit :=
  match part with
  | JNull => throw
  | _ => dispatchPart part
  end.

(** [data.response?.candidates?.[0]], for a [data] that is not [null]. *)
Definition firstCandidate (data : JSON) : jsvalue :=
  optFirst (optProp (prop data (js "response")) (js "candidates")).

(** [if (parts) { for (const part of parts) ... }] *)
Definition loopOverParts (data : JSON) : M unit :=
  match optProp (optProp (firstCandidate data) (js "content")) (js "parts") with
  | Some parts =>
      when (truthy parts)
           match iterate parts with
           | Some items => forEach items handlePart
           | None => throw
           end
  | None => ret tt
  end.

(** [if (data.response?.candidates?.[0]?.finishReason && state.toolCalls.length > 0) ...] *)
Definition flushToolCalls (data : JSON) : M unit :=
  st <- getState ;;
  when (truthy_opt (optProp (firstCandidate data) (js "finishReason"))
        && match toolCalls st with [] => false | _ :: _ => true end)
       (when (thinkingStarted st)
             (callback (Thinking THINK_CLOSE) ;;; setThinkingStarted false) ;;;
        callback (ToolCalls (toolCalls st)) ;;;
        setToolCalls []).

(** The statements inside the [try] of [parseAndEmitStreamChunk], after
    [JSON.parse] has returned [data]; reading [data.response] of [null] is a
    [TypeError]. *)
Definition interpretEnvelope (data : JSON) : M unit :=
  match data with
  | JNull => throw
  | _ => loopOverParts data ;;; flushToolCalls data
  end.

Definition DATA_MARKER : jsstring := js "data: ".

(** [parseAndEmitStreamChunk(line, state, callback)] *)
Definition parseAndEmitStreamChunk (line : jsstring) (w : World) : World :=
  if negb (startsWith line DATA_MARKER) then w
  else
    match JSON_parse (slice line 6) with
    | None => w
    | Some data => tryCatch (interpretEnvelope data) w
    end.

(** ** The line buffer of [generateAssistantResponse] *)

Definition NEWLINE : N := 10.

(** [s.split('\n')] *)
Fixpoint split (s : jsstring) : list jsstring :=
  match s with
  | [] => [[]]
  | c :: s' =>
      if (c =? NEWLINE)%N then [] :: split s'
      else match split s' with
           | l :: ls => (c :: l) :: ls
           | [] => [[c]]
           end
  end.

(** The closure variables of [processChunk]. *)
Record Receiver := {
  buffer : jsstring;
  world : World
}.

Definition initialReceiver : Receiver :=
  {| buffer := []; world := initialWorld |}.

(** [lines.forEach(line => parseAndEmitStreamChunk(line, state, callback))] *)
Definition emitLines (lines : list jsstring) (w : World) : World :=
  fold_left (fun w line => parseAndEmitStreamChunk line w) lines w.

(** [processChunk(chunk)] *)
Definition processChunk (chunk : jsstring) (r : Receiver) : Receiver :=
  let lines := split (buffer r ++ chunk) in
  {| buffer := last lines [];
     world := emitLines (removelast lines) (world r) |}.

(** The string chunks [chunks] arriving one after the other. *)
Definition processChunks (chunks : list jsstring) (r : Receiver) : Receiver :=
  fold_left (fun r chunk => processChunk chunk r) chunks r.

(** [response.data.on('data', chunk => processChunk(chunk.toString()))]:
    the [Buffer]s [chunks] arriving one after the other. *)
Definition onData (chunks : list (list byte)) (r : Receiver) : Receiver :=
  fold_left (fun r chunk => processChunk (toString chunk) r) chunks r.

(** The events the callback has received once the [Buffer]s [chunks] have all
    arrived on a fresh stream. *)
Definition eventsOfBuffers (chunks : list (list byte)) : list Event :=
  emitted (world (onData chunks initialReceiver)).

(** The same for chunks that arrive as strings. *)
Definition eventsOfStrings (chunks : list jsstring) : list Event :=
  emitted (world (processChunks chunks initialReceiver)).

End Interpreter.

(** ** The shape of a well-formed event sequence

    [disciplined before evs after]: read from a moment where thinking output
    is open or not ([before]), the events [evs] open thinking output only
    with the opening marker followed by a delta, carry thinking deltas only
    while it is open, and carry a text or a tool-calls event only while it is
    closed, the closing marker coming right before the first of them; [after]
    tells whether thinking output is open at the end. *)
Inductive disciplined : bool -> list Event -> bool -> Prop :=
| disciplined_done (b : bool) :
    disciplined b [] b
| disciplined_open (delta : JSON) (evs : list Event) (b : bool) :
    disciplined true evs b ->
    disciplined false (Thinking THINK_OPEN :: Thinking delta :: evs) b
| disciplined_delta (delta : JSON) (evs : list Event) (b : bool) :
    disciplined true evs b ->
    disciplined true (Thinking delta :: evs) b
| disciplined_close_text (t : JSON) (evs : list Event) (b : bool) :
    disciplined false evs b ->
    disciplined true (Thinking THINK_CLOSE :: Text t :: evs) b
| disciplined_text (t : JSON) (evs : list Event) (b : bool) :
    disciplined false evs b ->
    disciplined false (Text t :: evs) b
| disciplined_close_calls (calls : list ToolCall) (evs : list Event) (b : bool) :
    disciplined false evs b ->
    disciplined true (Thinking THINK_CLOSE :: ToolCalls calls :: evs) b
| disciplined_calls (calls : list ToolCall) (evs : list Event) (b : bool) :
    disciplined false evs b ->
    disciplined false (ToolCalls calls :: evs) b.

Definition isToolCallsEvent (ev : Event) : bool :=
  match ev with
  | ToolCalls _ => true
  | _ => false
  end.

(** The world an outcome leaves, thrown or not. *)
Definition worldOf {A} (o : Outcome A) : World :=
  match o with
  | Normal _ w => w
  | Thrown w => w
  end.



(** From [w] to [w'] events were only added, none of them a tool-calls
    event, the buffer of tool calls only grew, and the added events are
    well formed with respect to the thinking flag. *)
Definition progress (w w' : World) : Prop :=
  exists evs added,
    emitted w' = emitted w ++ evs /\
    toolCalls (state w') = toolCalls (state w) ++ added /\
    Forall (fun ev => isToolCallsEvent ev = false) evs /\
    disciplined (thinkingStarted (state w)) evs (thinkingStarted (state w')).

(** What one envelope does, from [w] to [w']: the parts add the events [evs]
    (none of them a tool-calls event) and the tool calls [added] to the
    buffer; then either nothing is flushed and the buffer is kept, or the
    envelope carries a finish signal and the whole buffer goes out as one
    tool-calls event, the last event of the envelope, leaving the buffer
    empty and thinking output closed. *)
Definition envelopeStep (finishSignal : bool) (w w' : World) : Prop :=
  exists evs added flush,
    emitted w' = emitted w ++ evs ++ flush /\
    Forall (fun ev => isToolCallsEvent ev = false) evs /\
    disciplined (thinkingStarted (state w)) (evs ++ flush) (thinkingStarted (state w')) /\
    ((flush = [] /\ toolCalls (state w') = toolCalls (state w) ++ added)
     \/
     (finishSignal = true /\
      toolCalls (state w) ++ added <> [] /\
      flush = [ToolCalls (toolCalls (state w) ++ added)] /\
      toolCalls (state w') = [] /\
      thinkingStarted (state w') = false)).


(** The envelope carries a finish signal. *)
Definition hasFinishReason (data : JSON) : bool :=
  match data with
  | JNull => false
  | _ => truthy_opt (optProp (firstCandidate data) (js "finishReason"))
  end.

End Stream.

(* ================================================================== *)
(** * Accounts, API errors and the streamed request ([src/api/client.js]) *)
(* ================================================================== *)

Module Api.

Import Stream.

(** Modelled from the spec: [src/auth/token_manager.js] is not among the
    sources. The pool holds the token records of the spec's layout; the
    [token] that [getToken] hands out is the record of the pool itself (an
    object shared by reference, here its position), and
    [disableCurrentToken] marks that account disabled. *)
Record Account := {
  access_token : jsstring;
  refresh_token : jsstring;
  expires_in : N;
  timestamp : N;
  enable : bool;
  projectId : jsstring;
  sessionId : jsstring
}.

Definition Pool := list Account.
Definition TokenRef := nat.

(** Modelled from the spec: the account with its [enable] flag cleared. *)
Definition disable (a : Account) : Account :=
  {| access_token := access_token a;
     refresh_token := refresh_token a;
     expires_in := expires_in a;
     timestamp := timestamp a;
     enable := false;
     projectId := projectId a;
     sessionId := sessionId a |}.

(** Modelled from the spec: [tokenManager.disableCurrentToken(token)] marks
    the account of [token] disabled and touches no other account. *)
Definition disableCurrentToken (token : TokenRef) (pool : Pool) : Pool :=
  match nth_error pool token with
  | Some a => firstn token pool ++ disable a :: skipn (S token) pool
  | None => pool
  end.


(** ** The error objects [handleApiError] receives *)

(** [error.response.data]: a readable stream (the only data with a truthy
    [readable]), a value whose [typeof] is ['object'], a string, or nothing. *)
Inductive ResponseData :=
| DataReadable (chunks : list (list byte))
| DataObject (v : JSON)
| DataText (s : jsstring)
| DataAbsent.

Record ErrorResponse := {
  status : option N;
  data : ResponseData
}.

(** An axios error, a rejection [{ status, message }] of the requester path,
    or a plain [Error]. *)
Record ApiError := {
  response : option ErrorResponse;
  err_status : option N;
  message : jsstring
}.

Inductive Status :=
| Code (n : N)
| Unknown.

Definition truthyNumber (n : option N) : bool :=
  match n with
  | Some k => negb (k =? 0)%N
  | None => false
  end.

(** [error.response?.status || error.status || 'Unknown'] *)
Definition statusOf (error : ApiError) : Status :=
  let fromResponse := match response error with
                      | Some r => status r
                      | None => None
                      end in
  if truthyNumber fromResponse then
    match fromResponse with Some n => Code n | None => Unknown end
  else if truthyNumber (err_status error) then
    match err_status error with Some n => Code n | None => Unknown end
  else Unknown.

(** A status inside a template literal. *)
Definition statusText (s : Status) : jsstring :=
  match s with
  | Code n => js (DecimalString.NilZero.string_of_uint (N.to_uint n))
  | Unknown => js "Unknown"
  end.

Definition isForbidden (s : Status) : bool :=
  match s with
  | Code n => (n =? 403)%N
  | Unknown => false
  end.

Section Client.

(** [JSON.parse], [JSON.stringify] and [generateToolCallId], as the
    interpreter takes them. *)
Variable JSON_parse : jsstring -> option JSON.
Variable JSON_stringify : JSON -> jsstring.
Variable generateToolCallId : nat -> jsstring.
(** [JSON.stringify(v, null, 2)] *)
Variable JSON_stringify_indented : JSON -> jsstring.

(** The text that ends up in [errorBody]. *)
Definition errorBodyOf (error : ApiError) : jsstring :=
  match response error with
  | Some r =>
      match data r with
      | DataReadable chunks => toString (List.concat chunks)
      | DataObject v => JSON_stringify_indented v
      | DataText s => match s with [] => message error | _ => s end
      | DataAbsent => message error
      end
  | None => message error
  end.

Definition FORBIDDEN_PREFIX : jsstring :=
  js "该账号没有使用权限，已自动禁用。错误详情: ".

(** [handleApiError(error, token)]: it always throws; the result is the pool
    it leaves behind and the message of the [Error] it throws. *)
Definition handleApiError (error : ApiError) (token : TokenRef) (pool : Pool)
  : Pool * jsstring :=
  let status := statusOf error in
  let errorBody := errorBodyOf error in
  if isForbidden status then
    (disableCurrentToken token pool, FORBIDDEN_PREFIX ++ errorBody)
  else
    (pool, js "API请求失败 (" ++ statusText status ++ js "): " ++ errorBody).

(** ** [generateAssistantResponse] *)

(** How a response stream finishes: ['end'], or ['error'] with its error. *)
Inductive StreamEnd :=
| End
| Error (e : ApiError).

(** What [axios] does with the request: it resolves with a response whose
    body then delivers [Buffer] chunks, or it rejects. *)
Inductive AxiosReply :=
| Resolved (chunks : list (list byte)) (fin : StreamEnd)
| Rejected (e : ApiError).

(** What [antigravity_fetchStream] reports: the status given to [onStart]
    (if it is called at all), the chunks given to [onData], then [onEnd] or
    [onError]. [src/AntigravityRequester.js] is not among the sources; its
    chunks are taken to be strings. *)
Record RequesterReply := {
  started : option N;
  delivered : list jsstring;
  finished : StreamEnd
}.

(** [tokenManager.getToken()]: the pool after the call and the token, if an
    account is available. *)
Variable getToken : Pool -> Pool * option TokenRef.
(** The reply of the backend to a request sent with a given account. *)
Variable axios : TokenRef -> AxiosReply.
Variable antigravity_fetchStream : TokenRef -> RequesterReply.
(** The module-level [useAxios]. *)
Variable useAxios : bool.

Inductive Completion :=
| Returned
| Threw (msg : jsstring).

(** One call of [generateAssistantResponse]: the pool afterwards, the events
    the callback received, the accounts a request was sent with, and how the
    call completed. *)
Record Run := {
  pool_after : Pool;
  events : list Event;
  sent_with : list TokenRef;
  completion : Completion
}.

Definition NO_TOKEN : jsstring :=
  js "没有可用的token，请运行 npm run login 获取token".

Definition interpret (chunks : list (list byte)) : list Event :=
  eventsOfBuffers JSON_parse JSON_stringify generateToolCallId chunks.

Definition interpretStrings (chunks : list jsstring) : list Event :=
  eventsOfStrings JSON_parse JSON_stringify generateToolCallId chunks.

Definition is200 (s : option N) : bool :=
  match s with
  | Some n => (n =? 200)%N
  | None => false
  end.

Definition generateAssistantResponse (pool : Pool) : Run :=
  match getToken pool with
  | (pool1, None) =>
      {| pool_after := pool1; events := []; sent_with := [];
         completion := Threw NO_TOKEN |}
  | (pool1, Some token) =>
      if useAxios then
        match axios token with
        | Resolved chunks End =>
            {| pool_after := pool1; events := interpret chunks;
               sent_with := [token]; completion := Returned |}
        | Resolved chunks (Error e) =>
            let (pool2, msg) := handleApiError e token pool1 in
            {| pool_after := pool2; events := interpret chunks;
               sent_with := [token]; completion := Threw msg |}
        | Rejected e =>
            let (pool2, msg) := handleApiError e token pool1 in
            {| pool_after := pool2; events := [];
               sent_with := [token]; completion := Threw msg |}
        end
      else
        let reply := antigravity_fetchStream token in
        let ok := is200 (started reply) in
        let received := if ok then interpretStrings (delivered reply) else [] in
        let errorBody := if ok then [] else List.concat (delivered reply) in
        match finished reply with
        | End =>
            if ok then
              {| pool_after := pool1; events := received;
                 sent_with := [token]; completion := Returned |}
            else
              let (pool2, msg) :=
                handleApiError {| response := None;
                                  err_status := started reply;
                                  message := errorBody |} token pool1 in
              {| pool_after := pool2; events := received;
                 sent_with := [token]; completion := Threw msg |}
        | Error e =>
            let (pool2, msg) := handleApiError e token pool1 in
            {| pool_after := pool2; events := received;
               sent_with := [token]; completion := Threw msg |}
        end
  end.


End Client.

End Api.

(* ================================================================== *)
(** * The streaming branch of POST /v1/chat/completions ([src/server/index.js]) *)
(* ================================================================== *)

Module Server.

Import Stream Api.

Inductive FinishReason :=
| tool_calls
| stop.

(** The [delta] of a stream chunk. *)
Inductive Delta :=
| Content (content : JSON)
| ToolCallsDelta (calls : list ToolCall)
| EmptyDelta.

(** What is written to the response: a chunk made by [createStreamChunk]
    (its [id], [created] and [model] are the same on every chunk of a
    response and are left out), or the literal [data: [DONE]]. *)
Inductive Frame :=
| Chunk (delta : Delta) (finish_reason : option FinishReason)
| DONE.

Record Response := {
  frames : list Frame;
  ended : bool
}.

(** What the callback given to [generateAssistantResponse] writes. *)
Definition frameOf (ev : Event) : Frame :=
  match ev with
  | ToolCalls calls => Chunk (ToolCallsDelta calls) None
  | Thinking c | Text c => Chunk (Content c) None
  end.

Definition isToolCalls (ev : Event) : bool :=
  match ev with
  | ToolCalls _ => true
  | _ => false
  end.

(** [hasToolCall] once the callback has received [evs]. *)
Definition hasToolCall (evs : list Event) : bool := existsb isToolCalls evs.

(** [endStream(res, id, created, model, finish_reason)] *)
Definition endStream (reason : FinishReason) : list Frame :=
  [Chunk EmptyDelta (Some reason); DONE].

Definition ERROR_PREFIX : jsstring := js "错误: ".

(** The branch [stream && !isImageModel] of the handler, from the call of
    [generateAssistantResponse] on, and the [catch] around it. Headers are
    sent with the first write. *)
Definition streamResponse (run : Run) : Response :=
  let written := map frameOf (events run) in
  match completion run with
  | Returned =>
      {| frames := written
                   ++ endStream (if hasToolCall (events run) then tool_calls else stop);
         ended := true |}
  | Threw msg =>
      match written with
      | [] =>
          {| frames := Chunk (Content (JStr (ERROR_PREFIX ++ msg))) None :: endStream stop;
             ended := true |}
      | _ :: _ => {| frames := written; ended := false |}
      end
  end.

End Server.

(* ================================================================== *)
(** * The Request Builder ([src/utils/converters/common.js], [claude.js]) *)
(* ================================================================== *)

Module Builder.

(** ** Client messages (Claude format) *)

Record ImageSource := {
  source_type : jsstring;
  media_type : option jsstring;
  source_data : option jsstring
}.

(** An entry of a [tool_result]'s array content. *)
Record ResultBlock := {
  block_type : jsstring;
  block_text : option jsstring
}.

Inductive ResultContent :=
| ResultString (s : jsstring)
| ResultBlocks (blocks : list ResultBlock)
| ResultOther.

(** A segment of an array content, by its [type]; optional fields are the
    ones the converter probes before use. *)
Inductive ContentItem :=
| TextItem (text : option jsstring)
| ThinkingItem (thinking : option jsstring) (signature : option jsstring)
| ToolUseItem (id name : jsstring) (input : option JSON) (signature : option jsstring)
| ToolResultItem (tool_use_id : jsstring) (content : ResultContent)
| ImageItem (source : option ImageSource)
| OtherItem.

Inductive Content :=
| Plain (text : jsstring)
| Items (items : list ContentItem)
| NoContent.

Inductive ClientRole :=
| RoleUser
| RoleAssistant
| RoleOther.

Record ChatMessage := {
  msg_role : ClientRole;
  msg_content : Content
}.

(** ** Backend turns *)

Inductive Part :=
| PText (text : jsstring)
| PThought (text : jsstring) (thoughtSignature : option jsstring)
| PFunctionCall (id name : jsstring) (args : JSON) (thoughtSignature : option jsstring)
| PFunctionResponse (id name : jsstring) (output : jsstring)
| PInlineData (mimeType data : jsstring).

Inductive Role :=
| user
| model.

Record Turn := {
  role : Role;
  parts : list Part
}.

Definition isModel (r : Role) : bool :=
  match r with model => true | user => false end.

Definition isUser (r : Role) : bool :=
  match r with user => true | model => false end.

(** ** Truthiness of strings that may be missing *)

Definition nonEmpty (s : jsstring) : bool :=
  match s with [] => false | _ :: _ => true end.

Definition truthyStr (s : option jsstring) : bool :=
  match s with Some t => nonEmpty t | None => false end.

(** [a || b] *)
Definition orElse (a b : option jsstring) : option jsstring :=
  if truthyStr a then a else b.

(** [s || d] where a string is wanted *)
Definition orDefault (s : option jsstring) (d : jsstring) : jsstring :=
  match s with
  | Some t => if nonEmpty t then t else d
  | None => d
  end.

(** [a === b] for a truthy string [a] *)
Definition sameString (a b : option jsstring) : bool :=
  match a, b with
  | Some x, Some y => JsString.eqb x y
  | _, _ => false
  end.

Definition SPACE : jsstring := js " ".

(** ** [antigravityMessages] and the last of its elements *)

(** [antigravityMessages[antigravityMessages.length - 1]] *)
Definition lastMessage (msgs : list Turn) : option Turn :=
  nth_error msgs (List.length msgs - 1).

(** [lastMessage.parts.push(...extra)]: the last turn is changed in place. *)
Fixpoint pushToLast (extra : list Part) (msgs : list Turn) : list Turn :=
  match msgs with
  | [] => []
  | t :: rest =>
      match rest with
      | [] => [{| role := role t; parts := parts t ++ extra |}]
      | _ :: _ => t :: pushToLast extra rest
      end
  end.

(** [pushUserMessage(extracted, antigravityMessages)] *)
Definition pushUserMessage (text : jsstring) (images : list Part)
                           (msgs : list Turn) : list Turn :=
  msgs ++ [{| role := user;
              parts := PText (if nonEmpty text then text else SPACE) :: images |}].

Definition functionCallName (toolCallId : jsstring) (p : Part) : option jsstring :=
  match p with
  | PFunctionCall id name _ _ =>
      if JsString.eqb id toolCallId then Some name else None
  | _ => None
  end.

(** The inner loop of [findFunctionNameById] over the parts of one turn. *)
Fixpoint findInParts (toolCallId : jsstring) (ps : list Part) : option jsstring :=
  match ps with
  | [] => None
  | p :: rest =>
      match functionCallName toolCallId p with
      | Some name => Some name
      | None => findInParts toolCallId rest
      end
  end.

(** The outer loop, over the turns from the last one to the first. *)
Fixpoint findInTurns (toolCallId : jsstring) (backwards : list Turn) : option jsstring :=
  match backwards with
  | [] => None
  | t :: earlier =>
      match (if isModel (role t) then findInParts toolCallId (parts t) else None) with
      | Some name => Some name
      | None => findInTurns toolCallId earlier
      end
  end.

(** [findFunctionNameById(toolCallId, antigravityMessages)] *)
Definition findFunctionNameById (toolCallId : jsstring) (msgs : list Turn) : jsstring :=
  match findInTurns toolCallId (rev msgs) with
  | Some name => name
  | None => []
  end.

Definition isFunctionResponse (p : Part) : bool :=
  match p with PFunctionResponse _ _ _ => true | _ => false end.

(** [pushFunctionResponse(toolCallId, functionName, resultContent, antigravityMessages)] *)
Definition pushFunctionResponse (toolCallId functionName resultContent : jsstring)
                                (msgs : list Turn) : list Turn :=
  let functionResponse := PFunctionResponse toolCallId functionName resultContent in
  match lastMessage msgs with
  | Some last =>
      if isUser (role last) && existsb isFunctionResponse (parts last)
      then pushToLast [functionResponse] msgs
      else msgs ++ [{| role := user; parts := [functionResponse] |}]
  | None => msgs ++ [{| role := user; parts := [functionResponse] |}]
  end.

(** [createThoughtPart(text, signature)] *)
Definition createThoughtPart (text : jsstring) (signature : option jsstring) : Part :=
  PThought (if nonEmpty text then text else SPACE)
           (if truthyStr signature then signature else None).

(** [createFunctionCallPart(id, name, args, signature)], [args] being the
    value [JSON.parse] gives back. *)
Definition createFunctionCallPart (id name : jsstring) (args : JSON)
                                  (signature : option jsstring) : Part :=
  PFunctionCall id name args (if truthyStr signature then signature else None).

(** [pushModelMessage({ parts, toolCalls, hasContent }, antigravityMessages)] *)
Definition pushModelMessage (newParts toolCalls : list Part) (hasContent : bool)
                            (msgs : list Turn) : list Turn :=
  let hasToolCalls := match toolCalls with [] => false | _ :: _ => true end in
  match lastMessage msgs with
  | Some last =>
      if isModel (role last) && hasToolCalls && negb hasContent
      then pushToLast toolCalls msgs
      else msgs ++ [{| role := model; parts := newParts ++ toolCalls |}]
  | None => msgs ++ [{| role := model; parts := newParts ++ toolCalls |}]
  end.

(** [delete part.thoughtSignature] *)
Definition deleteThoughtSignature (p : Part) : Part :=
  match p with
  | PThought t _ => PThought t None
  | PFunctionCall id name args _ => PFunctionCall id name args None
  | _ => p
  end.

(** ** Shapes of parts and of turn sequences, for the properties *)

Definition isThought (p : Part) : bool :=
  match p with PThought _ _ => true | _ => false end.

Definition isFunctionCall (p : Part) : bool :=
  match p with PFunctionCall _ _ _ _ => true | _ => false end.

(** A thought part carries a non-empty text and a non-empty signature; any
    other part passes. *)
Definition thoughtSigned (p : Part) : bool :=
  match p with
  | PThought text signature => nonEmpty text && truthyStr signature
  | _ => true
  end.

(** The number of [functionResponse] parts in all turns. *)
Definition countResponses (msgs : list Turn) : nat :=
  List.length (filter isFunctionResponse (flat_map parts msgs)).

(** [built allowed msgs msgs']: [msgs'] comes from [msgs] by pushing turns
    and by pushing parts onto the last turn, all parts being [allowed]. *)
Inductive built (allowed : Part -> Prop) (msgs : list Turn) : list Turn -> Prop :=
| built_same :
    built allowed msgs msgs
| built_turn (msgs' : list Turn) (t : Turn) :
    built allowed msgs msgs' ->
    Forall allowed (parts t) ->
    built allowed msgs (msgs' ++ [t])
| built_parts (msgs' : list Turn) (extra : list Part) :
    built allowed msgs msgs' ->
    Forall allowed extra ->
    built allowed msgs (pushToLast extra msgs').

(** Somewhere in [msgs] a model turn holding the call [id] of function [name]
    is immediately followed by a user turn holding the response to [id],
    under the same name, with output [output]. *)
Definition answeredCall (id name output : jsstring) (msgs : list Turn) : Prop :=
  exists front m u back args signature,
    msgs = front ++ m :: u :: back /\
    role m = model /\
    In (PFunctionCall id name args signature) (parts m) /\
    role u = user /\
    In (PFunctionResponse id name output) (parts u).

(** ** Signatures *)

(** An entry of the signature cache ([src/utils/thoughtSignatureCache.js]). *)
Record CacheEntry := {
  entry_signature : option jsstring;
  entry_content : option jsstring
}.

Record SignatureContext := {
  reasoningSignature : option jsstring;
  reasoningContent : jsstring;
  toolSignature : option jsstring;
  toolContent : jsstring
}.

(** The tool-name registry ([src/utils/toolNameCache.js]): the calls of
    [setToolNameMapping(model, safeName, originalName)] made so far. *)
Definition Registry := list (jsstring * jsstring * jsstring).

(** The arrays and caches a conversion writes to. *)
Record Conversion := {
  antigravityMessages : list Turn;
  toolNames : Registry
}.

Section Converter.

(** [sanitizeToolName] of [src/utils/utils.js] *)
Variable sanitizeToolName : jsstring -> jsstring.
(** [JSON.parse(JSON.stringify(v))] *)
Variable reparse : JSON -> JSON.
(** [isImageModel], [shouldCacheSignature({ hasTools, isImageModel })] and
    [getSignature(sessionId, model, { hasTools })] of the signature cache *)
Variable isImageModel : jsstring -> bool.
Variable shouldCacheSignature : bool -> bool -> bool.
Variable getSignature : jsstring -> jsstring -> bool -> option CacheEntry.
(** [config.useFallbackSignature] and the fallback signatures of a model *)
Variable useFallbackSignature : bool.
Variable getThoughtSignatureForModel : jsstring -> option jsstring.
Variable getToolSignatureForModel : jsstring -> option jsstring.

(** [getSignatureContext(sessionId, actualModelName, hasTools)] *)
Definition getSignatureContext (sessionId actualModelName : jsstring)
                               (hasTools : bool) : SignatureContext :=
  let isImage := isImageModel actualModelName in
  let shouldGetCached := shouldCacheSignature hasTools isImage in
  let cachedEntry :=
    if shouldGetCached then getSignature sessionId actualModelName hasTools
    else None in
  match cachedEntry with
  | Some entry =>
      {| reasoningSignature := entry_signature entry;
         reasoningContent := orDefault (entry_content entry) SPACE;
         toolSignature := entry_signature entry;
         toolContent := orDefault (entry_content entry) SPACE |}
  | None =>
      if useFallbackSignature then
        {| reasoningSignature := getThoughtSignatureForModel actualModelName;
           reasoningContent := SPACE;
           toolSignature := if hasTools
                            then getToolSignatureForModel actualModelName
                            else None;
           toolContent := SPACE |}
      else
        {| reasoningSignature := None; reasoningContent := SPACE;
           toolSignature := None; toolContent := SPACE |}
  end.

(** [processToolName(originalName, sessionId, actualModelName)] *)
Definition processToolName (originalName actualModelName : jsstring)
                           (names : Registry) : jsstring * Registry :=
  let safeName := sanitizeToolName originalName in
  if nonEmpty actualModelName && negb (JsString.eqb safeName originalName)
  then (safeName, names ++ [(actualModelName, safeName, originalName)])
  else (safeName, names).

(** ** [extractImagesFromClaudeContent] *)

Definition imagePart (source : option ImageSource) : list Part :=
  match source with
  | Some src =>
      if JsString.eqb (source_type src) (js "base64") && truthyStr (source_data src)
      then [PInlineData (orDefault (media_type src) (js "image/png"))
                        (orDefault (source_data src) [])]
      else []
  | None => []
  end.

Definition extractItem (acc : jsstring * list Part) (item : ContentItem)
  : jsstring * list Part :=
  match item with
  | TextItem t => (fst acc ++ orDefault t [], snd acc)
  | ImageItem source => (fst acc, snd acc ++ imagePart source)
  | _ => acc
  end.

Definition extractImagesFromClaudeContent (content : Content) : jsstring * list Part :=
  match content with
  | Plain text => (text, [])
  | Items items => fold_left extractItem items ([], [])
  | NoContent => ([], [])
  end.

(** ** [handleClaudeAssistantMessage] *)

(** The variables the loop over [content] writes. *)
Record Collected := {
  textContent : jsstring;
  thinkingContent : jsstring;
  toolCalls : list Part;
  messageSignature : option jsstring;
  names : Registry
}.

Definition collectItem (enableThinking : bool) (actualModelName : jsstring)
                       (ctx : SignatureContext)
                       (acc : Collected) (item : ContentItem) : Collected :=
  match item with
  | TextItem t =>
      {| textContent := textContent acc ++ orDefault t [];
         thinkingContent := thinkingContent acc;
         toolCalls := toolCalls acc;
         messageSignature := messageSignature acc;
         names := names acc |}
  | ThinkingItem thinking signature =>
      {| textContent := textContent acc;
         thinkingContent := thinkingContent acc ++ orDefault thinking [];
         toolCalls := toolCalls acc;
         messageSignature :=
           if negb (truthyStr (messageSignature acc)) && truthyStr signature
           then signature else messageSignature acc;
         names := names acc |}
  | ToolUseItem id name input itemSignature =>
      let (safeName, names') := processToolName name actualModelName (names acc) in
      let signature :=
        if enableThinking
        then orElse itemSignature (orElse (toolSignature ctx) (reasoningSignature ctx))
        else None in
      let args := reparse match input with
                          | Some v => if truthy v then v else JObj []
                          | None => JObj []
                          end in
      {| textContent := textContent acc;
         thinkingContent := thinkingContent acc;
         toolCalls := toolCalls acc ++ [createFunctionCallPart id safeName args signature];
         messageSignature := messageSignature acc;
         names := names' |}
  | _ => acc
  end.

Definition collect (enableThinking : bool) (actualModelName : jsstring)
                   (ctx : SignatureContext) (content : Content)
                   (names0 : Registry) : Collected :=
  let start := {| textContent := []; thinkingContent := []; toolCalls := [];
                  messageSignature := None; names := names0 |} in
  match content with
  | Plain text =>
      {| textContent := text; thinkingContent := []; toolCalls := [];
         messageSignature := None; names := names0 |}
  | Items items => fold_left (collectItem enableThinking actualModelName ctx) items start
  | NoContent => start
  end.

(** The [functionCall] part a [tool_use] item becomes. *)
Definition toolCallOf (enableThinking : bool) (ctx : SignatureContext)
                      (item : ContentItem) : list Part :=
  match item with
  | ToolUseItem id name input itemSignature =>
      [createFunctionCallPart id (sanitizeToolName name)
         (reparse match input with
                  | Some v => if truthy v then v else JObj []
                  | None => JObj []
                  end)
         (if enableThinking
          then orElse itemSignature (orElse (toolSignature ctx) (reasoningSignature ctx))
          else None)]
  | _ => []
  end.

Definition isToolUse (item : ContentItem) : bool :=
  match item with ToolUseItem _ _ _ _ => true | _ => false end.

(** The [tool_use] items of a content. *)
Definition toolUses (content : Content) : list ContentItem :=
  match content with
  | Items items => filter isToolUse items
  | _ => []
  end.

(** The signatures the [thinking] items of a content carry. *)
Definition thinkingSignatures (content : Content) : list (option jsstring) :=
  match content with
  | Items items =>
      flat_map (fun item => match item with
                            | ThinkingItem _ signature => [signature]
                            | _ => []
                            end) items
  | _ => []
  end.

(** [hasContent] *)
Definition hasContentOf (textContent : jsstring) : bool :=
  nonEmpty textContent && nonEmpty (trim textContent).

(** The text that goes with a signature. *)
Definition reasoningTextFor (ctx : SignatureContext) (thinkingContent : jsstring)
                            (signature : option jsstring) : jsstring :=
  if nonEmpty thinkingContent then thinkingContent
  else if sameString signature (reasoningSignature ctx)
       then (if nonEmpty (reasoningContent ctx) then reasoningContent ctx else SPACE)
  else if sameString signature (toolSignature ctx)
       then (if nonEmpty (toolContent ctx) then toolContent ctx else SPACE)
  else SPACE.

(** The [parts] array handed to [pushModelMessage]. *)
Definition messageParts (enableThinking : bool) (ctx : SignatureContext)
                        (c : Collected) : list Part :=
  let thought :=
    if enableThinking then
      let signature := orElse (messageSignature c)
                              (orElse (reasoningSignature ctx) (toolSignature ctx)) in
      if truthyStr signature
      then [createThoughtPart (reasoningTextFor ctx (thinkingContent c) signature)
                              signature]
      else []
    else [] in
  let text :=
    if hasContentOf (textContent c) then [PText (trimEnd (textContent c))] else [] in
  let parts := thought ++ text in
  if negb enableThinking then
    match parts with
    | first :: rest => deleteThoughtSignature first :: rest
    | [] => []
    end
  else parts.

Definition handleClaudeAssistantMessage (message : ChatMessage) (enableThinking : bool)
                                        (actualModelName sessionId : jsstring)
                                        (hasTools : bool) (conv : Conversion)
  : Conversion :=
  let ctx := getSignatureContext sessionId actualModelName hasTools in
  let c := collect enableThinking actualModelName ctx (msg_content message)
                   (toolNames conv) in
  {| antigravityMessages :=
       pushModelMessage (messageParts enableThinking ctx c) (toolCalls c)
                        (hasContentOf (textContent c)) (antigravityMessages conv);
     toolNames := names c |}.

(** ** [handleClaudeToolResult] *)

(** The loop on a content all of whose entries are objects, as are the
    entries of the array contents of its items; [ToolResults] below has the
    same loop on entries that may be [null], where reading [item.type] or
    [c.type] throws. *)
Definition blockText (b : ResultBlock) : jsstring :=
  if JsString.eqb (block_type b) (js "text") then orDefault (block_text b) [] else [].

(** [resultContent] of a [tool_result] item *)
Definition resultContentOf (content : ResultContent) : jsstring :=
  match content with
  | ResultString s => s
  | ResultBlocks blocks => List.concat (map blockText blocks)
  | ResultOther => []
  end.

Definition handleToolResultItem (msgs : list Turn) (item : ContentItem) : list Turn :=
  match item with
  | ToolResultItem toolUseId content =>
      let functionName := findFunctionNameById toolUseId msgs in
      pushFunctionResponse toolUseId functionName (resultContentOf content) msgs
  | _ => msgs
  end.

Definition handleClaudeToolResult (message : ChatMessage) (msgs : list Turn) : list Turn :=
  match msg_content message with
  | Items items => fold_left handleToolResultItem items msgs
  | _ => msgs
  end.

(** ** [claudeMessageToAntigravity] *)

Definition isToolResult (item : ContentItem) : bool :=
  match item with ToolResultItem _ _ => true | _ => false end.

Definition hasToolResult (content : Content) : bool :=
  match content with
  | Items items => existsb isToolResult items
  | _ => false
  end.

Definition convertMessage (enableThinking : bool) (actualModelName sessionId : jsstring)
                          (hasTools : bool) (conv : Conversion) (message : ChatMessage)
  : Conversion :=
  match msg_role message with
  | RoleUser =>
      if hasToolResult (msg_content message) then
        {| antigravityMessages := handleClaudeToolResult message (antigravityMessages conv);
           toolNames := toolNames conv |}
      else
        let (text, images) := extractImagesFromClaudeContent (msg_content message) in
        {| antigravityMessages := pushUserMessage text images (antigravityMessages conv);
           toolNames := toolNames conv |}
  | RoleAssistant =>
      handleClaudeAssistantMessage message enableThinking actualModelName sessionId
                                   hasTools conv
  | RoleOther => conv
  end.

(** The loop of [claudeMessageToAntigravity], from any state of the arrays. *)
Definition convertMessages (enableThinking : bool) (actualModelName sessionId : jsstring)
                           (hasTools : bool) (claudeMessages : list ChatMessage)
                           (conv : Conversion) : Conversion :=
  fold_left (convertMessage enableThinking actualModelName sessionId hasTools)
            claudeMessages conv.

Definition claudeMessageToAntigravity (claudeMessages : list ChatMessage)
                                      (enableThinking : bool)
                                      (actualModelName sessionId : jsstring)
                                      (hasTools : bool) (names0 : Registry)
  : Conversion :=
  convertMessages enableThinking actualModelName sessionId hasTools claudeMessages
                  {| antigravityMessages := []; toolNames := names0 |}.

End Converter.

(** ** [buildRequestBody] and [generateClaudeRequestBody] *)

(** A tool of the client's list; an entry may be [null]. *)
Record ClaudeTool := {
  tool_name : option jsstring;
  tool_definition : JSON
}.

(** [hasWebSearchTool(tools)]; [None] is a [tools] that is no array. *)
Definition hasWebSearchTool (tools : option (list (option ClaudeTool))) : bool :=
  match tools with
  | Some l =>
      existsb (fun tool => match tool with
                           | Some t => sameString (tool_name t) (Some (js "web_search"))
                           | None => false
                           end) l
  | None => false
  end.

Inductive RequestType :=
| agent
| web_search.

Section RequestBody.

(** A converted tool, as [convertClaudeToolsToAntigravity] of
    [src/utils/toolConverter.js] returns it. *)
Variable BackendTool : Type.
(** The settings of a generation config other than [candidateCount], and the
    generation parameters of the client. *)
Variable Settings : Type.
Variable Parameters : Type.
(** The client's system prompt and the object [buildSystemInstruction] makes
    of it; no property below depends on how. *)
Variable SystemPrompt : Type.
Variable SystemInstruction : Type.
Variable buildSystemInstruction : SystemPrompt -> option SystemInstruction.

Record GenerationConfig := {
  candidateCount : option N;
  settings : Settings
}.

(** An entry of [request.tools]. *)
Inductive ToolEntry :=
| googleSearch (imageSearchMaxResultCount : N)
| declared (tool : BackendTool).

Record ToolConfig := {
  functionCallingMode : jsstring
}.

Record Request := {
  contents : list Turn;
  generationConfig : option GenerationConfig;
  req_sessionId : jsstring;
  tools : option (list ToolEntry);
  toolConfig : option ToolConfig;
  systemInstruction : option SystemInstruction
}.

Record RequestBody := {
  project : jsstring;
  requestId : jsstring;
  request : Request;
  req_model : jsstring;
  userAgent : jsstring;
  requestType : RequestType
}.

Definition SEARCH_MODEL : jsstring := js "gemini-2.5-flash".

Definition GOOGLE_SEARCH : list ToolEntry := [googleSearch 5].

Definition forceSingleCandidate (g : GenerationConfig) : GenerationConfig :=
  {| candidateCount := Some 1%N; settings := settings g |}.

(** [buildRequestBody({ contents, tools, generationConfig, sessionId,
    systemInstruction, isWebSearch }, token, actualModelName)];
    [newRequestId] is what [generateRequestId()] returns. *)
Definition buildRequestBody (contents0 : list Turn) (tools0 : list BackendTool)
                            (generationConfig0 : option GenerationConfig)
                            (sessionId : jsstring) (systemPrompt : SystemPrompt)
                            (isWebSearch : bool)
                            (tokenProjectId newRequestId actualModelName : jsstring)
  : RequestBody :=
  let hasTools := match tools0 with [] => false | _ :: _ => true end in
  let finalModel := if isWebSearch then SEARCH_MODEL else actualModelName in
  let requestType0 := if isWebSearch then web_search else agent in
  {| project := tokenProjectId;
     requestId := newRequestId;
     request :=
       {| contents := contents0;
          generationConfig :=
            if isWebSearch then option_map forceSingleCandidate generationConfig0
            else generationConfig0;
          req_sessionId := sessionId;
          tools :=
            if isWebSearch then Some GOOGLE_SEARCH
            else if hasTools then Some (map declared tools0)
            else None;
          toolConfig :=
            if isWebSearch then None
            else if hasTools then Some {| functionCallingMode := js "VALIDATED" |}
            else None;
          systemInstruction := buildSystemInstruction systemPrompt |};
     req_model := finalModel;
     userAgent := js "antigravity";
     requestType := requestType0 |}.

(** [isEnableThinking], [modelMapping] and [generateGenerationConfig] of
    [src/utils/utils.js]; the latter returns an object. *)
Variable isEnableThinking : jsstring -> bool.
Variable modelMapping : jsstring -> jsstring.
Variable generateGenerationConfig : Parameters -> bool -> jsstring -> GenerationConfig.
(** [generateRequestId()] *)
Variable newRequestId : jsstring.

(** The parameters of the converter. *)
Variable sanitizeToolName : jsstring -> jsstring.
Variable reparse : JSON -> JSON.
Variable isImageModel : jsstring -> bool.
Variable shouldCacheSignature : bool -> bool -> bool.
Variable getSignature : jsstring -> jsstring -> bool -> option CacheEntry.
Variable useFallbackSignature : bool.
Variable getThoughtSignatureForModel : jsstring -> option jsstring.
Variable getToolSignatureForModel : jsstring -> option jsstring.

(** [generateClaudeRequestBody(claudeMessages, modelName, parameters,
    claudeTools, systemPrompt, token)]. [convertClaudeToolsToAntigravity] is
    an argument here: it returns the converted tools and the tool-name
    registry it leaves behind. The result is the request body and the
    registry after the call. *)
Definition generateClaudeRequestBody
    (convertClaudeToolsToAntigravity :
       option (list (option ClaudeTool)) -> jsstring -> jsstring -> Registry
       -> list BackendTool * Registry)
    (claudeMessages : list ChatMessage) (modelName : jsstring)
    (parameters : Parameters) (claudeTools : option (list (option ClaudeTool)))
    (systemPrompt : SystemPrompt) (tokenSessionId tokenProjectId : jsstring)
    (names0 : Registry)
  : RequestBody * Registry :=
  let enableThinking := isEnableThinking modelName in
  let actualModelName := modelMapping modelName in
  let isWebSearch := hasWebSearchTool claudeTools in
  let (tools0, names1) :=
    if isWebSearch then ([], names0)
    else convertClaudeToolsToAntigravity claudeTools tokenSessionId
                                         actualModelName names0 in
  let hasTools := match tools0 with [] => false | _ :: _ => true end in
  let conv := claudeMessageToAntigravity sanitizeToolName reparse isImageModel
                shouldCacheSignature getSignature useFallbackSignature
                getThoughtSignatureForModel getToolSignatureForModel
                claudeMessages enableThinking actualModelName tokenSessionId
                hasTools names1 in
  (buildRequestBody (antigravityMessages conv) tools0
                    (Some (generateGenerationConfig parameters enableThinking
                                                    actualModelName))
                    tokenSessionId systemPrompt isWebSearch
                    tokenProjectId newRequestId actualModelName,
   toolNames conv).

End RequestBody.

End Builder.

(* ================================================================== *)
(** * Character boundaries in a byte stream *)
(* ================================================================== *)

Module Boundary.

(** The state of the decoder of [Buffer.prototype.toString()] once it has
    read [bs] from state [d]; it follows [decode] step by step. *)
Fixpoint stateAfter (d : decoder) (bs : list N) : decoder :=
  match bs with
  | [] => d
  | b :: rest =>
      match needed d with
      | 0 => stateAfter (snd (lead b)) rest
      | S k =>
          if (lower d <=? b)%N && (b <=? upper d)%N then
            match k with
            | 0 => stateAfter idle rest
            | S _ => stateAfter {| needed := k;
                                   codepoint := (N.shiftl (codepoint d) 6
                                                 + N.land b 63)%N;
                                   lower := 128; upper := 191 |} rest
            end
          else stateAfter (snd (lead b)) rest
      end
  end.

(** The chunk does not end inside a multi-byte character. *)
Definition endsOnBoundary (chunk : list byte) : bool :=
  match needed (stateAfter idle (map Byte.to_N chunk)) with
  | 0 => true
  | S _ => false
  end.

(** Every byte of the chunk is below 128. *)
Definition isAscii (chunk : list byte) : bool :=
  forallb (fun b => (Byte.to_N b <? 128)%N) chunk.

End Boundary.

(* ================================================================== *)
(** * The system instruction ([src/utils/converters/common.js]) *)
(* ================================================================== *)

Module SystemPrompt.

Import Builder.

(** What a call gives: a value, or a [TypeError] thrown on the way. *)
Inductive Result (A : Type) : Type :=
| Ok (a : A)
| TypeError.

Arguments Ok {A} a.
Arguments TypeError {A}.

(** [{ text: s }] *)
Definition textPart (s : jsstring) : JSON := JObj [(js "text", JStr s)].

(** The field [k] of the cleaned part, if [part.k !== undefined]. *)
Definition kept (part : JSON) (k : jsstring) : list (jsstring * JSON) :=
  match prop part k with
  | Some v => [(k, v)]
  | None => []
  end.

(** [cleanSystemPart(part)] *)
Definition cleanSystemPart (part : JSON) : JSON :=
  if negb (truthy part) || negb (typeofObject part) then part
  else
    match kept part (js "text") ++ kept part (js "inlineData")
          ++ kept part (js "fileData") with
    | [] => JNull
    | cleanedPart => JObj cleanedPart
    end.

Definition isNull (v : JSON) : bool :=
  match v with JNull => true | _ => false end.

(** [items.map(p => cleanSystemPart(p)).filter(p => p !== null)] *)
Definition cleanParts (items : list JSON) : list JSON :=
  filter (fun p => negb (isNull p)) (map cleanSystemPart items).

(** [userParts] of [buildSystemPromptParts]; [None] is a prompt that is
    [undefined]. [x.map] of a truthy [x] that is no array is a
    [TypeError]. *)
Definition userPartsOf (userSystemPrompt : jsvalue) : Result (list JSON) :=
  match userSystemPrompt with
  | None => Ok []
  | Some v =>
      if negb (truthy v) then Ok []
      else
        match v with
        | JStr s => if nonEmpty (trim s) then Ok [textPart (trim s)] else Ok []
        | JArr items => Ok (cleanParts items)
        | JObj fields =>
            match assoc (js "parts") fields with
            | Some p =>
                if truthy p then
                  match p with
                  | JArr items => Ok (cleanParts items)
                  | _ => TypeError
                  end
                else Ok []
            | None => Ok []
            end
        | _ => Ok []
        end
  end.

(** [texts.join(sep)] for strings *)
Fixpoint join (sep : jsstring) (texts : list jsstring) : jsstring :=
  match texts with
  | [] => []
  | [s] => s
  | s :: rest => s ++ sep ++ join sep rest
  end.

Definition PARAGRAPH : jsstring := [10; 10]%N.

(** [p.text || ''] for a [p] that is neither [null] nor [undefined] *)
Definition textOr (p : JSON) : JSON :=
  match prop p (js "text") with
  | Some v => if truthy v then v else JStr []
  | None => JStr []
  end.

(** [parts.map(p => p.text || '').filter(t => t.trim())]: [t.trim] of a
    truthy [t] that is no string is a [TypeError]. *)
Fixpoint keptTexts (parts : list JSON) : Result (list jsstring) :=
  match parts with
  | [] => Ok []
  | p :: rest =>
      match textOr p, keptTexts rest with
      | JStr s, Ok texts => Ok (if nonEmpty (trim s) then s :: texts else texts)
      | _, _ => TypeError
      end
  end.

(** The object [buildSystemInstruction] returns; its [role] is ['user']. *)
Record SystemInstruction := {
  si_parts : list JSON
}.

Section Config.

(** [config.officialSystemPrompt], [config.systemInstruction] and
    [config.officialPromptPosition], whatever the configuration holds
    ([None] when it holds nothing); the truth values of
    [config.useContextSystemPrompt] and [config.mergeSystemPrompt]. *)
Variable officialSystemPrompt : jsvalue.
Variable systemInstruction : jsvalue.
Variable useContextSystemPrompt : bool.
Variable mergeSystemPrompt : bool.
Variable officialPromptPosition : jsvalue.

(** [if (prompt.trim()) parts.push({ text: prompt.trim() })]: the parts a
    prompt of the configuration gives, none when it is blank; [prompt.trim]
    of a value that is no string is a [TypeError]. *)
Definition promptPart (prompt : jsvalue) : Result (list JSON) :=
  match prompt with
  | Some (JStr s) => Ok (if nonEmpty (trim s) then [textPart (trim s)] else [])
  | _ => TypeError
  end.

(** [config.officialPromptPosition === 'before'] *)
Definition isBefore (position : jsvalue) : bool :=
  match position with
  | Some (JStr s) => JsString.eqb s (js "before")
  | _ => false
  end.

(** [buildSystemPromptParts(userSystemPrompt)] *)
Definition buildSystemPromptParts (userSystemPrompt : jsvalue)
  : Result (list JSON) :=
  match userPartsOf userSystemPrompt with
  | TypeError => TypeError
  | Ok userParts =>
      match promptPart systemInstruction with
      | TypeError => TypeError
      | Ok proxy =>
          let proxyParts :=
            proxy
            ++ (if useContextSystemPrompt
                   && match userParts with [] => false | _ :: _ => true end
                then userParts else []) in
          match promptPart officialSystemPrompt with
          | TypeError => TypeError
          | Ok official =>
              Ok (if isBefore officialPromptPosition
                  then official ++ proxyParts
                  else proxyParts ++ official)
          end
      end
  end.

(** [buildSystemInstruction(userSystemPrompt)]; [Ok None] is [null]. *)
Definition buildSystemInstruction (userSystemPrompt : jsvalue)
  : Result (option SystemInstruction) :=
  match buildSystemPromptParts userSystemPrompt with
  | TypeError => TypeError
  | Ok [] => Ok None
  | Ok parts =>
      if mergeSystemPrompt then
        match keptTexts parts with
        | Ok texts =>
            Ok (Some {| si_parts := [textPart (join PARAGRAPH texts)] |})
        | TypeError => TypeError
        end
      else Ok (Some {| si_parts := parts |})
  end.

(** [baseSystem || ''] *)
Definition orEmpty (baseSystem : jsvalue) : JSON :=
  match baseSystem with
  | Some v => if truthy v then v else JStr []
  | None => JStr []
  end.

(** [mergeSystemInstruction(baseSystem, contextSystem)] *)
Definition mergeSystemInstruction (baseSystem contextSystem : jsvalue)
  : Result JSON :=
  match buildSystemInstruction contextSystem with
  | TypeError => TypeError
  | Ok None => Ok (orEmpty baseSystem)
  | Ok (Some result) =>
      match si_parts result with
      | [] => Ok (orEmpty baseSystem)
      | parts =>
          match keptTexts parts with
          | Ok texts => Ok (JStr (join PARAGRAPH texts))
          | TypeError => TypeError
          end
      end
  end.

End Config.

(** ** Shapes, for the properties *)

(** A string with a character that is not white space. *)
Definition notBlank (s : jsstring) : bool := nonEmpty (trim s).

(** A value of the configuration that is a string of white space only. *)
Definition blankString (v : jsvalue) : bool :=
  match v with
  | Some (JStr s) => negb (notBlank s)
  | _ => false
  end.

(** The keys of a cleaned part: [text], [inlineData], [fileData], each at
    most once and in this order, and at least one of them. *)
Definition sameKeys (a b : list jsstring) : bool :=
  if list_eq_dec (list_eq_dec N.eq_dec) a b then true else false.

Definition supportedKeys (fields : list (jsstring * JSON)) : bool :=
  existsb (sameKeys (map fst fields))
    [[js "text"]; [js "inlineData"]; [js "fileData"];
     [js "text"; js "inlineData"]; [js "text"; js "fileData"];
     [js "inlineData"; js "fileData"];
     [js "text"; js "inlineData"; js "fileData"]].

(** What a cleaned part may be: an object with supported keys only, or a
    value that is no object (a string, a number, a boolean), which
    [cleanSystemPart] hands back as it is. *)
Definition cleaned (p : JSON) : bool :=
  match p with
  | JObj fields => supportedKeys fields
  | JStr _ | JNum _ | JBool _ => true
  | JNull | JArr _ => false
  end.

End SystemPrompt.

(* ================================================================== *)
(** * Tool results whose entries may be [null] ([src/utils/converters/claude.js]) *)
(* ================================================================== *)

Module ToolResults.

Import Builder SystemPrompt.

(** The [content] of a [tool_result] item: a string, an array whose entries
    are objects or [null] ([None]), or anything else. *)
Inductive RawResultContent :=
| RawString (s : jsstring)
| RawBlocks (entries : list (option ResultBlock))
| RawOther.

(** An entry of [message.content], as [handleClaudeToolResult] reads it:
    [null], an object whose [type] is ['tool_result'], or an object of any
    other [type]. *)
Inductive RawItem :=
| RawNull
| RawToolResult (tool_use_id : jsstring) (content : RawResultContent)
| RawOtherItem.

(** [item.content.filter(c => c.type === 'text')]; reading [c.type] of [null]
    is a [TypeError]. *)
Fixpoint textBlocks (entries : list (option ResultBlock)) : Result (list ResultBlock) :=
  match entries with
  | [] => Ok []
  | None :: _ => TypeError
  | Some c :: rest =>
      match textBlocks rest with
      | Ok kept =>
          Ok (if JsString.eqb (block_type c) (js "text") then c :: kept else kept)
      | TypeError => TypeError
      end
  end.

(** [.map(c => c.text).join('')]; a text that is missing joins as the empty
    string. *)
Definition joinTexts (blocks : list ResultBlock) : jsstring :=
  List.concat (map (fun c => match block_text c with
                             | Some t => t
                             | None => []
                             end) blocks).

(** [resultContent] of a [tool_result] item *)
Definition resultContentOf (content : RawResultContent) : Result jsstring :=
  match content with
  | RawString s => Ok s
  | RawBlocks entries =>
      match textBlocks entries with
      | Ok blocks => Ok (joinTexts blocks)
      | TypeError => TypeError
      end
  | RawOther => Ok []
  end.

(** The body of the loop of [handleClaudeToolResult]; reading [item.type] of
    [null] is a [TypeError]. *)
Definition handleToolResultItem (msgs : list Turn) (item : RawItem)
  : Result (list Turn) :=
  match item with
  | RawNull => TypeError
  | RawOtherItem => Ok msgs
  | RawToolResult toolUseId content =>
      let functionName := findFunctionNameById toolUseId msgs in
      match resultContentOf content with
      | Ok resultContent =>
          Ok (pushFunctionResponse toolUseId functionName resultContent msgs)
      | TypeError => TypeError
      end
  end.

(** [for (const item of content) ...]: a throw ends the loop. *)
Fixpoint handleItems (items : list RawItem) (msgs : list Turn) : Result (list Turn) :=
  match items with
  | [] => Ok msgs
  | item :: rest =>
      match handleToolResultItem msgs item with
      | Ok msgs' => handleItems rest msgs'
      | TypeError => TypeError
      end
  end.

(** [handleClaudeToolResult(message, antigravityMessages)]; [content] is
    [None] when [message.content] is no array. *)
Definition handleClaudeToolResult (content : option (list RawItem)) (msgs : list Turn)
  : Result (list Turn) :=
  match content with
  | Some items => handleItems items msgs
  | None => Ok msgs
  end.

(** [content.some(item => item.type === 'tool_result')] of
    [claudeMessageToAntigravity]: the entries are read up to the first tool
    result. *)
Fixpoint someToolResult (items : list RawItem) : Result bool :=
  match items with
  | [] => Ok false
  | RawNull :: _ => TypeError
  | RawToolResult _ _ :: _ => Ok true
  | RawOtherItem :: rest => someToolResult rest
  end.

(** ** Contents without [null] *)

(** The content of [Builder], among the contents that may hold [null]. *)
Definition rawContent (content : ResultContent) : RawResultContent :=
  match content with
  | ResultString s => RawString s
  | ResultBlocks blocks => RawBlocks (map Some blocks)
  | ResultOther => RawOther
  end.

Definition rawItem (item : ContentItem) : RawItem :=
  match item with
  | ToolResultItem toolUseId content => RawToolResult toolUseId (rawContent content)
  | _ => RawOtherItem
  end.

Definition isNullEntry {A} (entry : option A) : bool :=
  match entry with None => true | Some _ => false end.

(** An array content one of whose entries is [null]. *)
Definition hasNullBlock (content : RawResultContent) : bool :=
  match content with
  | RawBlocks entries => existsb isNullEntry entries
  | _ => false
  end.

(** An entry that is [null], or a tool result whose array content has an
    entry that is [null]. *)
Definition throwsOn (item : RawItem) : bool :=
  match item with
  | RawNull => true
  | RawToolResult _ content => hasNullBlock content
  | RawOtherItem => false
  end.

Definition isRawToolResult (item : RawItem) : bool :=
  match item with RawToolResult _ _ => true | _ => false end.

(** C10 as it is worded: a tool result whose id matches no function call of
    a model turn gets the empty name, and its conversion gives a conversation
    that holds a [functionResponse] part with its id and the empty name,
    whatever its content is. *)
Definition unmatchedClaimAsWorded : Prop :=
  forall (toolUseId : jsstring) (content : RawResultContent) (msgs : list Turn),
    (forall t name args sig,
       In t msgs -> role t = model ->
       ~ In (PFunctionCall toolUseId name args sig) (parts t)) ->
    findFunctionNameById toolUseId msgs = [] /\
    exists msgs' output,
      handleToolResultItem msgs (RawToolResult toolUseId content) = Ok msgs' /\
      In (PFunctionResponse toolUseId [] output) (flat_map parts msgs').

End ToolResults.

(* ================================================================== *)
(** * Shapes of responses *)
(* ================================================================== *)

Module Shape.

Import Server.

(** A chunk that carries a delta and no finish reason. *)
Definition isContentChunk (f : Frame) : bool :=
  match f with
  | Chunk _ None => true
  | _ => false
  end.

Import Builder.

(** The text of a text part or of a thought part is not the empty string. *)
Definition textNonEmpty (p : Part) : bool :=
  match p with
  | PText t | PThought t _ => nonEmpty t
  | _ => true
  end.

(** Neither a thought part nor a part with a [thoughtSignature]. *)
Definition unsigned (p : Part) : bool :=
  match p with
  | PThought _ _ => false
  | PFunctionCall _ _ _ (Some _) => false
  | _ => true
  end.

(** The [functionCall] parts of all turns, in order. *)
Definition functionCalls (msgs : list Turn) : list Part :=
  filter isFunctionCall (flat_map parts msgs).

(** The [functionCall] parts the [tool_use] items of an assistant message
    become; other messages have none. *)
Definition callsOfMessage (sanitizeToolName : jsstring -> jsstring)
                          (reparse : JSON -> JSON) (enableThinking : bool)
                          (ctx : SignatureContext) (m : ChatMessage) : list Part :=
  match msg_role m with
  | RoleAssistant =>
      flat_map (toolCallOf sanitizeToolName reparse enableThinking ctx)
               (toolUses (msg_content m))
  | _ => []
  end.

(** The id and the output of the [functionResponse] parts of all turns, in
    order. *)
Definition responseOf (p : Part) : list (jsstring * jsstring) :=
  match p with
  | PFunctionResponse id _ output => [(id, output)]
  | _ => []
  end.

Definition functionResponses (msgs : list Turn) : list (jsstring * jsstring) :=
  flat_map responseOf (flat_map parts msgs).

(** The output of a tool result, by the shape of its content: a string is
    the output as it is; an array gives the texts of its entries of type
    [text], in order and joined, an entry without text giving nothing; any
    other content gives the empty string. *)
Definition isTextBlock (b : ResultBlock) : bool :=
  JsString.eqb (block_type b) (js "text").

Definition textOfBlock (b : ResultBlock) : jsstring :=
  match block_text b with
  | Some t => t
  | None => []
  end.

Definition statedOutput (content : ResultContent) : jsstring :=
  match content with
  | ResultString s => s
  | ResultBlocks blocks => List.concat (map textOfBlock (filter isTextBlock blocks))
  | ResultOther => []
  end.

(** The id and the output of the [tool_result] items of a user message
    that holds one; other messages have none. *)
Definition resultOf (item : ContentItem) : list (jsstring * jsstring) :=
  match item with
  | ToolResultItem id content => [(id, statedOutput content)]
  | _ => []
  end.

(** The [functionResponse] parts the [tool_result] items of [items] stand
    for, in order, when the conversation is [msgs]: each carries the id of
    its item, the name of the function call of that id in [msgs] (the empty
    string when there is none) and the output of the item. *)
Definition responseOfItem (msgs : list Turn) (item : ContentItem) : list Part :=
  match item with
  | ToolResultItem id content =>
      [PFunctionResponse id (findFunctionNameById id msgs) (statedOutput content)]
  | _ => []
  end.

Definition responsesOfItems (msgs : list Turn) (items : list ContentItem) : list Part :=
  flat_map (responseOfItem msgs) items.

(** [responses] appended to the last turn when that turn is a user turn
    holding a [functionResponse] part, and otherwise put in a new user turn;
    nothing is done for no response. *)
Definition pushResponses (responses : list Part) (msgs : list Turn) : list Turn :=
  match responses with
  | [] => msgs
  | _ :: _ =>
      match lastMessage msgs with
      | Some last =>
          if isUser (role last) && existsb isFunctionResponse (parts last)
          then pushToLast responses msgs
          else msgs ++ [{| role := user; parts := responses |}]
      | None => msgs ++ [{| role := user; parts := responses |}]
      end
  end.

Definition resultsOfMessage (m : ChatMessage) : list (jsstring * jsstring) :=
  match msg_role m, msg_content m with
  | RoleUser, Items items => flat_map resultOf items
  | _, _ => []
  end.

(** An entry of [request.tools] that is a declared tool. *)
Definition isDeclared {BackendTool : Type} (entry : ToolEntry BackendTool) : bool :=
  match entry with
  | declared _ => true
  | googleSearch _ _ => false
  end.

Definition nonEmptyParts (ps : list Part) : bool :=
  match ps with [] => false | _ :: _ => true end.

(** The parts a user turn may hold, and those a model turn may hold. *)
Definition userPart (p : Part) : bool :=
  match p with
  | PText _ | PInlineData _ _ | PFunctionResponse _ _ _ => true
  | _ => false
  end.

Definition modelPart (p : Part) : bool :=
  match p with
  | PText _ | PThought _ _ | PFunctionCall _ _ _ _ => true
  | _ => false
  end.

(** A user turn holds at least one part, all of them user parts; a model
    turn holds model parts only. *)
Definition turnOk (t : Turn) : bool :=
  match role t with
  | user => nonEmptyParts (parts t) && forallb userPart (parts t)
  | model => forallb modelPart (parts t)
  end.

(** In the sequence [ps] every [functionResponse] part with a non-empty name
    comes after a [functionCall] part with its id and its name. *)
Definition namedResponsesMatched (ps : list Part) : Prop :=
  forall n id name output,
    nth_error ps n = Some (PFunctionResponse id name output) ->
    name <> [] ->
    exists args signature, In (PFunctionCall id name args signature) (firstn n ps).

(** The registry entries the [tool_use] items of an assistant message make:
    one for every item whose name is changed by [sanitizeToolName], if a
    model name is given. *)
Definition renamingOf (sanitizeToolName : jsstring -> jsstring) (model : jsstring)
                      (item : ContentItem) : Registry :=
  match item with
  | ToolUseItem _ name _ _ =>
      if nonEmpty model && negb (JsString.eqb (sanitizeToolName name) name)
      then [(model, sanitizeToolName name, name)]
      else []
  | _ => []
  end.

Definition renamingsOfMessage (sanitizeToolName : jsstring -> jsstring)
                              (model : jsstring) (m : ChatMessage) : Registry :=
  match msg_role m, msg_content m with
  | RoleAssistant, Items items => flat_map (renamingOf sanitizeToolName model) items
  | _, _ => []
  end.

(** A registry entry records a renaming made for the model [model]. *)
Definition isRenaming (sanitizeToolName : jsstring -> jsstring) (model : jsstring)
                      (entry : jsstring * jsstring * jsstring) : Prop :=
  let '(m, safeName, originalName) := entry in
  m = model /\ model <> [] /\
  safeName = sanitizeToolName originalName /\ safeName <> originalName.

End Shape.

(* ================================================================== *)
(** * Search results and citations ([src/utils/webSearchGrounding.js]) *)
(* ================================================================== *)

Module WebSearch.

Import Builder.

(** An entry of [toWebSearchResults]; its [type] is ['web_search_result']
    and its [page_age] is [null]. *)
Record WebSearchResult := {
  title : jsstring;
  url : jsstring;
  encrypted_content : jsstring
}.

(** A citation; its [type] is ['web_search_result_location']. *)
Record Citation := {
  cited_text : jsstring;
  cite_url : jsstring;
  cite_title : jsstring;
  encrypted_index : jsstring
}.

(** [typeof v === 'string' ? v : d] *)
Definition stringOr (v : jsvalue) (d : jsstring) : jsstring :=
  match v with
  | Some (JStr s) => s
  | _ => d
  end.

(** [Array.isArray(v) ? v : []] *)
Definition arrayOr (v : jsvalue) : list JSON :=
  match v with
  | Some (JArr items) => items
  | _ => []
  end.

(** The array index a number stands for when it is used as a key of an
    array: [bits] is the binary64 pattern; [+0] and [-0] are index 0, an
    integer below [2^32 - 1] is itself, any other number is no index. *)
Definition asIndex (bits : N) : option nat :=
  let negative := N.testbit bits 63 in
  let exponent := N.land (N.shiftr bits 52) 2047 in
  let fraction := N.land bits 4503599627370495 in
  if (exponent =? 0)%N then
    if (fraction =? 0)%N then Some 0 else None
  else if negative || (exponent =? 2047)%N then None
  else
    let significand := (4503599627370496 + fraction)%N in
    if (exponent <? 1023)%N then None
    else if (1075 <=? exponent)%N then None
    else
      let shift := (1075 - exponent)%N in
      if (N.land significand (N.ones shift) =? 0)%N then
        let value := N.shiftr significand shift in
        if (value <? 4294967295)%N then Some (N.to_nat value) else None
      else None.

Section Encoding.

(** [stableEncryptedContent(payload)]: the base64 text of
    [JSON.stringify(payload)]. *)
Variable stableEncryptedContent : JSON -> jsstring.

(** [chunk?.web || {}] *)
Definition webOf (chunk : JSON) : JSON :=
  match optProp (Some chunk) (js "web") with
  | Some web => if truthy web then web else JObj []
  | None => JObj []
  end.

(** The object [toWebSearchResults] maps a chunk to. *)
Definition resultOfChunk (chunk : JSON) : WebSearchResult :=
  let web := webOf chunk in
  let url0 := stringOr (prop web (js "uri")) [] in
  let title0 :=
    match prop web (js "title") with
    | Some (JStr s) => s
    | _ => stringOr (prop web (js "domain")) []
    end in
  {| title := title0;
     url := url0;
     encrypted_content :=
       stableEncryptedContent
         (JObj [(js "url", JStr url0); (js "title", JStr title0)]) |}.

(** [toWebSearchResults(groundingChunks)] for an array *)
Definition toWebSearchResults (groundingChunks : list JSON) : list WebSearchResult :=
  filter (fun r => nonEmpty (url r) || nonEmpty (title r))
         (map resultOfChunk groundingChunks).

(** The body of the loop of [buildCitationsFromSupport]. *)
Definition citationOf (results : list WebSearchResult) (cited : jsstring)
                      (idx : JSON) : list Citation :=
  match idx with
  | JNum bits =>
      match asIndex bits with
      | Some n =>
          match nth_error results n with
          | Some result =>
              [{| cited_text := cited;
                  cite_url := url result;
                  cite_title := title result;
                  encrypted_index :=
                    stableEncryptedContent
                      (JObj [(js "url", JStr (url result));
                             (js "title", JStr (title result));
                             (js "cited_text", JStr cited)]) |}]
          | None => []
          end
      | None => []
      end
  | _ => []
  end.

(** [buildCitationsFromSupport(results, support)], [results] being an array
    of search results. *)
Definition buildCitationsFromSupport (results : list WebSearchResult)
                                     (support : JSON) : list Citation :=
  match optProp (optProp (Some support) (js "segment")) (js "text") with
  | Some (JStr (c :: rest)) =>
      flat_map (citationOf results (c :: rest))
               (arrayOr (optProp (Some support) (js "groundingChunkIndices")))
  | _ => []
  end.

(** What [extractGroundingData] returns. *)
Record GroundingData := {
  query : jsstring;
  results : list WebSearchResult;
  supports : list JSON
}.

(** [candidate?.groundingMetadata || {}] *)
Definition groundingMetadataOf (candidate : jsvalue) : JSON :=
  match optProp candidate (js "groundingMetadata") with
  | Some m => if truthy m then m else JObj []
  | None => JObj []
  end.

(** [Array.isArray(candidate?.k) ? candidate.k : groundingMetadata?.k],
    then [Array.isArray(it) ? it : []] *)
Definition groundingArray (candidate : jsvalue) (k : jsstring) : list JSON :=
  match optProp candidate k with
  | Some (JArr items) => items
  | _ => arrayOr (prop (groundingMetadataOf candidate) k)
  end.

(** [extractGroundingData(candidate)] *)
Definition extractGroundingData (candidate : jsvalue) : GroundingData :=
  {| query :=
       match prop (groundingMetadataOf candidate) (js "webSearchQueries") with
       | Some (JArr (JStr s :: _)) => s
       | _ => []
       end;
     results := toWebSearchResults (groundingArray candidate (js "groundingChunks"));
     supports := groundingArray candidate (js "groundingSupports") |}.

End Encoding.

End WebSearch.

(* ================================================================== *)
(** * Web-search blocks of a streamed response ([emitWebSearchBlocks]) *)
(* ================================================================== *)

Module ClaudeStream.

Import Builder WebSearch.

Inductive ContentBlock :=
| server_tool_use (id : jsstring)
| web_search_tool_result (tool_use_id : jsstring) (content : list WebSearchResult)
| text_block (citations : bool).

Inductive Delta :=
| input_json_delta (partial_json : jsstring)
| citations_delta (citation : Citation)
| text_delta (text : JSON).

(** What [emitEvent] is called with. *)
Inductive SseEvent :=
| content_block_start (index : N) (content_block : ContentBlock)
| content_block_delta (index : N) (delta : Delta)
| content_block_stop (index : N).

(** [state.webSearch]; [ws_results] and [ws_supports] are [None] when the
    field is no array. *)
Record WebSearchState := {
  toolUseId : option jsstring;
  ws_query : jsvalue;
  ws_results : option (list WebSearchResult);
  ws_supports : option (list JSON);
  bufferedTextParts : list JSON
}.

(** [state], and the events [emitEvent] has been called with. *)
Record StreamingState := {
  contentIndex : N;
  webSearch : WebSearchState;
  sent : list SseEvent
}.

(** [emitEvent(name, { index: state.contentIndex, ... })] *)
Definition emitEvent (ev : N -> SseEvent) (s : StreamingState) : StreamingState :=
  {| contentIndex := contentIndex s;
     webSearch := webSearch s;
     sent := sent s ++ [ev (contentIndex s)] |}.

(** [state.contentIndex++] *)
Definition nextIndex (s : StreamingState) : StreamingState :=
  {| contentIndex := contentIndex s + 1;
     webSearch := webSearch s;
     sent := sent s |}.

(** [state.webSearch.toolUseId = toolUseId] *)
Definition setToolUseId (id : jsstring) (s : StreamingState) : StreamingState :=
  {| contentIndex := contentIndex s;
     webSearch := {| toolUseId := Some id;
                     ws_query := ws_query (webSearch s);
                     ws_results := ws_results (webSearch s);
                     ws_supports := ws_supports (webSearch s);
                     bufferedTextParts := bufferedTextParts (webSearch s) |};
     sent := sent s |}.

Section Emitter.

Variable stableEncryptedContent : JSON -> jsstring.
Variable JSON_stringify : JSON -> jsstring.
(** What [makeSrvToolUseId()] returns when it is called. *)
Variable makeSrvToolUseId : jsstring.

(** One turn of the loop over [supports]. *)
Definition emitCitations (results0 : list WebSearchResult) (s : StreamingState)
                         (support : JSON) : StreamingState :=
  match buildCitationsFromSupport stableEncryptedContent results0 support with
  | [] => s
  | citations =>
      let s1 := emitEvent (fun i => content_block_start i (text_block true)) s in
      let s2 := fold_left
                  (fun s citation =>
                     emitEvent (fun i => content_block_delta i
                                           (citations_delta citation)) s)
                  citations s1 in
      nextIndex (emitEvent content_block_stop s2)
  end.

(** One turn of the loop over [bufferedTextParts]. *)
Definition emitText (s : StreamingState) (text : JSON) : StreamingState :=
  if truthy text
  then emitEvent (fun i => content_block_delta i (text_delta text)) s
  else s.

(** [emitWebSearchBlocks(state, emitEvent)] for a given [emitEvent];
    [None] is a [state] that is [null] or [undefined]. *)
Definition emitWebSearchBlocks (state : option StreamingState)
  : option StreamingState :=
  match state with
  | None => None
  | Some s =>
      let id := orDefault (toolUseId (webSearch s)) makeSrvToolUseId in
      let s := setToolUseId id s in
      let s := emitEvent (fun i => content_block_start i (server_tool_use id)) s in
      let query0 := stringOr (ws_query (webSearch s)) [] in
      let s := emitEvent
                 (fun i => content_block_delta i
                             (input_json_delta
                                (JSON_stringify (JObj [(js "query", JStr query0)]))))
                 s in
      let s := nextIndex (emitEvent content_block_stop s) in
      let results0 := match ws_results (webSearch s) with
                      | Some l => l
                      | None => []
                      end in
      let s := emitEvent
                 (fun i => content_block_start i (web_search_tool_result id results0))
                 s in
      let s := nextIndex (emitEvent content_block_stop s) in
      let supports0 := match ws_supports (webSearch s) with
                       | Some l => l
                       | None => []
                       end in
      let s := fold_left (emitCitations results0) supports0 s in
      let s := emitEvent (fun i => content_block_start i (text_block false)) s in
      let s := fold_left emitText (bufferedTextParts (webSearch s)) s in
      Some (nextIndex (emitEvent content_block_stop s))
  end.

End Emitter.

(** ** Blocks *)

(** Reading [evs] as a sequence of blocks, the first with index [index]:
    each block is a start, deltas and a stop, all with the block's index,
    and the indices go up by one. [inside] tells whether a block is open.
    The result is the index after the last block; [None] when the events
    are no such sequence or end inside a block. *)
Fixpoint scan (inside : bool) (index : N) (evs : list SseEvent)
  : option (bool * N) :=
  match evs with
  | [] => Some (inside, index)
  | content_block_start i _ :: rest =>
      if negb inside && (i =? index)%N then scan true index rest else None
  | content_block_delta i _ :: rest =>
      if inside && (i =? index)%N then scan true index rest else None
  | content_block_stop i :: rest =>
      if inside && (i =? index)%N then scan false (index + 1) rest else None
  end.

Definition blocksFrom (index : N) (evs : list SseEvent) : option N :=
  match scan false index evs with
  | Some (false, next) => Some next
  | _ => None
  end.

(** From [s0] the emitter has reached [s]: the events sent since are blocks
    as above, [k] of them closed, the last one open if [inside]. *)
Definition reached (s0 s : StreamingState) (inside : bool) (k : nat) : Prop :=
  exists evs,
    sent s = sent s0 ++ evs /\
    scan false (contentIndex s0) evs = Some (inside, contentIndex s) /\
    contentIndex s = (contentIndex s0 + N.of_nat k)%N /\
    webSearch s = webSearch s0.

(** The citations and the search results among the events. *)
Definition citationsSent (evs : list SseEvent) : list Citation :=
  flat_map (fun ev => match ev with
                      | content_block_delta _ (citations_delta c) => [c]
                      | _ => []
                      end) evs.

Definition resultsSent (evs : list SseEvent) : list WebSearchResult :=
  flat_map (fun ev => match ev with
                      | content_block_start _ (web_search_tool_result _ l) => l
                      | _ => []
                      end) evs.

(** From [s0] to [s] the events sent hold the citations [cs] and the
    results [rs]. *)
Definition added (s0 s : StreamingState) (cs : list Citation)
                 (rs : list WebSearchResult) : Prop :=
  exists evs,
    sent s = sent s0 ++ evs /\ citationsSent evs = cs /\ resultsSent evs = rs.

Definition isStart (ev : SseEvent) : bool :=
  match ev with content_block_start _ _ => true | _ => false end.

(** The supports that give at least one citation. *)
Definition citedSupports (stableEncryptedContent : JSON -> jsstring)
                         (results0 : list WebSearchResult)
                         (supports0 : list JSON) : list JSON :=
  filter (fun support =>
            match buildCitationsFromSupport stableEncryptedContent results0 support with
            | [] => false
            | _ :: _ => true
            end) supports0.

End ClaudeStream.

(* ================================================================== *)
(** * The whole-body reply ([generateAssistantResponseNoStream]) *)
(* ================================================================== *)

Module NoStream.

Import Stream.

(** The variables of the loop over [parts]. *)
Record Parsed := {
  content : jsstring;
  thinkingContent : jsstring;
  toolCalls : list ToolCall;
  imageContents : list jsstring
}.

Definition nothing : Parsed :=
  {| content := []; thinkingContent := []; toolCalls := []; imageContents := [] |}.

(** What the function returns. *)
Record Reply := {
  reply_content : jsstring;
  reply_toolCalls : list ToolCall
}.

Section Parser.

Variable JSON_stringify : JSON -> jsstring.
Variable generateToolCallId : nat -> jsstring.
(** The string [s + v] appends to [s]: [v] itself for a string. *)
Variable toText : JSON -> jsstring.
(** [`data:${inlineData.mimeType};base64,${inlineData.data}`] *)
Variable dataUrl : jsvalue -> jsvalue -> jsstring.

#[local] Abbreviation convertToToolCall :=
  (Stream.convertToToolCall JSON_stringify generateToolCallId).

(** [else if (part.inlineData) imageContents.push(...)] *)
Definition absorbImage (acc : Parsed) (part : JSON) : Parsed :=
  match prop part (js "inlineData") with
  | Some inlineData =>
      if truthy inlineData then
        {| content := content acc;
           thinkingContent := thinkingContent acc;
           toolCalls := toolCalls acc;
           imageContents :=
             imageContents acc
             ++ [dataUrl (prop inlineData (js "mimeType"))
                         (prop inlineData (js "data"))] |}
      else acc
  | None => acc
  end.

(** The branches of the loop body, for a [part] that is not [null]. *)
Definition absorbPart (acc : Parsed) (part : JSON) : M Parsed :=
  match prop part (js "thought") with
  | Some (JBool true) =>
      ret {| content := content acc;
             thinkingContent :=
               thinkingContent acc
               ++ match prop part (js "text") with
                  | Some t => if truthy t then toText t else []
                  | None => []
                  end;
             toolCalls := toolCalls acc;
             imageContents := imageContents acc |}
  | _ =>
      match prop part (js "text") with
      | Some t =>
          ret {| content := content acc ++ toText t;
                 thinkingContent := thinkingContent acc;
                 toolCalls := toolCalls acc;
                 imageContents := imageContents acc |}
      | None =>
          match prop part (js "functionCall") with
          | Some fc =>
              if truthy fc then
                tc <- convertToToolCall fc ;;
                ret {| content := content acc;
                       thinkingContent := thinkingContent acc;
                       toolCalls := toolCalls acc ++ [tc];
                       imageContents := imageContents acc |}
              else ret (absorbImage acc part)
          | None => ret (absorbImage acc part)
          end
      end
  end.

(** The loop over [parts]; reading [part.thought] of [null] is a
    [TypeError]. *)
Fixpoint absorb (parts : list JSON) (acc : Parsed) : M Parsed :=
  match parts with
  | [] => ret acc
  | part :: rest =>
      match part with
      | JNull => throw
      | _ => acc' <- absorbPart acc part ;; absorb rest acc'
      end
  end.

Definition THINK_OPEN : jsstring := js "<think>
".
Definition THINK_CLOSE : jsstring := js "
</think>
".
Definition BLANK_LINE : jsstring := [10; 10]%N.

(** [images.map(img => `![image](${img.image_url.url})`).join('\n\n')] *)
Fixpoint markdownOf (urls : list jsstring) : jsstring :=
  match urls with
  | [] => []
  | [u] => js "![image](" ++ u ++ js ")"
  | u :: rest => js "![image](" ++ u ++ js ")" ++ BLANK_LINE ++ markdownOf rest
  end.

(** What follows the loop. *)
Definition finish (acc : Parsed) : Reply :=
  let content0 :=
    match thinkingContent acc with
    | [] => content acc
    | _ :: _ => THINK_OPEN ++ thinkingContent acc ++ THINK_CLOSE ++ content acc
    end in
  match imageContents acc with
  | [] => {| reply_content := content0; reply_toolCalls := toolCalls acc |}
  | urls =>
      {| reply_content :=
           match content0 with
           | [] => []
           | _ :: _ => content0 ++ BLANK_LINE
           end ++ markdownOf urls;
         reply_toolCalls := toolCalls acc |}
  end.

(** [generateAssistantResponseNoStream] from the reply [data] of the backend
    on; reading [data.response] of [null] is a [TypeError], as is a loop
    over [parts] that are truthy and not iterable. *)
Definition parseReply (data : JSON) : M Reply :=
  match data with
  | JNull => throw
  | _ =>
      match optProp (optProp (firstCandidate data) (js "content")) (js "parts") with
      | Some parts =>
          if truthy parts then
            match iterate parts with
            | Some items => acc <- absorb items nothing ;; ret (finish acc)
            | None => throw
            end
          else ret (finish nothing)
      | None => ret (finish nothing)
      end
  end.

End Parser.

(** The tool calls the callback has received, in order. *)
Definition reportedCalls (evs : list Event) : list ToolCall :=
  flat_map (fun ev => match ev with ToolCalls calls => calls | _ => [] end) evs.

(** The tool calls reported so far, followed by those still buffered. *)
Definition reportedOrPending (w : World) : list ToolCall :=
  reportedCalls (emitted w) ++ Stream.toolCalls (state w).

(** The text events among [evs], each as the string it adds to a text. *)
Definition textOf (toText : JSON -> jsstring) (evs : list Event) : jsstring :=
  flat_map (fun ev => match ev with Text t => toText t | _ => [] end) evs.

End NoStream.

(* ================================================================== *)
(** * The Claude response ([src/server/formatters/claude.js]) *)
(* ================================================================== *)

Module ClaudeFormat.

Import Builder WebSearch.

(** A tool call as the formatter reads it: [id], [function.name],
    [function.arguments] ([None] when it is [undefined]) and
    [thoughtSignature]. *)
Record ToolCall := {
  call_id : JSON;
  call_name : jsvalue;
  call_arguments : option jsstring;
  call_thoughtSignature : option jsstring
}.

(** A content block, by its [type]; a [text] block with [citations] has the
    empty text. *)
Inductive Block :=
| thinking (text : jsstring) (signature : option jsstring)
| server_tool_use (id : jsstring) (query : JSON)
| web_search_tool_result (tool_use_id : jsstring) (content : list WebSearchResult)
| citing (citations : list Citation)
| text (s : jsstring)
| tool_use (id : JSON) (name : jsvalue) (input : JSON) (signature : option jsstring).

(** [options.webSearchData]; [wsd_results] and [wsd_supports] are [None]
    when the field is no array. *)
Record WebSearchData := {
  wsd_query : jsvalue;
  wsd_results : option (list WebSearchResult);
  wsd_supports : option (list JSON)
}.

Record UsageIn := {
  prompt_tokens : jsvalue;
  completion_tokens : jsvalue
}.

Record Usage := {
  input_tokens : JSON;
  output_tokens : JSON;
  web_search_requests : option N
}.

Record Response := {
  response_id : jsstring;
  response_content : list Block;
  response_model : jsstring;
  stop_reason : jsstring;
  response_usage : Usage
}.

(** [v || 0]; the bit pattern of [+0] is 0. *)
Definition orZero (v : jsvalue) : JSON :=
  match v with
  | Some x => if truthy x then x else JNum 0
  | None => JNum 0
  end.

Section Formatter.

(** [JSON.parse]; [None] is a [SyntaxError]. *)
Variable JSON_parse : jsstring -> option JSON.
Variable stableEncryptedContent : JSON -> jsstring.
(** What [makeSrvToolUseId()] returns when it is called. *)
Variable makeSrvToolUseId : jsstring.

(** The body of the loop over [toolCalls], with its [catch]. *)
Definition toolBlock (passSignatureToClient : bool) (tc : ToolCall) : Block :=
  match match call_arguments tc with
        | Some arguments => JSON_parse arguments
        | None => None
        end with
  | Some inputObj =>
      tool_use (call_id tc) (call_name tc) inputObj
               (if truthyStr (call_thoughtSignature tc) && passSignatureToClient
                then call_thoughtSignature tc else None)
  | None => tool_use (call_id tc) (call_name tc) (JObj []) None
  end.

(** The blocks of a web-search response. *)
Definition searchBlocks (webSearchData : WebSearchData) : list Block :=
  let results0 := match wsd_results webSearchData with
                  | Some l => l
                  | None => []
                  end in
  let supports0 := match wsd_supports webSearchData with
                   | Some l => l
                   | None => []
                   end in
  [server_tool_use makeSrvToolUseId
     match wsd_query webSearchData with
     | Some q => if truthy q then q else JStr []
     | None => JStr []
     end;
   web_search_tool_result makeSrvToolUseId results0]
  ++ flat_map (fun support =>
                 match buildCitationsFromSupport stableEncryptedContent
                         results0 support with
                 | [] => []
                 | citations => [citing citations]
                 end) supports0.

(** [createClaudeResponse(id, model, content, reasoning, reasoningSignature,
    toolCalls, stopReason, usage, options)]; [content], [reasoning] and
    [reasoningSignature] are strings or [null], [toolCalls] an array or
    [null]. *)
Definition createClaudeResponse
    (id model : jsstring) (content reasoning reasoningSignature : option jsstring)
    (toolCalls : option (list ToolCall)) (stopReason : jsstring)
    (usage : option UsageIn)
    (passSignatureToClient : bool) (webSearchData : option WebSearchData)
  : Response :=
  {| response_id := id;
     response_content :=
       (if truthyStr reasoning
        then [thinking (orDefault reasoning [])
                       (if truthyStr reasoningSignature && passSignatureToClient
                        then reasoningSignature else None)]
        else [])
       ++ match webSearchData with
          | Some data => searchBlocks data
          | None => []
          end
       ++ (if truthyStr content then [text (orDefault content [])] else [])
       ++ match toolCalls with
          | Some calls => map (toolBlock passSignatureToClient) calls
          | None => []
          end;
     response_model := model;
     stop_reason := stopReason;
     response_usage :=
       {| input_tokens := match usage with
                          | Some u => orZero (prompt_tokens u)
                          | None => JNum 0
                          end;
          output_tokens := match usage with
                           | Some u => orZero (completion_tokens u)
                           | None => JNum 0
                           end;
          web_search_requests := match webSearchData with
                                 | Some _ => Some 1%N
                                 | None => None
                                 end |} |}.

End Formatter.

(** ** Shapes, for the properties *)

(** The citations and the search results among the blocks. *)
Definition citationsOf (blocks : list Block) : list Citation :=
  flat_map (fun b => match b with citing cs => cs | _ => [] end) blocks.

Definition resultsOf (blocks : list Block) : list WebSearchResult :=
  flat_map (fun b => match b with
                     | web_search_tool_result _ l => l
                     | _ => []
                     end) blocks.

(** The signature a block carries. *)
Definition signatureOf (b : Block) : option jsstring :=
  match b with
  | thinking _ signature | tool_use _ _ _ signature => signature
  | _ => None
  end.

(** The id and the name of a [tool_use] block. *)
Definition toolUseOf (b : Block) : list (JSON * jsvalue) :=
  match b with
  | tool_use id name _ _ => [(id, name)]
  | _ => []
  end.

Definition isToolUseBlock (b : Block) : bool :=
  match b with tool_use _ _ _ _ => true | _ => false end.

End ClaudeFormat.

(* ================================================================== *)
(** * Concrete streams and messages *)
(* ================================================================== *)

Module Inputs.

Import Stream.

(** ** Splitting a multi-byte character between two chunks

    The stream below is the single line
    [data: {"response":{"candidates":[{"content":{"parts":[{"text":"é"}]}}]}}]
    followed by a newline; [é] is the two bytes C3 A9. *)

(** The bytes of a text in which ['] stands for the double quote. *)
Definition bytesOf (s : string) : list byte :=
  map (fun b => match b with x27 => x22 | _ => b end) (list_byte_of_string s).

Definition beforeCharacter : list byte :=
  bytesOf "data: {'response':{'candidates':[{'content':{'parts':[{'text':'".

Definition afterCharacter : list byte :=
  bytesOf "'}]}}]}}" ++ [x0a].

Definition firstChunk : list byte := beforeCharacter ++ [xc3].
Definition secondChunk : list byte := xa9 :: afterCharacter.

(** The payload of the line as a string, its text being [t]. *)
Definition payloadWith (t : jsstring) : jsstring :=
  toString (bytesOf "{'response':{'candidates':[{'content':{'parts':[{'text':'")
  ++ t ++ toString (bytesOf "'}]}}]}}").

(** What [JSON.parse] returns for it. *)
Definition envelopeWith (t : jsstring) : JSON :=
  JObj [(js "response",
         JObj [(js "candidates",
                JArr [JObj [(js "content",
                             JObj [(js "parts",
                                    JArr [JObj [(js "text", JStr t)]])])]])])].

Definition E_ACUTE : jsstring := [233%N].
Definition TWO_REPLACEMENTS : jsstring := [REPLACEMENT; REPLACEMENT].

(** A candidate without metadata that carries one grounding chunk itself:
    [{"groundingChunks":[{}]}]. *)
Definition chunkOnCandidate : jsvalue :=
  Some (JObj [(js "groundingChunks", JArr [JObj []])]).

(** A candidate that carries one query itself: [{"webSearchQueries":["q"]}]. *)
Definition queryOnlyOnCandidate : jsvalue :=
  Some (JObj [(js "webSearchQueries", JArr [JStr (js "q")])]).

(** A parser that knows the two payloads, and nothing else. *)
Definition parseTwoPayloads (s : jsstring) : option JSON :=
  if JsString.eqb s (payloadWith E_ACUTE) then Some (envelopeWith E_ACUTE)
  else if JsString.eqb s (payloadWith TWO_REPLACEMENTS)
       then Some (envelopeWith TWO_REPLACEMENTS)
  else None.

(** ** The scenario of three envelopes: a thought, a text, and a tool call
    together with the finish signal

    [data: {"response":{"candidates":[{"content":{"parts":[{"thought":true,"text":"hmm"}]}}]}}]
    [data: {"response":{"candidates":[{"content":{"parts":[{"text":"Hello"}]}}]}}]
    [data: {"response":{"candidates":[{"content":{"parts":[{"functionCall":
       {"id":"t1","name":"get_weather","args":{}}}]},"finishReason":"STOP"}]}}] *)

Definition thoughtLine : list byte :=
  bytesOf "data: {'response':{'candidates':[{'content':{'parts':[{'thought':true,'text':'hmm'}]}}]}}".

Definition textLine : list byte :=
  bytesOf "data: {'response':{'candidates':[{'content':{'parts':[{'text':'Hello'}]}}]}}".

Definition finishLine : list byte :=
  bytesOf "data: {'response':{'candidates':[{'content':{'parts':[{'functionCall':{'id':'t1','name':'get_weather','args':{}}}]},'finishReason':'STOP'}]}}".

Definition candidateWith (fields : list (jsstring * JSON)) : JSON :=
  JObj [(js "response", JObj [(js "candidates", JArr [JObj fields])])].

Definition thoughtEnvelope : JSON :=
  candidateWith
    [(js "content",
      JObj [(js "parts",
             JArr [JObj [(js "thought", JBool true); (js "text", JStr (js "hmm"))]])])].

Definition textEnvelope : JSON :=
  candidateWith
    [(js "content", JObj [(js "parts", JArr [JObj [(js "text", JStr (js "Hello"))]])])].

Definition finishEnvelope : JSON :=
  candidateWith
    [(js "content",
      JObj [(js "parts",
             JArr [JObj [(js "functionCall",
                          JObj [(js "id", JStr (js "t1"));
                                (js "name", JStr (js "get_weather"));
                                (js "args", JObj [])])]])]);
     (js "finishReason", JStr (js "STOP"))].

(** A parser that knows the three payloads, and nothing else. *)
Definition parseScenario (s : jsstring) : option JSON :=
  if JsString.eqb s (slice (toString thoughtLine) 6) then Some thoughtEnvelope
  else if JsString.eqb s (slice (toString textLine) 6) then Some textEnvelope
  else if JsString.eqb s (slice (toString finishLine) 6) then Some finishEnvelope
  else None.

(** [JSON.stringify] on the only arguments of the scenario, [{}]. *)
Definition stringifyScenario (v : JSON) : jsstring := js "{}".

Definition noIds (n : nat) : jsstring := [].

(** The two network chunks of the scenario. *)
Definition scenarioChunks : list (list byte) :=
  [thoughtLine ++ [x0a]; textLine ++ [x0a] ++ finishLine ++ [x0a]].

Definition weatherCall : ToolCall :=
  {| tc_id := JStr (js "t1");
     tc_name := Some (JStr (js "get_weather"));
     tc_arguments := Some (js "{}") |}.

(** The scenario as a call: one enabled account, the axios transport, and a
    backend that answers with the two chunks. *)
Definition scenarioAccount : Api.Account :=
  {| Api.access_token := js "ya29.a";
     Api.refresh_token := js "1//r";
     Api.expires_in := 3599;
     Api.timestamp := 0;
     Api.enable := true;
     Api.projectId := js "p";
     Api.sessionId := js "s" |}.

Definition firstAccount (pool : Api.Pool) : Api.Pool * option Api.TokenRef :=
  (pool, match pool with [] => None | _ :: _ => Some 0 end).

Definition scenarioBackend (token : Api.TokenRef) : Api.AxiosReply :=
  Api.Resolved scenarioChunks Api.End.

Definition silentRequester (token : Api.TokenRef) : Api.RequesterReply :=
  {| Api.started := None; Api.delivered := []; Api.finished := Api.End |}.

(** The axios error of a response with the given status and body. *)
Definition httpError (status : N) (body : list (list byte)) : Api.ApiError :=
  {| Api.response := Some {| Api.status := Some status;
                             Api.data := Api.DataReadable body |};
     Api.err_status := None;
     Api.message := js "Request failed" |}.

(** A backend that rejects every request with that error. *)
Definition rejectingBackend (status : N) (body : list (list byte))
                            (token : Api.TokenRef) : Api.AxiosReply :=
  Api.Rejected (httpError status body).

Definition permissionDenied : list (list byte) :=
  [list_byte_of_string "PERMISSION"; list_byte_of_string "_DENIED"].

Definition twoAccounts : Api.Pool := [scenarioAccount; scenarioAccount].

(** ** A conversation with one tool call

    user: "weather?";
    assistant: a thinking block "because..." signed "sig1", then a call
    [t1] of [get_weather];
    user: the result "sunny" of [t1]. *)

Definition askWeather : Builder.ChatMessage :=
  {| Builder.msg_role := Builder.RoleUser;
     Builder.msg_content := Builder.Plain (js "weather?") |}.

Definition callWeather : Builder.ChatMessage :=
  {| Builder.msg_role := Builder.RoleAssistant;
     Builder.msg_content :=
       Builder.Items
         [Builder.ThinkingItem (Some (js "because...")) (Some (js "sig1"));
          Builder.ToolUseItem (js "t1") (js "get_weather") (Some (JObj [])) None] |}.

Definition weatherResult : Builder.ChatMessage :=
  {| Builder.msg_role := Builder.RoleUser;
     Builder.msg_content :=
       Builder.Items
         [Builder.ToolResultItem (js "t1") (Builder.ResultString (js "sunny"))] |}.

(** A second assistant message holding only a call [t2]. *)
Definition callAgain : Builder.ChatMessage :=
  {| Builder.msg_role := Builder.RoleAssistant;
     Builder.msg_content :=
       Builder.Items
         [Builder.ToolUseItem (js "t2") (js "get_weather") None None] |}.

(** The surroundings of the converter: names are kept, the cache is empty and
    no fallback signature is configured. *)
Definition keepName (name : jsstring) : jsstring := name.
Definition sameValue (v : JSON) : JSON := v.
Definition noImageModel (model : jsstring) : bool := false.
Definition alwaysCache (hasTools isImage : bool) : bool := true.
Definition emptyCache (sessionId model : jsstring) (hasTools : bool)
  : option Builder.CacheEntry := None.
Definition noSignature (model : jsstring) : option jsstring := None.

Definition emptyConversion : Builder.Conversion :=
  {| Builder.antigravityMessages := []; Builder.toolNames := [] |}.

(** The turns after the first two messages. *)
Definition afterCall : Builder.Conversion :=
  Builder.convertMessages keepName sameValue noImageModel alwaysCache emptyCache
    false noSignature noSignature true (js "claude") (js "s") false
    [askWeather; callWeather] emptyConversion.

Definition searchTool : Builder.ClaudeTool :=
  {| Builder.tool_name := Some (js "web_search"); Builder.tool_definition := JObj [] |}.

Definition weatherTool : Builder.ClaudeTool :=
  {| Builder.tool_name := Some (js "get_weather"); Builder.tool_definition := JObj [] |}.

(** A tool converter that declares every tool under its own name. *)
Definition declareAll (claudeTools : option (list (option Builder.ClaudeTool)))
                      (sessionId model : jsstring) (names : Builder.Registry)
  : list Builder.ClaudeTool * Builder.Registry :=
  (flat_map (fun t => match t with Some x => [x] | None => [] end)
            match claudeTools with Some l => l | None => [] end,
   names).

Definition defaultConfig (parameters : unit) (enableThinking : bool)
                         (model : jsstring) : Builder.GenerationConfig unit :=
  {| Builder.candidateCount := None; Builder.settings := tt |}.

Definition noSystemInstruction (prompt : unit) : option unit := None.

End Inputs.

(* ================================================================== *)
(** * More concrete inputs *)
(* ================================================================== *)

Module MoreInputs.

Import Stream Inputs.

(** The three lines of the scenario as text chunks, cut in the middle of the
    second line and ending with a line that has no newline. *)
Definition scenarioText : jsstring :=
  toString (thoughtLine ++ [x0a] ++ textLine).

Definition unfinishedTail : jsstring := toString finishLine.

(** The chunk of the function call of the scenario without the finish
    signal:
    [data: {"response":{"candidates":[{"content":{"parts":[{"functionCall":
       {"id":"t1","name":"get_weather","args":{}}}]}}]}}] *)
Definition callLine : list byte :=
  bytesOf "data: {'response':{'candidates':[{'content':{'parts':[{'functionCall':{'id':'t1','name':'get_weather','args':{}}}]}}]}}".

Definition callEnvelope : JSON :=
  candidateWith
    [(js "content",
      JObj [(js "parts",
             JArr [JObj [(js "functionCall",
                          JObj [(js "id", JStr (js "t1"));
                                (js "name", JStr (js "get_weather"));
                                (js "args", JObj [])])]])])].

(** A parser that knows the line of the call, the thought and the text. *)
Definition parseUnfinished (s : jsstring) : option JSON :=
  if JsString.eqb s (slice (toString callLine) 6) then Some callEnvelope
  else if JsString.eqb s (slice (toString thoughtLine) 6) then Some thoughtEnvelope
  else if JsString.eqb s (slice (toString textLine) 6) then Some textEnvelope
  else None.

(** The scenario with the last newline still to come. *)
Definition unfinishedChunks : list jsstring :=
  [toString (thoughtLine ++ [x0a]); toString (textLine ++ [x0a] ++ finishLine)].

(** A stream whose only tool call comes without a finish signal. *)
Definition callChunks : list jsstring :=
  [toString (thoughtLine ++ [x0a] ++ callLine ++ [x0a])].

(** The scenario text cut into chunks in two ways. *)
Definition cutByLine : list jsstring :=
  [toString (thoughtLine ++ [x0a]); toString (textLine ++ [x0a])].

Definition cutInsideLine : list jsstring :=
  [toString thoughtLine; []; toString ([x0a] ++ textLine); toString [x0a]].

(** A requester whose reply has status 429; its body arrives in two chunks,
    the first of which is a line a successful reply could hold. *)
Definition rateLimited (token : Api.TokenRef) : Api.RequesterReply :=
  {| Api.started := Some 429%N;
     Api.delivered := [toString (textLine ++ [x0a]); js "quota"];
     Api.finished := Api.End |}.

(** A backend whose stream breaks after the first chunk of the scenario. *)
Definition brokenStream (token : Api.TokenRef) : Api.AxiosReply :=
  Api.Resolved [thoughtLine ++ [x0a]]
    (Api.Error {| Api.response := None; Api.err_status := None;
                  Api.message := js "aborted" |}).

(** The items of a user message that comments on the result it brings. *)
Definition resultWithComment : list Builder.ContentItem :=
  [Builder.TextItem (Some (js "here it is"));
   Builder.ToolResultItem (js "t1") (Builder.ResultString (js "sunny"));
   Builder.ImageItem None].

(** An assistant message that holds white space only. *)
Definition blankAnswer : Builder.ChatMessage :=
  {| Builder.msg_role := Builder.RoleAssistant;
     Builder.msg_content := Builder.Plain (js "  ") |}.

(** A system prompt in the format of the client: a text block with its
    [type] and a [cache_control], a [null], a block without any supported
    field, and a bare string. *)
Definition blockPrompt : JSON :=
  JArr [JObj [(js "type", JStr (js "text"));
              (js "text", JStr (js "be brief"));
              (js "cache_control", JObj [(js "type", JStr (js "ephemeral"))])];
        JNull;
        JObj [(js "type", JStr (js "tool"))];
        JStr (js "x")].

(** A prompt whose [parts] is no array. *)
Definition brokenPrompt : JSON := JObj [(js "parts", JStr (js "be brief"))].

(** A configuration: an empty official prompt, the proxy prompt below (with
    white space around it), and the official prompt placed first. *)
Definition proxyPrompt : jsvalue := Some (JStr (js " You are helpful. ")).
Definition noPrompt : jsvalue := Some (JStr []).
Definition BEFORE : jsvalue := Some (JStr (js "before")).

(** A prompt with a part whose [text] is a number (the bit pattern of 5). *)
Definition numberPrompt : JSON :=
  JArr [JObj [(js "text", JNum 4617315517961601024)]].

(** A candidate whose metadata holds a query, two chunks (the second
    without address and title) and a support that cites chunk 0, chunk 1,
    a chunk that does not exist and a fraction; the numbers are the bit
    patterns of 0, 1, 7 and 0.5. *)
Definition groundedCandidate : JSON :=
  JObj [(js "groundingMetadata",
         JObj [(js "webSearchQueries", JArr [JStr (js "rocq")]);
               (js "groundingChunks",
                JArr [JObj [(js "web",
                             JObj [(js "uri", JStr (js "https://rocq-prover.org"));
                                   (js "title", JStr (js "Rocq"))])];
                      JObj [(js "web", JObj [(js "uri", JNum 0)])]]);
               (js "groundingSupports",
                JArr [JObj [(js "segment", JObj [(js "text", JStr (js "a prover"))]);
                            (js "groundingChunkIndices",
                             JArr [JNum 0; JNum 4607182418800017408;
                                   JNum 4619567317775286272;
                                   JNum 4602678819172646912])]])])].

(** An encoding that keeps the payload's first field. *)
Definition firstField (payload : JSON) : jsstring :=
  match payload with
  | JObj ((_, JStr s) :: _) => s
  | _ => []
  end.

(** The chunks of [groundedCandidate], and its first chunk alone. *)
Definition rocqChunk : JSON :=
  JObj [(js "web", JObj [(js "uri", JStr (js "https://rocq-prover.org"));
                         (js "title", JStr (js "Rocq"))])].

Definition emptyChunk : JSON := JObj [(js "web", JObj [(js "uri", JNum 0)])].

(** A streaming state at block 2: the results and the support of
    [groundedCandidate], no tool-use id yet, and two buffered texts around
    an empty one. *)
Definition searchState : ClaudeStream.StreamingState :=
  {| ClaudeStream.contentIndex := 2;
     ClaudeStream.webSearch :=
       {| ClaudeStream.toolUseId := None;
          ClaudeStream.ws_query := Some (JStr (js "rocq"));
          ClaudeStream.ws_results :=
            Some (WebSearch.results
                    (WebSearch.extractGroundingData firstField
                       (Some groundedCandidate)));
          ClaudeStream.ws_supports :=
            Some (WebSearch.supports
                    (WebSearch.extractGroundingData firstField
                       (Some groundedCandidate)));
          ClaudeStream.bufferedTextParts :=
            [JStr (js "Rocq is "); JStr []; JStr (js "a prover.")] |};
     ClaudeStream.sent := [] |}.

(** The envelope of a whole-body reply: a thought, a text, a call without
    id and an image. *)
Definition wholeReply : JSON :=
  candidateWith
    [(js "content",
      JObj [(js "parts",
             JArr [JObj [(js "thought", JBool true); (js "text", JStr (js "hmm"))];
                   JObj [(js "text", JStr (js "Hello"))];
                   JObj [(js "functionCall",
                          JObj [(js "name", JStr (js "get_weather"));
                                (js "args", JObj [])])];
                   JObj [(js "inlineData",
                          JObj [(js "mimeType", JStr (js "image/png"));
                                (js "data", JStr (js "AAAA"))])]])])].

(** [s + v] for the values of the examples: a string is appended as it is. *)
Definition textOfString (v : JSON) : jsstring :=
  match v with
  | JStr s => s
  | _ => js "?"
  end.

Definition pngUrl (mimeType data : jsvalue) : jsstring :=
  js "data:" ++ WebSearch.stringOr mimeType [] ++ js ";base64,"
  ++ WebSearch.stringOr data [].

Definition callId (n : nat) : jsstring := js "call_" ++ [(48 + N.of_nat n)%N].

(** Two tool calls, both signed; the arguments of the second are cut off. *)
Definition signedCalls : list ClaudeFormat.ToolCall :=
  [{| ClaudeFormat.call_id := JStr (js "t1");
      ClaudeFormat.call_name := Some (JStr (js "get_weather"));
      ClaudeFormat.call_arguments := Some (js "{}");
      ClaudeFormat.call_thoughtSignature := Some (js "sig1") |};
   {| ClaudeFormat.call_id := JStr (js "t2");
      ClaudeFormat.call_name := Some (JStr (js "get_time"));
      ClaudeFormat.call_arguments := Some (js "{'zone':");
      ClaudeFormat.call_thoughtSignature := Some (js "sig2") |}].

(** A parser that knows the empty object only. *)
Definition parseEmptyObject (s : jsstring) : option JSON :=
  if JsString.eqb s (js "{}") then Some (JObj []) else None.

(** What the whole-body loop makes of [finishEnvelope]. *)
Definition finishReply : NoStream.Reply :=
  {| NoStream.reply_content := [];
     NoStream.reply_toolCalls :=
       [{| tc_id := JStr (js "t1");
           tc_name := Some (JStr (js "get_weather"));
           tc_arguments := Some (stringifyScenario (JObj [])) |}] |}.

(** The web-search data of a whole response with the results and the
    supports of [searchState]. *)
Definition searchData : ClaudeFormat.WebSearchData :=
  {| ClaudeFormat.wsd_query := Some (JStr (js "rocq"));
     ClaudeFormat.wsd_results :=
       ClaudeStream.ws_results (ClaudeStream.webSearch searchState);
     ClaudeFormat.wsd_supports :=
       ClaudeStream.ws_supports (ClaudeStream.webSearch searchState) |}.

(** The turns of a conversation that ends with the model turn of the call
    [t1]. *)
Definition turnsAfterCall : list Builder.Turn :=
  [{| Builder.role := Builder.user;
      Builder.parts := [Builder.PText (js "weather?")] |};
   {| Builder.role := Builder.model;
      Builder.parts :=
        [Builder.PThought (js "because...") (Some (js "sig1"));
         Builder.PFunctionCall (js "t1") (js "get_weather") (JObj []) None] |}].

(** The items of a user message with two tool results and a text between
    them: the first answers the call [t1], the second answers no call, and
    its content is an array of a text block, an image block and a text
    block. *)
Definition twoResults : list Builder.ContentItem :=
  [Builder.ToolResultItem (js "t1") (Builder.ResultString (js "sunny"));
   Builder.TextItem (Some (js "and"));
   Builder.ToolResultItem (js "t9")
     (Builder.ResultBlocks
        [{| Builder.block_type := js "text"; Builder.block_text := Some (js "a") |};
         {| Builder.block_type := js "image"; Builder.block_text := Some (js "x") |};
         {| Builder.block_type := js "text"; Builder.block_text := Some (js "b") |}])].

End MoreInputs.

(* ================================================================== *)
(** * Properties *)
(* ================================================================== *)

Module JsStringFacts.

Lemma eqb_eq (a b : jsstring) : JsString.eqb a b = true <-> a = b.
Proof.
  unfold JsString.eqb. destruct (list_eq_dec N.eq_dec a b); split; congruence.
Qed.

Lemma eqb_refl (a : jsstring) : JsString.eqb a a = true.
Proof. now apply eqb_eq. Qed.

Lemma eqb_neq (a b : jsstring) : JsString.eqb a b = false <-> a <> b.
Proof.
  unfold JsString.eqb. destruct (list_eq_dec N.eq_dec a b); split; congruence.
Qed.

End JsStringFacts.

Module StreamFacts.

Import Stream Inputs.

Section Interpreter.

Variable JSON_parse : jsstring -> option JSON.
Variable JSON_stringify : JSON -> jsstring.
Variable generateToolCallId : nat -> jsstring.

#[local] Abbreviation parseAndEmitStreamChunk :=
  (Stream.parseAndEmitStreamChunk JSON_parse JSON_stringify generateToolCallId).
#[local] Abbreviation emitLines :=
  (Stream.emitLines JSON_parse JSON_stringify generateToolCallId).
#[local] Abbreviation processChunk :=
  (Stream.processChunk JSON_parse JSON_stringify generateToolCallId).
#[local] Abbreviation processChunks :=
  (Stream.processChunks JSON_parse JSON_stringify generateToolCallId).
#[local] Abbreviation onData :=
  (Stream.onData JSON_parse JSON_stringify generateToolCallId).
#[local] Abbreviation eventsOfStrings :=
  (Stream.eventsOfStrings JSON_parse JSON_stringify generateToolCallId).
#[local] Abbreviation eventsOfBuffers :=
  (Stream.eventsOfBuffers JSON_parse JSON_stringify generateToolCallId).

(** ** The line buffer is independent of how the text is cut into chunks *)

Lemma split_nonempty (s : jsstring) : split s <> [].
Proof.
  destruct s as [|c s]; simpl; [discriminate|].
  destruct (c =? NEWLINE)%N; [discriminate|].
  destruct (split s); discriminate.
Qed.

Lemma split_app (a b : jsstring) :
  split (a ++ b) =
  removelast (split a) ++
  match split b with
  | hd :: tl => (last (split a) [] ++ hd) :: tl
  | [] => []
  end.
Proof.
  induction a as [|c a IH].
  - simpl. destruct (split b) eqn:E; [now apply split_nonempty in E|reflexivity].
  - cbn [app split]. destruct (c =? NEWLINE)%N.
    + rewrite IH.
      pose proof (split_nonempty a) as Ha.
      destruct (split a) as [|l ls]; [congruence|]. reflexivity.
    + rewrite IH.
      pose proof (split_nonempty a) as Ha.
      pose proof (split_nonempty b) as Hb.
      destruct (split a) as [|l ls]; [congruence|].
      destruct (split b) as [|hd tl]; [congruence|].
      destruct ls as [|l2 ls]; reflexivity.
Qed.

(** The retained partial line holds no newline, so splitting it again gives
    it back. *)
Lemma split_last (s : jsstring) : split (last (split s) []) = [last (split s) []].
Proof.
  induction s as [|c s IH]; [reflexivity|].
  cbn [split]. destruct (c =? NEWLINE)%N eqn:E.
  - pose proof (split_nonempty s) as Hs.
    destruct (split s) as [|l ls]; [congruence|]. exact IH.
  - pose proof (split_nonempty s) as Hs.
    destruct (split s) as [|l ls]; [congruence|].
    destruct ls as [|l2 ls].
    + cbn [last] in *. cbn [split]. rewrite E, IH. reflexivity.
    + exact IH.
Qed.

Lemma emitLines_app (l1 l2 : list jsstring) (w : World) :
  emitLines (l1 ++ l2) w = emitLines l2 (emitLines l1 w).
Proof. apply fold_left_app. Qed.

Lemma removelast_app_cons {A} (l : list A) (x : A) (l' : list A) :
  removelast (l ++ x :: l') = l ++ removelast (x :: l').
Proof. apply removelast_app. discriminate. Qed.

Lemma last_app_cons {A} (l : list A) (x : A) (l' : list A) (d : A) :
  last (l ++ x :: l') d = last (x :: l') d.
Proof.
  induction l as [|y l IH]; [reflexivity|].
  rewrite <- IH. cbn [app].
  destruct (l ++ x :: l') eqn:E; [destruct l; discriminate|reflexivity].
Qed.

(** Two chunks in a row are one chunk holding both. *)
Lemma processChunk_app (c1 c2 : jsstring) (r : Receiver) :
  processChunk c2 (processChunk c1 r) = processChunk (c1 ++ c2) r.
Proof.
  unfold processChunk. cbn [buffer world].
  rewrite app_assoc.
  rewrite (split_app (buffer r ++ c1) c2).
  rewrite (split_app (last (split (buffer r ++ c1)) []) c2).
  rewrite split_last. cbn [removelast app last].
  pose proof (split_nonempty c2) as Hc.
  destruct (split c2) as [|hd tl]; [congruence|].
  rewrite removelast_app_cons, last_app_cons, emitLines_app.
  reflexivity.
Qed.

Lemma processChunk_empty (r : Receiver) :
  split (buffer r) = [buffer r] -> processChunk [] r = r.
Proof.
  intros H. unfold processChunk. rewrite app_nil_r, H.
  destruct r; reflexivity.
Qed.

Lemma processChunks_concat (chunks : list jsstring) (r : Receiver) :
  split (buffer r) = [buffer r] ->
  processChunks chunks r = processChunk (List.concat chunks) r.
Proof.
  revert r. induction chunks as [|c chunks IH]; intros r Hr.
  - simpl. symmetry. now apply processChunk_empty.
  - cbn [processChunks fold_left List.concat].
    change (fold_left _ chunks ?x) with (processChunks chunks x).
    rewrite IH.
    + apply processChunk_app.
    + unfold processChunk. cbn [buffer]. apply split_last.
Qed.

(** Chunk-boundary independence of the line buffer, for text that reaches
    [processChunk] already decoded: however a text is cut into string chunks,
    the callback receives the events of the text delivered in one piece. *)
Theorem processChunks_boundary_independent (chunks : list jsstring) :
  eventsOfStrings chunks = eventsOfStrings [List.concat chunks].
Proof.
  unfold eventsOfStrings.
  rewrite (processChunks_concat chunks initialReceiver) by reflexivity.
  reflexivity.
Qed.

(** ** Corrupt lines *)

Lemma unmarked_line_skipped (line : jsstring) (w : World) :
  startsWith line DATA_MARKER = false -> parseAndEmitStreamChunk line w = w.
Proof. intros H. unfold Stream.parseAndEmitStreamChunk. now rewrite H. Qed.

Lemma unparsable_line_skipped (line : jsstring) (w : World) :
  JSON_parse (slice line 6) = None -> parseAndEmitStreamChunk line w = w.
Proof.
  intros H. unfold Stream.parseAndEmitStreamChunk. rewrite H.
  now destruct (negb (startsWith line DATA_MARKER)).
Qed.

(** ** Thinking brackets and buffered tool calls *)

Lemma disciplined_app (a b c : bool) (e1 e2 : list Event) :
  disciplined a e1 b -> disciplined b e2 c -> disciplined a (e1 ++ e2) c.
Proof.
  induction 1 as [b| | | | | |]; intros H2; cbn [app];
    [assumption | constructor; apply IHdisciplined; assumption ..].
Qed.

Lemma progress_refl (w : World) : progress w w.
Proof.
  exists [], []. rewrite !app_nil_r. repeat split; constructor.
Qed.

Lemma progress_trans (w1 w2 w3 : World) :
  progress w1 w2 -> progress w2 w3 -> progress w1 w3.
Proof.
  intros (e1 & a1 & He1 & Ha1 & Hn1 & Hd1) (e2 & a2 & He2 & Ha2 & Hn2 & Hd2).
  exists (e1 ++ e2), (a1 ++ a2). repeat split.
  - now rewrite He2, He1, app_assoc.
  - now rewrite Ha2, Ha1, app_assoc.
  - apply Forall_app; split; assumption.
  - eapply disciplined_app; eassumption.
Qed.

Ltac finish_progress :=
  cbn -[THINK_OPEN THINK_CLOSE];
  repeat match goal with
         | H : thinkingStarted _ = _ |- _ => rewrite H
         end;
  rewrite ?app_nil_r, <- ?app_assoc;
  repeat split;
  solve [repeat constructor | eauto 6 using disciplined].

Lemma thought_progress (delta : JSON) (w : World) :
  progress w
    (worldOf ((st <- getState ;;
               when (negb (thinkingStarted st))
                    (callback (Thinking THINK_OPEN) ;;; setThinkingStarted true) ;;;
               callback (Thinking delta)) w)).
Proof.
  unfold bind, getState. destruct (thinkingStarted (state w)) eqn:E.
  - exists [Thinking delta], []. finish_progress.
  - exists [Thinking THINK_OPEN; Thinking delta], []. finish_progress.
Qed.

Lemma text_progress (t : JSON) (w : World) :
  progress w
    (worldOf ((st <- getState ;;
               when (thinkingStarted st)
                    (callback (Thinking THINK_CLOSE) ;;; setThinkingStarted false) ;;;
               callback (Text t)) w)).
Proof.
  unfold bind, getState. destruct (thinkingStarted (state w)) eqn:E.
  - exists [Thinking THINK_CLOSE; Text t], []. finish_progress.
  - exists [Text t], []. finish_progress.
Qed.

Lemma convertToToolCall_normal (fc : JSON) (w : World) :
  exists tc n,
    convertToToolCall JSON_stringify generateToolCallId fc w =
    Normal tc {| state := state w; emitted := emitted w; idsIssued := n |}.
Proof.
  unfold convertToToolCall, bind, freshToolCallId, ret. destruct w as [st evs n].
  destruct (prop fc (js "id")) as [v|]; [destruct (truthy v)|];
    eexists; eexists; reflexivity.
Qed.

Lemma call_progress (fc : JSON) (w : World) :
  progress w
    (worldOf ((when (truthy fc)
                    (tc <- convertToToolCall JSON_stringify generateToolCallId fc ;;
                     st <- getState ;;
                     setToolCalls (toolCalls st ++ [tc]))) w)).
Proof.
  destruct (truthy fc); [|apply progress_refl].
  cbn [when]. unfold bind at 1.
  destruct (convertToToolCall_normal fc w) as (tc & n & ->).
  exists [], [tc]. finish_progress.
Qed.

Lemma dispatchPart_progress (part : JSON) (w : World) :
  progress w (worldOf (dispatchPart JSON_stringify generateToolCallId part w)).
Proof.
  unfold dispatchPart.
  destruct (prop part (js "thought")) as [[|[]| | | |]|];
    try apply thought_progress;
    (destruct (prop part (js "text")) as [t|]; [apply text_progress|];
     destruct (prop part (js "functionCall")) as [fc|];
     [apply call_progress|apply progress_refl]).
Qed.

Lemma handlePart_progress (part : JSON) (w : World) :
  progress w (worldOf (handlePart JSON_stringify generateToolCallId part w)).
Proof.
  destruct part; try apply dispatchPart_progress. apply progress_refl.
Qed.

Lemma forEach_progress (items : list JSON) (w : World) :
  progress w (worldOf (forEach items (handlePart JSON_stringify generateToolCallId) w)).
Proof.
  revert w. induction items as [|part items IH]; intros w.
  - apply progress_refl.
  - cbn [forEach]. unfold bind.
    pose proof (handlePart_progress part w) as Hp.
    destruct (handlePart JSON_stringify generateToolCallId part w) as [[] w1|w1];
      cbn [worldOf] in Hp |- *.
    + eapply progress_trans; [exact Hp|apply IH].
    + exact Hp.
Qed.

Lemma loopOverParts_progress (data : JSON) (w : World) :
  progress w (worldOf (loopOverParts JSON_stringify generateToolCallId data w)).
Proof.
  unfold loopOverParts.
  destruct (optProp _ (js "parts")) as [parts|]; [|apply progress_refl].
  destruct (truthy parts); [|apply progress_refl]. cbn [when].
  destruct (iterate parts) as [items|]; [apply forEach_progress|apply progress_refl].
Qed.

Lemma flushToolCalls_normal (data : JSON) (w : World) :
  exists w', flushToolCalls data w = Normal tt w'.
Proof.
  unfold flushToolCalls, bind, getState.
  destruct (truthy_opt _ && _); cbn [when]; [|eexists; reflexivity].
  destruct (thinkingStarted (state w)); eexists; reflexivity.
Qed.

Lemma interpretEnvelope_step (data : JSON) (w : World) :
  envelopeStep (hasFinishReason data) w
    (tryCatch (interpretEnvelope JSON_stringify generateToolCallId data) w).
Proof.
  assert (body : forall finish,
            finish = truthy_opt (optProp (firstCandidate data) (js "finishReason")) ->
            envelopeStep finish w
              (tryCatch (loopOverParts JSON_stringify generateToolCallId data ;;;
                         flushToolCalls data) w)).
  { intros finish Hfinish. unfold tryCatch, bind.
    pose proof (loopOverParts_progress data w) as (evs & added & He & Ha & Hn & Hd).
    assert (kept : forall w1, emitted w1 = emitted w ++ evs ->
               toolCalls (state w1) = toolCalls (state w) ++ added ->
               disciplined (thinkingStarted (state w)) evs (thinkingStarted (state w1)) ->
               envelopeStep finish w w1).
    { intros w1 He1 Ha1 Hd1. exists evs, added, []. rewrite app_nil_r.
      split; [assumption|split; [assumption|split; [assumption|]]].
      left. now split. }
    destruct (loopOverParts JSON_stringify generateToolCallId data w) as [[] w1|w1];
      cbn [worldOf] in *; [|now apply kept].
    unfold flushToolCalls, bind, getState.
    rewrite <- Hfinish.
    destruct finish; cbn [andb]; [|now apply kept].
    destruct (toolCalls (state w1)) as [|tc tcs] eqn:Ecalls; cbn [when];
      [apply kept; cbn [ret]; first [assumption|congruence]|].
    destruct (thinkingStarted (state w1)) eqn:Eflag; cbn -[THINK_CLOSE].
    - exists (evs ++ [Thinking THINK_CLOSE]), added, [ToolCalls (tc :: tcs)].
      cbn [state thinkingStarted toolCalls emitted]. rewrite He, <- !app_assoc.
      split; [reflexivity|split; [|split]].
      + apply Forall_app. split; [assumption|repeat constructor].
      + eapply disciplined_app; [exact Hd|].
        cbn [app]. apply disciplined_close_calls. constructor.
      + right. rewrite <- Ha. repeat split; congruence.
    - exists evs, added, [ToolCalls (tc :: tcs)].
      cbn [state thinkingStarted toolCalls emitted]. rewrite Eflag, He, <- app_assoc.
      split; [reflexivity|split; [assumption|split]].
      + eapply disciplined_app; [exact Hd|].
        apply disciplined_calls. constructor.
      + right. rewrite <- Ha. repeat split; congruence. }
  unfold interpretEnvelope, hasFinishReason.
  destruct data; apply body; reflexivity.
Qed.

(** What one line does. A flush happens only for a line that starts with the
    marker and parses to an envelope carrying a finish signal. *)
Lemma parseAndEmitStreamChunk_step (line : jsstring) (w : World) :
  exists finish,
    envelopeStep finish w (parseAndEmitStreamChunk line w) /\
    (finish = true ->
     startsWith line DATA_MARKER = true /\
     exists data, JSON_parse (slice line 6) = Some data /\ hasFinishReason data = true).
Proof.
  assert (skip : exists finish,
            envelopeStep finish w w /\
            (finish = true ->
             startsWith line DATA_MARKER = true /\
             exists data, JSON_parse (slice line 6) = Some data
                          /\ hasFinishReason data = true)).
  { exists false. split; [|discriminate].
    exists [], [], []. rewrite !app_nil_r.
    split; [reflexivity|split; [constructor|split; [constructor|]]].
    left. now split. }
  unfold Stream.parseAndEmitStreamChunk.
  destruct (startsWith line DATA_MARKER) eqn:Emark; cbn [negb]; [|exact skip].
  destruct (JSON_parse (slice line 6)) as [data|] eqn:Eparse; [|exact skip].
  exists (hasFinishReason data). split; [apply interpretEnvelope_step|].
  intros Hf. split; [reflexivity|]. now exists data.
Qed.

(** The flush of [parseAndEmitStreamChunk], read after the parts of the
    envelope have been handled. *)
Lemma flushToolCalls_finish (data : JSON) (ws : World) :
  truthy_opt (optProp (firstCandidate data) (js "finishReason")) = true ->
  toolCalls (state ws) <> [] ->
  flushToolCalls data ws =
  Normal tt
    {| state := {| thinkingStarted := false; toolCalls := [] |};
       emitted := emitted ws
                  ++ (if thinkingStarted (state ws) then [Thinking THINK_CLOSE] else [])
                  ++ [ToolCalls (toolCalls (state ws))];
       idsIssued := idsIssued ws |}.
Proof.
  intros Hfinish Hcalls. unfold flushToolCalls, bind, getState. rewrite Hfinish.
  destruct (toolCalls (state ws)) as [|tc calls] eqn:Ecalls; [now destruct Hcalls|].
  cbn [andb when]. destruct ws as [[started buffered] evs ids]. cbn in Ecalls.
  subst buffered. destruct started; cbn; rewrite <- ?app_assoc; reflexivity.
Qed.

Lemma flushToolCalls_idle (data : JSON) (ws : World) :
  truthy_opt (optProp (firstCandidate data) (js "finishReason")) = false
  \/ toolCalls (state ws) = [] ->
  flushToolCalls data ws = Normal tt ws.
Proof.
  intros Hidle. unfold flushToolCalls, bind, getState.
  destruct Hidle as [-> | ->]; [reflexivity|].
  now rewrite andb_false_r.
Qed.

Lemma hasFinishReason_envelope (data : JSON) :
  data <> JNull ->
  hasFinishReason data = truthy_opt (optProp (firstCandidate data) (js "finishReason")).
Proof. intros Hdata. destruct data; [now destruct Hdata|reflexivity..]. Qed.












(** C8. A line that does not start with the [data: ] marker, or whose payload
    [JSON.parse] rejects, emits no event and leaves the stream state (thinking
    flag, buffered tool calls) as it was; the lines before and after it are
    processed as if it were not there. *)
Theorem corrupt_line_is_skipped (line : jsstring) :
  startsWith line DATA_MARKER = false \/ JSON_parse (slice line 6) = None ->
  (forall w, parseAndEmitStreamChunk line w = w) /\
  (forall before after w,
     emitLines (before ++ line :: after) w = emitLines (before ++ after) w).
Proof.
  intros H.
  assert (skip : forall w, parseAndEmitStreamChunk line w = w).
  { intros w. destruct H as [H|H];
      [now apply unmarked_line_skipped|now apply unparsable_line_skipped]. }
  split; [exact skip|].
  intros before after w. rewrite !emitLines_app.
  cbn [Stream.emitLines fold_left]. now rewrite skip.
Qed.

End Interpreter.

(** C2, at the byte level. Delivered in one chunk the stream yields the text
    [é]; delivered in two chunks cut inside the character it yields two
    replacement characters, because every chunk is decoded on its own. *)
Theorem chunk_boundary_inside_character
    (JSON_parse : jsstring -> option JSON) (JSON_stringify : JSON -> jsstring)
    (generateToolCallId : nat -> jsstring) :
  JSON_parse (payloadWith E_ACUTE) = Some (envelopeWith E_ACUTE) ->
  JSON_parse (payloadWith TWO_REPLACEMENTS) = Some (envelopeWith TWO_REPLACEMENTS) ->
  eventsOfBuffers JSON_parse JSON_stringify generateToolCallId
                  [firstChunk ++ secondChunk]
  = [Text (JStr E_ACUTE)]
  /\
  eventsOfBuffers JSON_parse JSON_stringify generateToolCallId
                  [firstChunk; secondChunk]
  = [Text (JStr TWO_REPLACEMENTS)].
Proof.
  intros Hgood Hbad. split.
  - unfold eventsOfBuffers, onData, processChunk.
    cbn [fold_left initialReceiver buffer world app].
    change (split (toString (firstChunk ++ secondChunk)))
      with [js "data: " ++ payloadWith E_ACUTE; []].
    cbn [removelast last emitLines fold_left].
    unfold parseAndEmitStreamChunk.
    change (startsWith (js "data: " ++ payloadWith E_ACUTE) DATA_MARKER) with true.
    change (slice (js "data: " ++ payloadWith E_ACUTE) 6) with (payloadWith E_ACUTE).
    cbn [negb]. rewrite Hgood. reflexivity.
  - unfold eventsOfBuffers, onData, processChunk.
    cbn [fold_left initialReceiver buffer world app].
    change (split (toString firstChunk))
      with [toString firstChunk].
    cbn [removelast last emitLines fold_left].
    change (split (toString firstChunk ++ toString secondChunk))
      with [js "data: " ++ payloadWith TWO_REPLACEMENTS; []].
    cbn [removelast last emitLines fold_left].
    unfold parseAndEmitStreamChunk.
    change (startsWith (js "data: " ++ payloadWith TWO_REPLACEMENTS) DATA_MARKER)
      with true.
    change (slice (js "data: " ++ payloadWith TWO_REPLACEMENTS) 6)
      with (payloadWith TWO_REPLACEMENTS).
    cbn [negb]. rewrite Hbad. reflexivity.
Qed.

Lemma chunk_boundary_inside_character_witness :
  eventsOfBuffers parseTwoPayloads (fun _ => []) (fun _ => [])
                  [firstChunk ++ secondChunk]
  = [Text (JStr E_ACUTE)]
  /\
  eventsOfBuffers parseTwoPayloads (fun _ => []) (fun _ => [])
                  [firstChunk; secondChunk]
  = [Text (JStr TWO_REPLACEMENTS)].
Proof.
  apply (chunk_boundary_inside_character parseTwoPayloads (fun _ => [])
                                         (fun _ => []));
    vm_compute; reflexivity.
Defined.

(** The scenario: thinking is opened, fed, closed before the text; the tool
    call waits for the finish signal. *)
Example scenario_events :
  eventsOfBuffers parseScenario stringifyScenario noIds scenarioChunks
  = [Thinking THINK_OPEN; Thinking (JStr (js "hmm")); Thinking THINK_CLOSE;
     Text (JStr (js "Hello")); ToolCalls [weatherCall]].
Proof. vm_compute. reflexivity. Qed.

Lemma corrupt_line_is_skipped_witness :
  (startsWith (js ": keep-alive") DATA_MARKER = false
   \/ parseScenario (slice (js ": keep-alive") 6) = None)
  /\
  ((forall w, parseAndEmitStreamChunk parseScenario stringifyScenario noIds
                                      (js ": keep-alive") w = w)
   /\
   (forall before after w,
      emitLines parseScenario stringifyScenario noIds
                (before ++ js ": keep-alive" :: after) w
      = emitLines parseScenario stringifyScenario noIds (before ++ after) w)).
Proof.
  split; [left; reflexivity|].
  apply (corrupt_line_is_skipped parseScenario stringifyScenario noIds).
  left. reflexivity.
Defined.

End StreamFacts.

Module ServerFacts.

Import Stream Api Server Inputs StreamFacts.

Section Handler.

Variable JSON_parse : jsstring -> option JSON.
Variable JSON_stringify : JSON -> jsstring.
Variable generateToolCallId : nat -> jsstring.
Variable JSON_stringify_indented : JSON -> jsstring.
Variable getToken : Pool -> Pool * option TokenRef.
Variable axios : TokenRef -> AxiosReply.
Variable antigravity_fetchStream : TokenRef -> RequesterReply.
Variable useAxios : bool.

#[local] Abbreviation generateAssistantResponse :=
  (Api.generateAssistantResponse JSON_parse JSON_stringify generateToolCallId
     JSON_stringify_indented getToken axios antigravity_fetchStream useAxios).
#[local] Abbreviation handlePart :=
  (Stream.handlePart JSON_stringify generateToolCallId).
#[local] Abbreviation parseAndEmitStreamChunk :=
  (Stream.parseAndEmitStreamChunk JSON_parse JSON_stringify generateToolCallId).
#[local] Abbreviation loopOverParts :=
  (Stream.loopOverParts JSON_stringify generateToolCallId).






End Handler.


(** The finish line of the scenario, read while thinking output is open:
    thinking is closed, then the buffered call is emitted. *)
Example scenario_finish_line :
  emitted (Stream.parseAndEmitStreamChunk parseScenario stringifyScenario noIds
             (toString finishLine)
             {| state := {| thinkingStarted := true; toolCalls := [] |};
                emitted := [Thinking THINK_OPEN; Thinking (JStr (js "hmm"))];
                idsIssued := 0 |})
  = [Thinking THINK_OPEN; Thinking (JStr (js "hmm")); Thinking THINK_CLOSE;
     ToolCalls [weatherCall]].
Proof. vm_compute. reflexivity. Qed.

(** The scenario, as written to the client: thinking start, thinking delta,
    thinking end, text delta, tool calls, then the final chunk with finish
    reason [tool_calls]. *)
Example scenario_frames :
  streamResponse
    (Api.generateAssistantResponse parseScenario stringifyScenario noIds
       stringifyScenario firstAccount scenarioBackend silentRequester true
       twoAccounts)
  = {| frames := [Chunk (Content THINK_OPEN) None;
                  Chunk (Content (JStr (js "hmm"))) None;
                  Chunk (Content THINK_CLOSE) None;
                  Chunk (Content (JStr (js "Hello"))) None;
                  Chunk (ToolCallsDelta [weatherCall]) None;
                  Chunk EmptyDelta (Some tool_calls);
                  DONE];
       ended := true |}.
Proof. vm_compute. reflexivity. Qed.

End ServerFacts.

Module ApiFacts.

Import Stream Api Inputs.



Section Client.

Variable JSON_parse : jsstring -> option JSON.
Variable JSON_stringify : JSON -> jsstring.
Variable generateToolCallId : nat -> jsstring.
Variable JSON_stringify_indented : JSON -> jsstring.
Variable getToken : Pool -> Pool * option TokenRef.
Variable useAxios : bool.

#[local] Abbreviation handleApiError := (Api.handleApiError JSON_stringify_indented).
#[local] Abbreviation errorBodyOf := (Api.errorBodyOf JSON_stringify_indented).
#[local] Abbreviation generateAssistantResponse :=
  (Api.generateAssistantResponse JSON_parse JSON_stringify generateToolCallId
     JSON_stringify_indented getToken).




End Client.





(** The same call, evaluated: the first account is disabled, the second is
    not, and the message ends with the body of the 403 response. *)
Example forbidden_call_evaluated :
  let run := generateAssistantResponse parseScenario stringifyScenario noIds
               stringifyScenario firstAccount
               (rejectingBackend 403 permissionDenied) silentRequester true
               twoAccounts in
  map enable (pool_after run) = [false; true]
  /\ completion run = Threw (FORBIDDEN_PREFIX ++ js "PERMISSION_DENIED")
  /\ events run = [].
Proof. vm_compute. repeat split. Qed.

(** A 500 response leaves both accounts enabled. *)
Example server_error_call_evaluated :
  let run := generateAssistantResponse parseScenario stringifyScenario noIds
               stringifyScenario firstAccount
               (rejectingBackend 500 permissionDenied) silentRequester true
               twoAccounts in
  map enable (pool_after run) = [true; true]
  /\ completion run
      = Threw (js "API请求失败 (500): PERMISSION_DENIED").
Proof. vm_compute. repeat split. Qed.

End ApiFacts.

Module GroundingFacts.

Import Grounding Inputs.

Lemma isNonEmptyArray_entries (holder : JSON) (key : jsstring) :
  truthy holder = true ->
  isNonEmptyArray (prop holder key) = hasEntries (Some holder) key.
Proof.
  intros Ht. unfold hasEntries, entries, optProp.
  destruct holder; try discriminate; cbn [prop];
    try reflexivity;
    destruct (assoc key fields) as [[| | | |[|x l]|]|]; reflexivity.
Qed.

(** C6, as the code has it. [hasGroundingData] is [true] exactly when the
    metadata object holds a query, a chunk or a support, or the candidate
    itself holds a chunk or a support; so it is [false] for an absent
    candidate, and for absent or empty metadata when the candidate holds no
    chunk and no support itself. *)
Theorem hasGroundingData_evidence (candidate : jsvalue) :
  hasGroundingData candidate
  = evidenceInMetadata candidate || evidenceOnCandidate candidate.
Proof.
  destruct candidate as [c|]; [|reflexivity].
  unfold hasGroundingData.
  destruct (truthy c) eqn:Ht; cbn [negb].
  - rewrite !(isNonEmptyArray_entries c) by exact Ht.
    fold (evidenceOnCandidate (Some c)).
    assert (Hmeta : match prop c (js "groundingMetadata") with
                    | Some m =>
                        truthy m && typeofObject m
                        && (isNonEmptyArray (prop m (js "webSearchQueries"))
                            || isNonEmptyArray (prop m (js "groundingChunks"))
                            || isNonEmptyArray (prop m (js "groundingSupports")))
                    | None => false
                    end = evidenceInMetadata (Some c)).
    { unfold evidenceInMetadata, metadataOf.
      replace (optProp (Some c) (js "groundingMetadata"))
        with (prop c (js "groundingMetadata")) by (now destruct c).
      destruct (prop c (js "groundingMetadata")) as [m|]; [|reflexivity].
      destruct (truthy m) eqn:Hm.
      - rewrite !(isNonEmptyArray_entries m) by exact Hm.
        destruct m; try reflexivity; discriminate.
      - destruct m; try discriminate; reflexivity. }
    rewrite Hmeta.
    destruct (evidenceInMetadata (Some c)); [reflexivity|].
    unfold evidenceOnCandidate.
    destruct (hasEntries (Some c) (js "groundingChunks")); [reflexivity|].
    destruct (hasEntries (Some c) (js "groundingSupports")); reflexivity.
  - destruct c; try discriminate; reflexivity.
Qed.

(** C6, as it is worded, fails: a candidate without metadata that carries a
    grounding chunk itself is grounded, and a candidate that carries only a
    query itself is not. *)
Lemma groundingClaimAsWorded_fails : ~ groundingClaimAsWorded.
Proof.
  intros H. destruct (H chunkOnCandidate) as (_ & Hfalse & _).
  specialize (Hfalse eq_refl). discriminate Hfalse.
Qed.

Example chunk_on_candidate_is_grounded :
  metadataAbsentOrEmpty chunkOnCandidate = true
  /\ hasGroundingData chunkOnCandidate = true.
Proof. split; reflexivity. Qed.

Example query_on_candidate_is_not_grounded :
  queryOnCandidate queryOnlyOnCandidate = true
  /\ hasGroundingData queryOnlyOnCandidate = false.
Proof. split; reflexivity. Qed.

End GroundingFacts.

Module BuilderFacts.

Import Builder Inputs.

(** ** The last turn of [antigravityMessages] *)

Lemma lastMessage_nil : lastMessage [] = None.
Proof. reflexivity. Qed.

Lemma lastMessage_snoc (init : list Turn) (last : Turn) :
  lastMessage (init ++ [last]) = Some last.
Proof.
  unfold lastMessage. rewrite length_app. cbn [List.length].
  rewrite Nat.add_sub, nth_error_app2 by apply Nat.le_refl.
  now rewrite Nat.sub_diag.
Qed.

Lemma pushToLast_snoc (extra : list Part) (init : list Turn) (last : Turn) :
  pushToLast extra (init ++ [last])
  = init ++ [{| role := role last; parts := parts last ++ extra |}].
Proof.
  induction init as [|t init IH]; [reflexivity|].
  cbn [app pushToLast]. rewrite IH.
  destruct (init ++ [last]) eqn:E; [destruct init; discriminate|reflexivity].
Qed.

Lemma snoc_cases {A} (l : list A) : l = [] \/ exists init last, l = init ++ [last].
Proof.
  destruct l as [|x l]; [now left|right].
  exists (removelast (x :: l)), (last (x :: l) x).
  apply app_removelast_last. discriminate.
Qed.

(** ** White space *)

Lemma trimStart_nil_iff (s : jsstring) :
  trimStart s = [] <-> forallb isWhiteSpace s = true.
Proof.
  induction s as [|c s IH]; cbn [trimStart forallb]; [tauto|].
  destruct (isWhiteSpace c); cbn [andb]; [exact IH|].
  split; discriminate.
Qed.

Lemma forallb_rev {A} (f : A -> bool) (l : list A) :
  forallb f (rev l) = forallb f l.
Proof.
  induction l as [|x l IH]; [reflexivity|].
  cbn [rev forallb]. rewrite forallb_app, IH. cbn [forallb].
  rewrite andb_true_r. apply andb_comm.
Qed.

Lemma trimStart_whitespace (s : jsstring) :
  trimStart s = [] \/ exists c rest, trimStart s = c :: rest /\ isWhiteSpace c = false.
Proof.
  induction s as [|c s IH]; [now left|].
  cbn [trimStart]. destruct (isWhiteSpace c) eqn:E; [exact IH|].
  right. now exists c, s.
Qed.

Lemma trim_nil_iff (s : jsstring) :
  trim s = [] <-> forallb isWhiteSpace s = true.
Proof.
  unfold trim, trimEnd. split.
  - intros H. apply (f_equal (@rev N)) in H. rewrite rev_involutive in H.
    cbn [rev] in H. apply trimStart_nil_iff in H. rewrite forallb_rev in H.
    destruct (trimStart_whitespace s) as [E|(c & rest & E & Hc)].
    + now apply trimStart_nil_iff.
    + rewrite E in H. cbn [forallb] in H. rewrite Hc in H. discriminate.
  - intros H. apply trimStart_nil_iff in H. rewrite H. reflexivity.
Qed.

(** [hasContent] is false exactly for a text without a character that is not
    white space. *)
Lemma hasContentOf_false_iff (text : jsstring) :
  hasContentOf text = false <-> forallb isWhiteSpace text = true.
Proof.
  unfold hasContentOf. rewrite <- trim_nil_iff.
  destruct text as [|c text]; [cbn; tauto|]. cbn [nonEmpty andb].
  destruct (trim (c :: text)); cbn [nonEmpty]; split; congruence.
Qed.

Lemma lastMessage_Some (msgs : list Turn) (last : Turn) :
  lastMessage msgs = Some last -> exists init, msgs = init ++ [last].
Proof.
  intros H. destruct (snoc_cases msgs) as [->|(init & l & ->)]; [discriminate|].
  rewrite lastMessage_snoc in H. injection H as ->. now exists init.
Qed.

(** ** Turn sequences built by pushes *)

Lemma built_trans (allowed : Part -> Prop) (a b c : list Turn) :
  built allowed a b -> built allowed b c -> built allowed a c.
Proof.
  intros Hab Hbc. induction Hbc; [assumption|now constructor ..].
Qed.

Lemma built_weaken (allowed allowed' : Part -> Prop) (a b : list Turn) :
  (forall p, allowed p -> allowed' p) -> built allowed a b -> built allowed' a b.
Proof.
  intros Himp H. induction H; [constructor|constructor ..]; auto;
    eapply Forall_impl; eauto.
Qed.

(** A property kept by every push is kept by a built sequence. *)
Lemma built_preserves (allowed : Part -> Prop) (Q : list Turn -> Prop) :
  (forall msgs t, Forall allowed (parts t) -> Q msgs -> Q (msgs ++ [t])) ->
  (forall msgs extra, Forall allowed extra -> Q msgs -> Q (pushToLast extra msgs)) ->
  forall a b, built allowed a b -> Q a -> Q b.
Proof.
  intros Hturn Hparts a b H Ha. induction H; auto.
Qed.

Lemma pushModelMessage_built (allowed : Part -> Prop)
                             (newParts calls : list Part) (hasContent : bool)
                             (msgs : list Turn) :
  Forall allowed newParts -> Forall allowed calls ->
  built allowed msgs (pushModelMessage newParts calls hasContent msgs).
Proof.
  intros Hn Hc. unfold pushModelMessage.
  assert (Hopen : built allowed msgs
                    (msgs ++ [{| role := model; parts := newParts ++ calls |}])).
  { apply built_turn; [constructor|]. cbn [parts]. now apply Forall_app. }
  destruct (lastMessage msgs) as [last|]; [|exact Hopen].
  destruct (isModel (role last) && _ && negb hasContent); [|exact Hopen].
  apply built_parts; [constructor|assumption].
Qed.

Lemma pushFunctionResponse_built (allowed : Part -> Prop)
                                 (id name content : jsstring) (msgs : list Turn) :
  allowed (PFunctionResponse id name content) ->
  built allowed msgs (pushFunctionResponse id name content msgs).
Proof.
  intros Ha. unfold pushFunctionResponse.
  assert (Hopen : built allowed msgs
                    (msgs ++ [{| role := user;
                                 parts := [PFunctionResponse id name content] |}])).
  { apply built_turn; [constructor|]. cbn [parts]. now repeat constructor. }
  destruct (lastMessage msgs) as [last|]; [|exact Hopen].
  destruct (isUser (role last) && _); [|exact Hopen].
  apply built_parts; [constructor|now repeat constructor].
Qed.

Lemma handleClaudeToolResult_built (allowed : Part -> Prop)
                                   (message : ChatMessage) (msgs : list Turn) :
  (forall id name content, allowed (PFunctionResponse id name content)) ->
  built allowed msgs (handleClaudeToolResult message msgs).
Proof.
  intros Ha. unfold handleClaudeToolResult.
  destruct (msg_content message) as [text|items|]; try constructor.
  revert msgs. induction items as [|item items IH]; intros msgs; [constructor|].
  cbn [fold_left]. eapply built_trans; [|apply IH].
  destruct item; try constructor.
  cbn [handleToolResultItem]. now apply pushFunctionResponse_built.
Qed.

(** ** [pushModelMessage] *)

Lemma pushModelMessage_merge (newParts calls : list Part) (init : list Turn)
                             (last : Turn) :
  role last = model -> calls <> [] ->
  pushModelMessage newParts calls false (init ++ [last])
  = init ++ [{| role := model; parts := parts last ++ calls |}].
Proof.
  intros Hrole Hcalls. unfold pushModelMessage.
  rewrite lastMessage_snoc, Hrole. cbn [isModel andb negb].
  destruct calls as [|c calls]; [contradiction|].
  rewrite pushToLast_snoc, Hrole. reflexivity.
Qed.

Lemma pushModelMessage_open (newParts calls : list Part) (hasContent : bool)
                            (msgs : list Turn) :
  msgs = []
  \/ (exists init last, msgs = init ++ [last] /\ role last = user)
  \/ calls = []
  \/ hasContent = true ->
  pushModelMessage newParts calls hasContent msgs
  = msgs ++ [{| role := model; parts := newParts ++ calls |}].
Proof.
  intros H. unfold pushModelMessage.
  destruct (lastMessage msgs) as [last|] eqn:El; [|reflexivity].
  destruct H as [H|[(init & last' & H & Hrole)|[H|H]]]; subst.
  - discriminate.
  - rewrite lastMessage_snoc in El. injection El as <-. now rewrite Hrole.
  - now rewrite andb_false_r.
  - now rewrite andb_false_r.
Qed.

(** ** [findFunctionNameById] *)

Lemma findInParts_none (toolCallId : jsstring) (ps : list Part) :
  (forall name args sig, ~ In (PFunctionCall toolCallId name args sig) ps) ->
  findInParts toolCallId ps = None.
Proof.
  induction ps as [|p ps IH]; intros H; [reflexivity|].
  cbn [findInParts].
  assert (Hp : functionCallName toolCallId p = None).
  { destruct p; try reflexivity. cbn [functionCallName].
    destruct (JsString.eqb id toolCallId) eqn:E; [|reflexivity].
    apply JsStringFacts.eqb_eq in E. subst id.
    exfalso. apply (H name args thoughtSignature). now left. }
  rewrite Hp. apply IH. intros name args sig Hin.
  apply (H name args sig). now right.
Qed.

Lemma findInTurns_none (toolCallId : jsstring) (turns : list Turn) :
  (forall t name args sig,
     In t turns -> role t = model ->
     ~ In (PFunctionCall toolCallId name args sig) (parts t)) ->
  findInTurns toolCallId turns = None.
Proof.
  induction turns as [|t turns IH]; intros H; [reflexivity|].
  cbn [findInTurns].
  assert (Ht : (if isModel (role t) then findInParts toolCallId (parts t) else None)
               = None).
  { destruct (role t) eqn:Er; [reflexivity|]. cbn [isModel].
    apply findInParts_none. intros name args sig.
    apply (H t name args sig); [now left|exact Er]. }
  rewrite Ht. apply IH. intros t' name args sig Hin.
  apply H. now right.
Qed.

Lemma findFunctionNameById_unmatched (toolCallId : jsstring) (msgs : list Turn) :
  (forall t name args sig,
     In t msgs -> role t = model ->
     ~ In (PFunctionCall toolCallId name args sig) (parts t)) ->
  findFunctionNameById toolCallId msgs = [].
Proof.
  intros H. unfold findFunctionNameById. rewrite findInTurns_none; [reflexivity|].
  intros t name args sig Hin. apply H. now apply in_rev.
Qed.

(** The first matching call of the parts decides. *)
Lemma findInParts_first (toolCallId name : jsstring) (args : JSON)
                        (sig : option jsstring) (before after : list Part) :
  Forall (fun p => isFunctionCall p = false) before ->
  findInParts toolCallId (before ++ PFunctionCall toolCallId name args sig :: after)
  = Some name.
Proof.
  induction 1 as [|p before Hp _ IH]; cbn [app findInParts].
  - cbn [functionCallName]. now rewrite JsStringFacts.eqb_refl.
  - destruct p; try discriminate; exact IH.
Qed.

(** ** [pushFunctionResponse] *)

Lemma pushFunctionResponse_append (id name content : jsstring)
                                  (init : list Turn) (last : Turn) :
  role last = user ->
  existsb isFunctionResponse (parts last) = true ->
  pushFunctionResponse id name content (init ++ [last])
  = init ++ [{| role := user;
                parts := parts last ++ [PFunctionResponse id name content] |}].
Proof.
  intros Hrole Hhas. unfold pushFunctionResponse.
  rewrite lastMessage_snoc, Hrole, Hhas. cbn [isUser andb].
  now rewrite pushToLast_snoc, Hrole.
Qed.

Lemma pushFunctionResponse_open (id name content : jsstring) (msgs : list Turn) :
  msgs = []
  \/ (exists init last,
        msgs = init ++ [last] /\
        (role last = model \/ existsb isFunctionResponse (parts last) = false)) ->
  pushFunctionResponse id name content msgs
  = msgs ++ [{| role := user; parts := [PFunctionResponse id name content] |}].
Proof.
  intros H. unfold pushFunctionResponse.
  destruct H as [H|(init & last & H & Hlast)]; subst; [reflexivity|].
  rewrite lastMessage_snoc.
  destruct Hlast as [H|H]; rewrite H; [reflexivity|].
  now rewrite andb_false_r.
Qed.

(** Whatever the turns, the response ends up as the last part of the last
    turn, a user turn. *)
Lemma pushFunctionResponse_last (id name content : jsstring) (msgs : list Turn) :
  exists init last before,
    pushFunctionResponse id name content msgs = init ++ [last] /\
    role last = user /\
    parts last = before ++ [PFunctionResponse id name content].
Proof.
  unfold pushFunctionResponse.
  assert (Hopen : exists init last before,
             msgs ++ [{| role := user; parts := [PFunctionResponse id name content] |}]
             = init ++ [last] /\
             role last = user /\
             parts last = before ++ [PFunctionResponse id name content]).
  { exists msgs. eexists. exists []. repeat split. }
  destruct (lastMessage msgs) as [last|] eqn:El; [|exact Hopen].
  destruct (isUser (role last)) eqn:Er; cbn [andb]; [|exact Hopen].
  destruct (existsb isFunctionResponse (parts last)); [|exact Hopen].
  apply lastMessage_Some in El as (init & ->).
  rewrite pushToLast_snoc. exists init. eexists. exists (parts last).
  repeat split. cbn [role]. now destruct (role last).
Qed.

Lemma countResponses_app (a b : list Turn) :
  countResponses (a ++ b) = countResponses a + countResponses b.
Proof.
  unfold countResponses. now rewrite flat_map_app, filter_app, length_app.
Qed.

Lemma pushFunctionResponse_count (id name content : jsstring) (msgs : list Turn) :
  countResponses (pushFunctionResponse id name content msgs) = S (countResponses msgs).
Proof.
  unfold pushFunctionResponse.
  assert (Hopen : countResponses
                    (msgs ++ [{| role := user;
                                 parts := [PFunctionResponse id name content] |}])
                  = S (countResponses msgs)).
  { rewrite countResponses_app. cbn. apply Nat.add_1_r. }
  destruct (lastMessage msgs) as [last|] eqn:El; [|exact Hopen].
  destruct (isUser (role last) && _); [|exact Hopen].
  apply lastMessage_Some in El as (init & ->).
  rewrite pushToLast_snoc, !countResponses_app.
  unfold countResponses. cbn [flat_map parts]. rewrite !app_nil_r, filter_app, length_app.
  cbn. lia.
Qed.

Lemma handleClaudeToolResult_count (items : list ContentItem) (msgs : list Turn) :
  countResponses (fold_left handleToolResultItem items msgs)
  = countResponses msgs + List.length (filter isToolResult items).
Proof.
  revert msgs. induction items as [|item items IH]; intros msgs; cbn [fold_left].
  - cbn. lia.
  - rewrite IH. destruct item; cbn [handleToolResultItem filter isToolResult];
      try reflexivity.
    rewrite pushFunctionResponse_count. cbn [List.length]. lia.
Qed.

(** ** The output of a tool result *)

Lemma blockTexts_stated (blocks : list ResultBlock) :
  List.concat (map blockText blocks)
  = List.concat (map Shape.textOfBlock (filter Shape.isTextBlock blocks)).
Proof.
  induction blocks as [|b blocks IH]; [reflexivity|].
  cbn [map List.concat filter]. rewrite IH.
  unfold blockText, Shape.isTextBlock.
  destruct (JsString.eqb (block_type b) (js "text")); [|reflexivity].
  cbn [map List.concat]. f_equal.
  unfold orDefault, Shape.textOfBlock.
  destruct (block_text b) as [[|c t]|]; reflexivity.
Qed.

(** [resultContent] is the output of the content. *)
Lemma resultContentOf_stated (content : ResultContent) :
  resultContentOf content = Shape.statedOutput content.
Proof. destruct content; [reflexivity|apply blockTexts_stated|reflexivity]. Qed.

(** ** Pushing the responses of a message *)

(** A pushed response is no function call of a model turn: the names found
    afterwards are the names found before. *)
Lemma findFunctionNameById_pushFunctionResponse
    (toolCallId id name content : jsstring) (msgs : list Turn) :
  findFunctionNameById toolCallId (pushFunctionResponse id name content msgs)
  = findFunctionNameById toolCallId msgs.
Proof.
  assert (Hopen : forall ps,
             findFunctionNameById toolCallId (msgs ++ [{| role := user; parts := ps |}])
             = findFunctionNameById toolCallId msgs).
  { intros ps. unfold findFunctionNameById. now rewrite rev_app_distr. }
  unfold pushFunctionResponse.
  destruct (lastMessage msgs) as [last|] eqn:El; [|apply Hopen].
  destruct (isUser (role last)) eqn:Er; cbn [andb]; [|apply Hopen].
  destruct (existsb isFunctionResponse (parts last)); [|apply Hopen].
  apply lastMessage_Some in El as (init & ->).
  rewrite pushToLast_snoc. unfold findFunctionNameById.
  rewrite !rev_app_distr. cbn [rev app findInTurns role].
  now destruct (role last).
Qed.

Lemma responsesOfItems_pushFunctionResponse
    (id name content : jsstring) (msgs : list Turn) (items : list ContentItem) :
  Shape.responsesOfItems (pushFunctionResponse id name content msgs) items
  = Shape.responsesOfItems msgs items.
Proof.
  unfold Shape.responsesOfItems. apply flat_map_ext. intros item.
  destruct item; try reflexivity. cbn [Shape.responseOfItem].
  now rewrite findFunctionNameById_pushFunctionResponse.
Qed.

Lemma pushResponses_one (id name content : jsstring) (msgs : list Turn) :
  pushFunctionResponse id name content msgs
  = Shape.pushResponses [PFunctionResponse id name content] msgs.
Proof. reflexivity. Qed.

(** Pushing one response and then others is pushing them all. *)
Lemma pushResponses_pushFunctionResponse
    (id name content : jsstring) (responses : list Part) (msgs : list Turn) :
  Shape.pushResponses responses (pushFunctionResponse id name content msgs)
  = Shape.pushResponses (PFunctionResponse id name content :: responses) msgs.
Proof.
  set (response := PFunctionResponse id name content).
  assert (Hopen : Shape.pushResponses responses
                    (msgs ++ [{| role := user; parts := [response] |}])
                  = msgs ++ [{| role := user; parts := response :: responses |}]).
  { destruct responses as [|r responses]; [reflexivity|].
    unfold Shape.pushResponses. rewrite lastMessage_snoc.
    cbn [role parts isUser existsb isFunctionResponse response orb andb].
    now rewrite pushToLast_snoc. }
  unfold pushFunctionResponse. fold response.
  unfold Shape.pushResponses at 2.
  destruct (lastMessage msgs) as [last|] eqn:El; [|exact Hopen].
  destruct (isUser (role last)) eqn:Er; cbn [andb]; [|exact Hopen].
  destruct (existsb isFunctionResponse (parts last)) eqn:Eh; [|exact Hopen].
  apply lastMessage_Some in El as (init & ->).
  rewrite !pushToLast_snoc.
  destruct responses as [|r responses]; [reflexivity|].
  unfold Shape.pushResponses. rewrite lastMessage_snoc.
  cbn [role parts]. rewrite Er, existsb_app, Eh. cbn [orb andb].
  rewrite pushToLast_snoc. cbn [role parts].
  now rewrite <- app_assoc.
Qed.

(** The loop of [handleClaudeToolResult] pushes the responses of all the
    tool results of the message, in order. *)
Lemma handleToolResultItems_pushed (items : list ContentItem) (msgs : list Turn) :
  fold_left handleToolResultItem items msgs
  = Shape.pushResponses (Shape.responsesOfItems msgs items) msgs.
Proof.
  revert msgs. induction items as [|item items IH]; intros msgs; [reflexivity|].
  cbn [fold_left]. rewrite IH.
  destruct item; try reflexivity.
  cbn [handleToolResultItem]. rewrite responsesOfItems_pushFunctionResponse.
  rewrite pushResponses_pushFunctionResponse, resultContentOf_stated.
  reflexivity.
Qed.

Section Converter.

Variable sanitizeToolName : jsstring -> jsstring.
Variable reparse : JSON -> JSON.
Variable isImageModel : jsstring -> bool.
Variable shouldCacheSignature : bool -> bool -> bool.
Variable getSignature : jsstring -> jsstring -> bool -> option CacheEntry.
Variable useFallbackSignature : bool.
Variable getThoughtSignatureForModel : jsstring -> option jsstring.
Variable getToolSignatureForModel : jsstring -> option jsstring.

#[local] Abbreviation getSignatureContext :=
  (Builder.getSignatureContext isImageModel shouldCacheSignature getSignature
     useFallbackSignature getThoughtSignatureForModel getToolSignatureForModel).
#[local] Abbreviation collect := (Builder.collect sanitizeToolName reparse).
#[local] Abbreviation collectItem := (Builder.collectItem sanitizeToolName reparse).
#[local] Abbreviation handleClaudeAssistantMessage :=
  (Builder.handleClaudeAssistantMessage sanitizeToolName reparse isImageModel
     shouldCacheSignature getSignature useFallbackSignature
     getThoughtSignatureForModel getToolSignatureForModel).
#[local] Abbreviation convertMessage :=
  (Builder.convertMessage sanitizeToolName reparse isImageModel
     shouldCacheSignature getSignature useFallbackSignature
     getThoughtSignatureForModel getToolSignatureForModel).
#[local] Abbreviation convertMessages :=
  (Builder.convertMessages sanitizeToolName reparse isImageModel
     shouldCacheSignature getSignature useFallbackSignature
     getThoughtSignatureForModel getToolSignatureForModel).
#[local] Abbreviation claudeMessageToAntigravity :=
  (Builder.claudeMessageToAntigravity sanitizeToolName reparse isImageModel
     shouldCacheSignature getSignature useFallbackSignature
     getThoughtSignatureForModel getToolSignatureForModel).

(** ** What the loop over the content collects *)

Lemma collectItem_toolCalls (enableThinking : bool) (actualModelName : jsstring)
                            (ctx : SignatureContext) (acc : Collected)
                            (item : ContentItem) :
  toolCalls (collectItem enableThinking actualModelName ctx acc item)
  = toolCalls acc ++ toolCallOf sanitizeToolName reparse enableThinking ctx item.
Proof.
  destruct item; cbn [Builder.collectItem toolCallOf toolCalls];
    rewrite ?app_nil_r; try reflexivity.
  unfold processToolName.
  destruct (nonEmpty actualModelName && _); reflexivity.
Qed.

Lemma fold_collectItem_toolCalls (enableThinking : bool) (actualModelName : jsstring)
                                 (ctx : SignatureContext) (items : list ContentItem)
                                 (acc : Collected) :
  toolCalls (fold_left (collectItem enableThinking actualModelName ctx) items acc)
  = toolCalls acc
    ++ flat_map (toolCallOf sanitizeToolName reparse enableThinking ctx) items.
Proof.
  revert acc. induction items as [|item items IH]; intros acc;
    cbn [fold_left flat_map]; [now rewrite app_nil_r|].
  rewrite IH, collectItem_toolCalls, app_assoc. reflexivity.
Qed.

Lemma flat_map_toolCallOf (enableThinking : bool) (ctx : SignatureContext)
                          (items : list ContentItem) :
  flat_map (toolCallOf sanitizeToolName reparse enableThinking ctx) items
  = flat_map (toolCallOf sanitizeToolName reparse enableThinking ctx)
             (filter isToolUse items).
Proof.
  induction items as [|item items IH]; [reflexivity|].
  destruct item; cbn [flat_map filter isToolUse toolCallOf app]; now rewrite IH.
Qed.

(** The tool calls of a message are the parts of its [tool_use] items, in
    order. *)
Lemma collect_toolCalls (enableThinking : bool) (actualModelName : jsstring)
                        (ctx : SignatureContext) (content : Content)
                        (names0 : Registry) :
  toolCalls (collect enableThinking actualModelName ctx content names0)
  = flat_map (toolCallOf sanitizeToolName reparse enableThinking ctx)
             (toolUses content).
Proof.
  destruct content as [text|items|]; try reflexivity.
  cbn [Builder.collect toolUses].
  now rewrite fold_collectItem_toolCalls, <- flat_map_toolCallOf.
Qed.

Lemma toolCallOf_isFunctionCall (enableThinking : bool) (ctx : SignatureContext)
                                (item : ContentItem) :
  Forall (fun p => isFunctionCall p = true)
         (toolCallOf sanitizeToolName reparse enableThinking ctx item).
Proof. destruct item; repeat constructor. Qed.

Lemma collect_toolCalls_isFunctionCall
    (enableThinking : bool) (actualModelName : jsstring) (ctx : SignatureContext)
    (content : Content) (names0 : Registry) :
  Forall (fun p => isFunctionCall p = true)
         (toolCalls (collect enableThinking actualModelName ctx content names0)).
Proof.
  rewrite collect_toolCalls. apply Forall_flat_map, Forall_forall.
  intros item _. apply toolCallOf_isFunctionCall.
Qed.

(** ** The parts of an assistant message *)

Lemma SPACE_nonEmpty : nonEmpty SPACE = true.
Proof. reflexivity. Qed.

Lemma createThoughtPart_signed (text : jsstring) (signature : option jsstring) :
  truthyStr signature = true ->
  exists text',
    nonEmpty text' = true /\ createThoughtPart text signature = PThought text' signature.
Proof.
  intros Hs. unfold createThoughtPart. rewrite Hs.
  destruct (nonEmpty text) eqn:E.
  - exists text. now split.
  - exists SPACE. now split.
Qed.

(** With thinking enabled the parts are the thought part, if a signature is
    available, then the text part, if there is text. *)
Lemma messageParts_thinking (ctx : SignatureContext) (c : Collected) :
  let signature := orElse (messageSignature c)
                          (orElse (reasoningSignature ctx) (toolSignature ctx)) in
  let text := if hasContentOf (textContent c)
              then [PText (trimEnd (textContent c))] else [] in
  (truthyStr signature = false -> messageParts true ctx c = text)
  /\
  (truthyStr signature = true ->
   exists thought,
     nonEmpty thought = true /\
     messageParts true ctx c = PThought thought signature :: text).
Proof.
  intros signature text. unfold messageParts. cbn [negb]. fold signature. fold text.
  split; intros Hs; rewrite Hs; [reflexivity|].
  destruct (createThoughtPart_signed
              (reasoningTextFor ctx (thinkingContent c) signature) signature Hs)
    as (thought & Hne & ->).
  now exists thought.
Qed.

Lemma messageParts_plain (ctx : SignatureContext) (c : Collected) :
  messageParts false ctx c
  = if hasContentOf (textContent c) then [PText (trimEnd (textContent c))] else [].
Proof.
  unfold messageParts. cbn [negb app].
  destruct (hasContentOf (textContent c)); reflexivity.
Qed.

Lemma messageParts_thoughtSigned (enableThinking : bool) (ctx : SignatureContext)
                                 (c : Collected) :
  Forall (fun p => thoughtSigned p = true) (messageParts enableThinking ctx c).
Proof.
  destruct enableThinking.
  - destruct (messageParts_thinking ctx c) as [Hno Hyes].
    destruct (truthyStr (orElse (messageSignature c)
                           (orElse (reasoningSignature ctx) (toolSignature ctx))))
      eqn:Hs.
    + destruct (Hyes eq_refl) as (thought & Hne & ->).
      constructor; [cbn [thoughtSigned]; now rewrite Hne, Hs|].
      destruct (hasContentOf (textContent c)); repeat constructor.
    + rewrite (Hno eq_refl).
      destruct (hasContentOf (textContent c)); repeat constructor.
  - rewrite messageParts_plain.
    destruct (hasContentOf (textContent c)); repeat constructor.
Qed.

Lemma messageParts_no_functionCall (enableThinking : bool) (ctx : SignatureContext)
                                   (c : Collected) :
  Forall (fun p => isFunctionCall p = false) (messageParts enableThinking ctx c).
Proof.
  destruct enableThinking.
  - destruct (messageParts_thinking ctx c) as [Hno Hyes].
    destruct (truthyStr (orElse (messageSignature c)
                           (orElse (reasoningSignature ctx) (toolSignature ctx)))).
    + destruct (Hyes eq_refl) as (thought & Hne & ->).
      destruct (hasContentOf (textContent c)); repeat constructor.
    + rewrite (Hno eq_refl).
      destruct (hasContentOf (textContent c)); repeat constructor.
  - rewrite messageParts_plain.
    destruct (hasContentOf (textContent c)); repeat constructor.
Qed.

(** ** Every message is converted by pushes *)

Lemma extractImages_inlineData (content : Content) :
  Forall (fun p => exists mime data, p = PInlineData mime data)
         (snd (extractImagesFromClaudeContent content)).
Proof.
  destruct content as [text|items|]; try constructor.
  cbn [extractImagesFromClaudeContent].
  assert (H : forall acc,
             Forall (fun p => exists mime data, p = PInlineData mime data) (snd acc) ->
             Forall (fun p => exists mime data, p = PInlineData mime data)
                    (snd (fold_left extractItem items acc))).
  { induction items as [|item items IH]; intros acc Hacc; [exact Hacc|].
    cbn [fold_left]. apply IH.
    destruct item; try exact Hacc. cbn [extractItem snd].
    apply Forall_app. split; [exact Hacc|].
    unfold imagePart. destruct source as [src|]; [|constructor].
    destruct (JsString.eqb _ _ && _); repeat econstructor. }
  apply H. constructor.
Qed.

Lemma convertMessage_built (allowed : Part -> Prop) (enableThinking : bool)
                           (actualModelName sessionId : jsstring) (hasTools : bool)
                           (conv : Conversion) (message : ChatMessage) :
  (forall text, allowed (PText text)) ->
  (forall mime data, allowed (PInlineData mime data)) ->
  (forall id name content, allowed (PFunctionResponse id name content)) ->
  (msg_role message = RoleAssistant ->
   let ctx := getSignatureContext sessionId actualModelName hasTools in
   let c := collect enableThinking actualModelName ctx (msg_content message)
                    (toolNames conv) in
   Forall allowed (messageParts enableThinking ctx c)
   /\ Forall allowed (toolCalls c)) ->
  built allowed (antigravityMessages conv)
        (antigravityMessages
           (convertMessage enableThinking actualModelName sessionId hasTools
                           conv message)).
Proof.
  intros Htext Himg Hresp Hassistant. unfold Builder.convertMessage.
  destruct (msg_role message).
  - destruct (hasToolResult (msg_content message)).
    + cbn [antigravityMessages]. now apply handleClaudeToolResult_built.
    + pose proof (extractImages_inlineData (msg_content message)) as Himgs.
      destruct (extractImagesFromClaudeContent (msg_content message))
        as [text images].
      cbn [antigravityMessages snd] in *. unfold pushUserMessage.
      apply built_turn; [constructor|]. cbn [parts].
      constructor; [apply Htext|].
      eapply Forall_impl; [|exact Himgs].
      intros p (mime & data & ->). apply Himg.
  - destruct (Hassistant eq_refl) as [Hparts Hcalls].
    unfold Builder.handleClaudeAssistantMessage. cbn [antigravityMessages].
    now apply pushModelMessage_built.
  - constructor.
Qed.

Lemma all_parts_built (allowed : Part -> Prop) (a b : list Turn) :
  built allowed a b ->
  Forall (fun t => Forall allowed (parts t)) a ->
  Forall (fun t => Forall allowed (parts t)) b.
Proof.
  apply built_preserves.
  - intros msgs t Ht Hmsgs. apply Forall_app. split; [assumption|].
    now repeat constructor.
  - intros msgs extra Hextra Hmsgs.
    destruct (snoc_cases msgs) as [->|(init & last & ->)]; [constructor|].
    rewrite pushToLast_snoc. apply Forall_app in Hmsgs as [Hinit Hlast].
    apply Forall_app. split; [assumption|].
    constructor; [|constructor]. cbn [parts]. apply Forall_app. split; [|assumption].
    now inversion Hlast.
Qed.

Lemma functionCall_thoughtSigned (l : list Part) :
  Forall (fun p => isFunctionCall p = true) l ->
  Forall (fun p => thoughtSigned p = true) l.
Proof.
  apply Forall_impl. intros p Hp. destruct p; try discriminate; reflexivity.
Qed.

Lemma functionCall_not_thought (l : list Part) :
  Forall (fun p => isFunctionCall p = true) l ->
  Forall (fun p => isThought p = false) l.
Proof.
  apply Forall_impl. intros p Hp. destruct p; try discriminate; reflexivity.
Qed.

(** Every thought part of a converted conversation is signed. *)
Lemma convertMessages_thoughtSigned
    (enableThinking : bool) (actualModelName sessionId : jsstring) (hasTools : bool)
    (claudeMessages : list ChatMessage) (conv : Conversion) :
  Forall (fun t => Forall (fun p => thoughtSigned p = true) (parts t))
         (antigravityMessages conv) ->
  Forall (fun t => Forall (fun p => thoughtSigned p = true) (parts t))
         (antigravityMessages
            (convertMessages enableThinking actualModelName sessionId hasTools
                             claudeMessages conv)).
Proof.
  revert conv. induction claudeMessages as [|message rest IH]; intros conv Hconv;
    [exact Hconv|].
  cbn [Builder.convertMessages fold_left]. apply IH.
  eapply all_parts_built; [|exact Hconv].
  apply convertMessage_built; try reflexivity.
  intros _. split.
  - apply messageParts_thoughtSigned.
  - apply functionCall_thoughtSigned, collect_toolCalls_isFunctionCall.
Qed.

(** Where the signature of a message comes from: one of its [thinking]
    items, if any of them has one. *)
Lemma fold_collectItem_messageSignature
    (enableThinking : bool) (actualModelName : jsstring) (ctx : SignatureContext)
    (items : list ContentItem) (acc : Collected) :
  let c := fold_left (collectItem enableThinking actualModelName ctx) items acc in
  messageSignature c = messageSignature acc
  \/ In (messageSignature c) (thinkingSignatures (Items items)).
Proof.
  revert acc. induction items as [|item items IH]; intros acc; [now left|].
  cbn [fold_left]. cbn zeta in *.
  destruct (IH (collectItem enableThinking actualModelName ctx acc item))
    as [H|H].
  - rewrite H. destruct item; cbn [Builder.collectItem messageSignature];
      try (now left).
    + destruct (negb (truthyStr (messageSignature acc)) && truthyStr signature);
        [right; cbn; now left|now left].
    + unfold processToolName. destruct (nonEmpty actualModelName && _); now left.
  - right. cbn [thinkingSignatures flat_map] in *. apply in_or_app. now right.
Qed.

Lemma collect_messageSignature
    (enableThinking : bool) (actualModelName : jsstring) (ctx : SignatureContext)
    (content : Content) (names0 : Registry) :
  let c := collect enableThinking actualModelName ctx content names0 in
  messageSignature c = None \/ In (messageSignature c) (thinkingSignatures content).
Proof.
  destruct content as [text|items|]; try (now left).
  apply (fold_collectItem_messageSignature enableThinking actualModelName ctx items).
Qed.

(** Where the signatures of the context come from: the cache entry of this
    session and model, or the configured fallback. *)
Lemma getSignatureContext_sources (sessionId actualModelName : jsstring)
                                  (hasTools : bool) :
  let ctx := getSignatureContext sessionId actualModelName hasTools in
  (exists entry,
     getSignature sessionId actualModelName hasTools = Some entry /\
     reasoningSignature ctx = entry_signature entry /\
     toolSignature ctx = entry_signature entry)
  \/
  (useFallbackSignature = true /\
   reasoningSignature ctx = getThoughtSignatureForModel actualModelName /\
   toolSignature ctx = if hasTools then getToolSignatureForModel actualModelName
                       else None)
  \/
  (reasoningSignature ctx = None /\ toolSignature ctx = None).
Proof.
  unfold Builder.getSignatureContext.
  destruct (shouldCacheSignature hasTools (isImageModel actualModelName)).
  - destruct (getSignature sessionId actualModelName hasTools) as [entry|] eqn:E.
    + left. now exists entry.
    + right. destruct useFallbackSignature; [left|right]; repeat split.
  - right. destruct useFallbackSignature; [left|right]; repeat split.
Qed.

(** C1. With thinking enabled for the model:
    - every thought part of the converted conversation carries a non-empty
      text and a non-empty signature;
    - the signature of an assistant message is the first non-empty one among
      the signature of the message itself, the reasoning signature and the
      tool signature of the context; when there is one, the parts of the
      message start with a single thought part that carries it and a
      non-empty text; when there is none, no part of the message is a
      thought part, and the message adds no thought part to the turns;
    - the signature of the message itself is the signature of one of its
      thinking items, and the signatures of the context are those of the
      cache entry of this session and model or, failing that, the configured
      fallback. *)
Theorem thought_part_requires_signature
    (actualModelName sessionId : jsstring) (hasTools : bool) :
  (forall claudeMessages names0,
     Forall (fun t => Forall (fun p => thoughtSigned p = true) (parts t))
            (antigravityMessages
               (claudeMessageToAntigravity claudeMessages true actualModelName
                                           sessionId hasTools names0)))
  /\
  (forall (message : ChatMessage) (conv : Conversion),
     let ctx := getSignatureContext sessionId actualModelName hasTools in
     let c := collect true actualModelName ctx (msg_content message)
                      (toolNames conv) in
     let signature := orElse (messageSignature c)
                             (orElse (reasoningSignature ctx) (toolSignature ctx)) in
     let text := if hasContentOf (textContent c)
                 then [PText (trimEnd (textContent c))] else [] in
     (truthyStr signature = true ->
      exists thought,
        nonEmpty thought = true /\
        messageParts true ctx c = PThought thought signature :: text)
     /\
     (truthyStr signature = false ->
      messageParts true ctx c = text /\
      built (fun p => isThought p = false)
            (antigravityMessages conv)
            (antigravityMessages
               (handleClaudeAssistantMessage message true actualModelName
                                             sessionId hasTools conv)))
     /\
     (messageSignature c = None
      \/ In (messageSignature c) (thinkingSignatures (msg_content message))))
  /\
  (let ctx := getSignatureContext sessionId actualModelName hasTools in
   (exists entry,
      getSignature sessionId actualModelName hasTools = Some entry /\
      reasoningSignature ctx = entry_signature entry /\
      toolSignature ctx = entry_signature entry)
   \/
   (useFallbackSignature = true /\
    reasoningSignature ctx = getThoughtSignatureForModel actualModelName /\
    toolSignature ctx = if hasTools then getToolSignatureForModel actualModelName
                        else None)
   \/
   (reasoningSignature ctx = None /\ toolSignature ctx = None)).
Proof.
  split; [|split].
  - intros claudeMessages names0. unfold Builder.claudeMessageToAntigravity.
    apply convertMessages_thoughtSigned. constructor.
  - intros message conv ctx c signature text.
    destruct (messageParts_thinking ctx c) as [Hno Hyes].
    fold signature in Hno, Hyes. fold text in Hno, Hyes.
    split; [exact Hyes|]. split.
    + intros Hs. split; [now apply Hno|].
      unfold Builder.handleClaudeAssistantMessage. cbn [antigravityMessages].
      fold ctx. fold c. apply pushModelMessage_built.
      * rewrite (Hno Hs). unfold text.
        destruct (hasContentOf (textContent c)); repeat constructor.
      * apply functionCall_not_thought, collect_toolCalls_isFunctionCall.
    + apply collect_messageSignature.
  - apply getSignatureContext_sources.
Qed.

(** ** One tool call and its result *)

Lemma Forall_True {A} (l : list A) : Forall (fun _ => True) l.
Proof. apply Forall_forall. trivial. Qed.

Lemma convertMessage_built_any
    (enableThinking : bool) (actualModelName sessionId : jsstring) (hasTools : bool)
    (conv : Conversion) (message : ChatMessage) :
  built (fun _ => True) (antigravityMessages conv)
        (antigravityMessages
           (convertMessage enableThinking actualModelName sessionId hasTools
                           conv message)).
Proof.
  apply convertMessage_built; trivial.
  intros _. split; apply Forall_True.
Qed.

Lemma answeredCall_turn (id name output : jsstring) (msgs : list Turn) (t : Turn) :
  answeredCall id name output msgs -> answeredCall id name output (msgs ++ [t]).
Proof.
  intros (front & m & u & back & args & sig & -> & Hm & Hcall & Hu & Hresp).
  exists front, m, u, (back ++ [t]), args, sig.
  rewrite <- app_assoc. repeat split; assumption.
Qed.

Lemma answeredCall_parts (id name output : jsstring) (msgs : list Turn)
                         (extra : list Part) :
  answeredCall id name output msgs ->
  answeredCall id name output (pushToLast extra msgs).
Proof.
  intros (front & m & u & back & args & sig & -> & Hm & Hcall & Hu & Hresp).
  destruct (snoc_cases back) as [->|(back' & last & ->)].
  - change (front ++ [m; u]) with (front ++ [m] ++ [u]).
    rewrite app_assoc, pushToLast_snoc, <- app_assoc.
    exists front, m, {| role := role u; parts := parts u ++ extra |}, [], args, sig.
    repeat split; try assumption. cbn [parts]. apply in_or_app. now left.
  - change (front ++ m :: u :: back' ++ [last])
      with (front ++ (m :: u :: back') ++ [last]).
    rewrite app_assoc, pushToLast_snoc, <- app_assoc.
    exists front, m, u, (back' ++ [{| role := role last; parts := parts last ++ extra |}]),
           args, sig.
    repeat split; assumption.
Qed.

Lemma convertMessages_answeredCall
    (id name output : jsstring)
    (enableThinking : bool) (actualModelName sessionId : jsstring) (hasTools : bool)
    (claudeMessages : list ChatMessage) (conv : Conversion) :
  answeredCall id name output (antigravityMessages conv) ->
  answeredCall id name output
    (antigravityMessages
       (convertMessages enableThinking actualModelName sessionId hasTools
                        claudeMessages conv)).
Proof.
  revert conv. induction claudeMessages as [|message rest IH]; intros conv Hconv;
    [exact Hconv|].
  cbn [Builder.convertMessages fold_left]. apply IH.
  eapply built_preserves with (allowed := fun _ => True);
    [| |apply convertMessage_built_any|exact Hconv].
  - intros msgs t _. apply answeredCall_turn.
  - intros msgs extra _. apply answeredCall_parts.
Qed.

(** Messages without tool calls leave turns without [functionCall] parts. *)
Lemma convertMessages_no_functionCall
    (enableThinking : bool) (actualModelName sessionId : jsstring) (hasTools : bool)
    (claudeMessages : list ChatMessage) (conv : Conversion) :
  (forall message,
     In message claudeMessages -> msg_role message = RoleAssistant ->
     toolUses (msg_content message) = []) ->
  Forall (fun t => Forall (fun p => isFunctionCall p = false) (parts t))
         (antigravityMessages conv) ->
  Forall (fun t => Forall (fun p => isFunctionCall p = false) (parts t))
         (antigravityMessages
            (convertMessages enableThinking actualModelName sessionId hasTools
                             claudeMessages conv)).
Proof.
  revert conv. induction claudeMessages as [|message rest IH];
    intros conv Hnone Hconv; [exact Hconv|].
  cbn [Builder.convertMessages fold_left]. apply IH.
  - intros m Hin. apply Hnone. now right.
  - eapply all_parts_built; [|exact Hconv].
    apply convertMessage_built; try reflexivity.
    intros Hrole. split; [apply messageParts_no_functionCall|].
    rewrite collect_toolCalls, (Hnone message (or_introl eq_refl) Hrole).
    constructor.
Qed.

Lemma toolUses_single (before after : list ContentItem) (item : ContentItem) :
  Forall (fun i => isToolUse i = false) before ->
  Forall (fun i => isToolUse i = false) after ->
  isToolUse item = true ->
  toolUses (Items (before ++ item :: after)) = [item].
Proof.
  intros Hb Ha Hi. cbn [toolUses]. rewrite filter_app. cbn [filter]. rewrite Hi.
  assert (Hnone : forall l, Forall (fun i => isToolUse i = false) l ->
                            filter isToolUse l = []).
  { induction 1 as [|i l Hil _ IH]; [reflexivity|]. cbn [filter]. now rewrite Hil. }
  now rewrite (Hnone before Hb), (Hnone after Ha).
Qed.

(** The assistant message with the single call leaves a model turn last, its
    only [functionCall] part being the call. *)
Lemma single_call_pushed
    (newParts : list Part) (call : Part) (hasContent : bool) (msgs : list Turn) :
  Forall (fun t => Forall (fun p => isFunctionCall p = false) (parts t)) msgs ->
  Forall (fun p => isFunctionCall p = false) newParts ->
  exists front others,
    pushModelMessage newParts [call] hasContent msgs
    = front ++ [{| role := model; parts := others ++ [call] |}] /\
    Forall (fun p => isFunctionCall p = false) others.
Proof.
  intros Hmsgs Hnew. unfold pushModelMessage.
  assert (Hopen : exists front others,
             msgs ++ [{| role := model; parts := newParts ++ [call] |}]
             = front ++ [{| role := model; parts := others ++ [call] |}] /\
             Forall (fun p => isFunctionCall p = false) others).
  { now exists msgs, newParts. }
  destruct (lastMessage msgs) as [last|] eqn:El; [|exact Hopen].
  destruct (isModel (role last)) eqn:Er; cbn [andb]; [|exact Hopen].
  destruct (negb hasContent); [|exact Hopen].
  apply lastMessage_Some in El as (init & ->).
  rewrite pushToLast_snoc. exists init, (parts last).
  destruct (role last); [discriminate|]. split; [reflexivity|].
  apply Forall_app in Hmsgs as [_ Hlast]. now inversion Hlast.
Qed.

Lemma findFunctionNameById_last_call
    (id name : jsstring) (args : JSON) (sig : option jsstring)
    (front : list Turn) (others : list Part) :
  Forall (fun p => isFunctionCall p = false) others ->
  findFunctionNameById id
    (front ++ [{| role := model;
                  parts := others ++ [PFunctionCall id name args sig] |}])
  = name.
Proof.
  intros Hothers. unfold findFunctionNameById.
  rewrite rev_app_distr. cbn [rev app findInTurns role isModel parts].
  now rewrite findInParts_first.
Qed.

(** C4. A tool result is appended to the last turn when that turn is a user
    turn that already holds a [functionResponse] part; otherwise a new user
    turn holding only the [functionResponse] part is opened. And when a
    conversation holds one tool call (no assistant message before it has
    one), in an assistant message followed by the user message with its
    result (alone or beside other items), the converted turns hold the model
    turn with the [functionCall] part immediately followed by a user turn
    with the [functionResponse] part of the same id and function name, whose
    output is the output of the result. And a message whose content is a list of items has every one of
    its tool results pushed: there is one [functionResponse] part for each
    [tool_result] item, carrying its id, the name of the call of that id
    (the empty string when there is none) and its output; these parts, in
    the order of the items, are appended to the last turn when that turn is
    a user turn holding a [functionResponse] part, and are otherwise the
    parts of one new user turn, which so holds [functionResponse] parts
    only; a list without tool result changes nothing. *)
Theorem tool_result_follows_tool_call :
  (forall id name content init last,
     role last = user ->
     existsb isFunctionResponse (parts last) = true ->
     pushFunctionResponse id name content (init ++ [last])
     = init ++ [{| role := user;
                   parts := parts last ++ [PFunctionResponse id name content] |}])
  /\
  (forall id name content msgs,
     msgs = []
     \/ (exists init last,
           msgs = init ++ [last] /\
           (role last = model \/ existsb isFunctionResponse (parts last) = false)) ->
     pushFunctionResponse id name content msgs
     = msgs ++ [{| role := user; parts := [PFunctionResponse id name content] |}])
  /\
  (forall (earlier later : list ChatMessage) (before after : list ContentItem)
          (beside further : list ContentItem)
          (id name : jsstring) (input : option JSON) (signature : option jsstring)
          (content : ResultContent)
          (enableThinking : bool) (actualModelName sessionId : jsstring)
          (hasTools : bool) (names0 : Registry),
     (forall message,
        In message earlier -> msg_role message = RoleAssistant ->
        toolUses (msg_content message) = []) ->
     Forall (fun i => isToolUse i = false) before ->
     Forall (fun i => isToolUse i = false) after ->
     let call := {| msg_role := RoleAssistant;
                    msg_content :=
                      Items (before ++ ToolUseItem id name input signature :: after) |} in
     let result := {| msg_role := RoleUser;
                      msg_content :=
                        Items (beside ++ ToolResultItem id content :: further) |} in
     answeredCall id (sanitizeToolName name) (Shape.statedOutput content)
       (antigravityMessages
          (claudeMessageToAntigravity (earlier ++ call :: result :: later)
             enableThinking actualModelName sessionId hasTools names0)))
  /\
  (forall (sender : ClientRole) (items : list ContentItem) (msgs : list Turn),
     let responses := Shape.responsesOfItems msgs items in
     let result := handleClaudeToolResult
                     {| msg_role := sender; msg_content := Items items |} msgs in
     List.length responses = List.length (filter isToolResult items)
     /\
     Forall (fun p => isFunctionResponse p = true) responses
     /\
     (responses = [] -> result = msgs)
     /\
     (forall init last,
        msgs = init ++ [last] ->
        role last = user ->
        existsb isFunctionResponse (parts last) = true ->
        result = init ++ [{| role := user; parts := parts last ++ responses |}])
     /\
     (responses <> [] ->
      msgs = []
      \/ (exists init last,
            msgs = init ++ [last] /\
            (role last = model \/ existsb isFunctionResponse (parts last) = false)) ->
      result = msgs ++ [{| role := user; parts := responses |}])).
Proof.
  split; [exact pushFunctionResponse_append|].
  split; [exact pushFunctionResponse_open|].
  split; cycle 1.
  { intros sender items msgs responses result.
    assert (Hresult : result = Shape.pushResponses responses msgs)
      by apply handleToolResultItems_pushed.
    split; [|split; [|split; [|split]]].
    - subst responses. clear. unfold Shape.responsesOfItems.
      induction items as [|item items IH]; [reflexivity|].
      cbn [flat_map filter]. rewrite length_app, IH.
      now destruct item.
    - subst responses. clear. unfold Shape.responsesOfItems.
      induction items as [|item items IH]; [constructor|].
      cbn [flat_map]. apply Forall_app. split; [|exact IH].
      destruct item; repeat constructor.
    - intros Hnone. now rewrite Hresult, Hnone.
    - intros init last -> Hrole Hhas. rewrite Hresult.
      destruct responses as [|r responses].
      + rewrite app_nil_r. cbn [Shape.pushResponses].
        destruct last as [sent ps]. cbn [role] in Hrole. now subst sent.
      + unfold Shape.pushResponses.
        rewrite lastMessage_snoc, Hrole, Hhas. cbn [isUser andb].
        now rewrite pushToLast_snoc, Hrole.
    - intros Hsome Hlast. rewrite Hresult.
      destruct responses as [|r responses]; [now destruct Hsome|].
      unfold Shape.pushResponses.
      destruct Hlast as [->|(init & last & -> & Hlast)]; [reflexivity|].
      rewrite lastMessage_snoc.
      destruct Hlast as [H|H]; rewrite H; [reflexivity|].
      now rewrite andb_false_r. }
  intros earlier later before after beside further id name input signature content
         enableThinking actualModelName sessionId hasTools names0
         Hearlier Hbefore Hafter call result.
  unfold Builder.claudeMessageToAntigravity, Builder.convertMessages.
  rewrite fold_left_app. cbn [fold_left].
  apply convertMessages_answeredCall.
  set (conv1 := fold_left _ earlier _).
  assert (H1 : Forall (fun t => Forall (fun p => isFunctionCall p = false) (parts t))
                      (antigravityMessages conv1)).
  { apply convertMessages_no_functionCall; [exact Hearlier|constructor]. }
  unfold Builder.convertMessage at 2. cbn [msg_role call].
  unfold Builder.handleClaudeAssistantMessage.
  set (ctx := getSignatureContext sessionId actualModelName hasTools).
  set (c := collect enableThinking actualModelName ctx (msg_content call)
                    (toolNames conv1)).
  assert (Hcalls : toolCalls c
                   = toolCallOf sanitizeToolName reparse enableThinking ctx
                                (ToolUseItem id name input signature)).
  { unfold c. rewrite collect_toolCalls. unfold call. cbn [msg_content].
    rewrite toolUses_single by (assumption || reflexivity).
    cbn [flat_map]. apply app_nil_r. }
  cbn [toolCallOf] in Hcalls. unfold createFunctionCallPart in Hcalls.
  rewrite Hcalls.
  match goal with
  | |- context [pushModelMessage _ [?part] _ _] =>
      destruct (single_call_pushed part (hasContentOf (textContent c)) H1
                  (messageParts_no_functionCall enableThinking ctx c))
        as (front & others & Hpushed & Hothers)
  end.
  rewrite Hpushed.
  assert (Hhas : hasToolResult (msg_content result) = true).
  { cbn [result msg_content hasToolResult]. rewrite existsb_app.
    cbn [existsb isToolResult orb]. apply orb_true_r. }
  unfold Builder.convertMessage. cbn [msg_role result]. fold result. rewrite Hhas.
  cbn [antigravityMessages]. unfold handleClaudeToolResult.
  cbn [result msg_content]. rewrite handleToolResultItems_pushed.
  match goal with
  | |- context [Shape.responsesOfItems ?msgs ?items] =>
      assert (Hin : In (PFunctionResponse id (sanitizeToolName name)
                          (Shape.statedOutput content))
                       (Shape.responsesOfItems msgs items));
      [|destruct (Shape.responsesOfItems msgs items) as [|response responses];
        [destruct Hin|]]
  end.
  { apply in_flat_map. exists (ToolResultItem id content).
    split; [apply in_elt|]. cbn [Shape.responseOfItem].
    rewrite (findFunctionNameById_last_call _ _ _ _ front Hothers). now left. }
  unfold Shape.pushResponses. rewrite lastMessage_snoc. cbn [role isUser andb].
  rewrite <- app_assoc. cbn [app].
  eexists front, _, _, [], _, _.
  split; [reflexivity|]. cbn [role parts].
  split; [reflexivity|]. split; [apply in_or_app; right; now left|].
  split; [reflexivity|exact Hin].
Qed.

(** C9. An assistant message that yields tool calls and whose text holds no
    character other than white space, arriving when the last backend turn is
    a model turn, has its tool calls appended to that turn; in every other
    case a new model turn is opened, holding the parts of the message
    followed by its tool calls. *)
Theorem tool_calls_merge_into_model_turn
    (message : ChatMessage) (enableThinking : bool)
    (actualModelName sessionId : jsstring) (hasTools : bool) (conv : Conversion) :
  let ctx := getSignatureContext sessionId actualModelName hasTools in
  let c := collect enableThinking actualModelName ctx (msg_content message)
                   (toolNames conv) in
  let result := antigravityMessages
                  (handleClaudeAssistantMessage message enableThinking
                     actualModelName sessionId hasTools conv) in
  (forall init last,
     antigravityMessages conv = init ++ [last] ->
     role last = model ->
     toolCalls c <> [] ->
     forallb isWhiteSpace (textContent c) = true ->
     result = init ++ [{| role := model; parts := parts last ++ toolCalls c |}])
  /\
  (antigravityMessages conv = []
   \/ (exists init last, antigravityMessages conv = init ++ [last] /\ role last = user)
   \/ toolCalls c = []
   \/ forallb isWhiteSpace (textContent c) = false ->
   result = antigravityMessages conv
            ++ [{| role := model;
                   parts := messageParts enableThinking ctx c ++ toolCalls c |}]).
Proof.
  intros ctx c result. unfold result, Builder.handleClaudeAssistantMessage.
  cbn [antigravityMessages]. fold ctx. fold c. split.
  - intros init last Hmsgs Hrole Hcalls Hblank.
    apply hasContentOf_false_iff in Hblank. rewrite Hblank, Hmsgs.
    now apply pushModelMessage_merge.
  - intros H. apply pushModelMessage_open.
    destruct H as [H|[H|[H|H]]]; auto.
    right. right. right.
    destruct (hasContentOf (textContent c)) eqn:E; [reflexivity|].
    apply hasContentOf_false_iff in E. congruence.
Qed.

End Converter.

Lemma tool_calls_merge_into_model_turn_witness :
  let ctx := Builder.getSignatureContext noImageModel alwaysCache emptyCache false
               noSignature noSignature (js "s") (js "claude") false in
  let c := Builder.collect keepName sameValue true (js "claude") ctx
             (msg_content callAgain) [] in
  let turns := [{| role := model; parts := [PText (js "a")] |}] in
  (role {| role := model; parts := [PText (js "a")] |} = model
   /\ toolCalls c <> []
   /\ forallb isWhiteSpace (textContent c) = true)
  /\
  antigravityMessages
    (Builder.handleClaudeAssistantMessage keepName sameValue noImageModel alwaysCache
       emptyCache false noSignature noSignature callAgain true (js "claude")
       (js "s") false {| antigravityMessages := turns; toolNames := [] |})
  = [] ++ [{| role := model; parts := [PText (js "a")] ++ toolCalls c |}].
Proof.
  intros ctx c turns.
  assert (Hcalls : toolCalls c <> []) by (vm_compute; discriminate).
  assert (Hblank : forallb isWhiteSpace (textContent c) = true) by reflexivity.
  split; [split; [reflexivity|split; [exact Hcalls|exact Hblank]]|].
  exact (proj1 (@tool_calls_merge_into_model_turn keepName sameValue noImageModel
                  alwaysCache emptyCache false noSignature noSignature callAgain
                  true (js "claude") (js "s") false
                  {| antigravityMessages := turns; toolNames := [] |})
               [] {| role := model; parts := [PText (js "a")] |}
               eq_refl eq_refl Hcalls Hblank).
Defined.

Lemma tool_result_follows_tool_call_witness :
  let responses := Shape.responsesOfItems MoreInputs.turnsAfterCall
                     MoreInputs.twoResults in
  answeredCall (js "t1") (keepName (js "get_weather"))
    (Shape.statedOutput (ResultString (js "sunny")))
    (antigravityMessages
       (Builder.claudeMessageToAntigravity keepName sameValue noImageModel
          alwaysCache emptyCache false noSignature noSignature
          ([askWeather]
           ++ callWeather
           :: {| msg_role := RoleUser; msg_content := Items MoreInputs.twoResults |}
           :: [])
          true (js "claude") (js "s") false []))
  /\
  (responses <> []
   /\ (MoreInputs.turnsAfterCall = []
       \/ exists init last,
            MoreInputs.turnsAfterCall = init ++ [last] /\
            (role last = model \/ existsb isFunctionResponse (parts last) = false))
   /\ handleClaudeToolResult
        {| msg_role := RoleUser; msg_content := Items MoreInputs.twoResults |}
        MoreInputs.turnsAfterCall
      = MoreInputs.turnsAfterCall ++ [{| role := user; parts := responses |}]).
Proof.
  intros responses.
  pose proof (@tool_result_follows_tool_call keepName sameValue noImageModel
                alwaysCache emptyCache false noSignature noSignature)
    as (_ & _ & Hone & Hall).
  split.
  - apply (Hone [askWeather] []
             [ThinkingItem (Some (js "because...")) (Some (js "sig1"))] []
             [] (tl MoreInputs.twoResults)
             (js "t1") (js "get_weather") (Some (JObj [])) None
             (ResultString (js "sunny")) true (js "claude") (js "s") false []).
    + intros message [<-|[]] Hrole. discriminate Hrole.
    + repeat constructor.
    + constructor.
  - assert (Hsome : responses <> []) by (vm_compute; discriminate).
    assert (Hlast : MoreInputs.turnsAfterCall = []
                    \/ exists init last,
                         MoreInputs.turnsAfterCall = init ++ [last] /\
                         (role last = model
                          \/ existsb isFunctionResponse (parts last) = false)).
    { right. eexists [_], _. split; [reflexivity|]. left. reflexivity. }
    split; [exact Hsome|]. split; [exact Hlast|].
    exact (proj2 (proj2 (proj2 (proj2 (Hall RoleUser MoreInputs.twoResults
                                            MoreInputs.turnsAfterCall))))
                 Hsome Hlast).
Defined.

(** The two tool results, pushed: one new user turn holds both responses, in
    order; the first has the name of its call, the second the empty name and
    the joined texts of its two text blocks. *)
Example two_results_pushed :
  handleClaudeToolResult
    {| msg_role := RoleUser; msg_content := Items MoreInputs.twoResults |}
    MoreInputs.turnsAfterCall
  = MoreInputs.turnsAfterCall
    ++ [{| role := user;
           parts := [PFunctionResponse (js "t1") (js "get_weather") (js "sunny");
                     PFunctionResponse (js "t9") [] (js "ab")] |}].
Proof. vm_compute. reflexivity. Qed.

(** A further tool result joins the user turn that holds those responses. *)
Example third_result_appended :
  handleClaudeToolResult
    {| msg_role := RoleUser;
       msg_content := Items [ToolResultItem (js "t1") ResultOther] |}
    (MoreInputs.turnsAfterCall
     ++ [{| role := user;
            parts := [PFunctionResponse (js "t1") (js "get_weather") (js "sunny")] |}])
  = MoreInputs.turnsAfterCall
    ++ [{| role := user;
           parts := [PFunctionResponse (js "t1") (js "get_weather") (js "sunny");
                     PFunctionResponse (js "t1") (js "get_weather") [] ] |}].
Proof. vm_compute. reflexivity. Qed.

(** The turns of that conversation are those of the question and the call. *)
Example turns_after_call : antigravityMessages afterCall = MoreInputs.turnsAfterCall.
Proof. vm_compute. reflexivity. Qed.

Lemma thought_part_requires_signature_witness :
  let ctx := Builder.getSignatureContext noImageModel alwaysCache emptyCache false
               noSignature noSignature (js "s") (js "claude") false in
  let c := Builder.collect keepName sameValue true (js "claude") ctx
             (msg_content callWeather) [] in
  let signature := orElse (messageSignature c)
                          (orElse (reasoningSignature ctx) (toolSignature ctx)) in
  truthyStr signature = true
  /\
  exists thought,
    nonEmpty thought = true /\
    messageParts true ctx c
    = PThought thought signature
      :: (if hasContentOf (textContent c)
          then [PText (trimEnd (textContent c))] else []).
Proof.
  intros ctx c signature.
  assert (Hs : truthyStr signature = true) by reflexivity.
  split; [exact Hs|].
  exact (proj1 (proj1 (proj2 (@thought_part_requires_signature keepName sameValue
                                noImageModel alwaysCache emptyCache false
                                noSignature noSignature (js "claude") (js "s")
                                false))
                      callWeather emptyConversion) Hs).
Defined.

(** The conversation, converted: the thought part carries the text and the
    signature of the thinking block; the call and its response follow each
    other. *)
Example weather_conversation :
  antigravityMessages
    (Builder.claudeMessageToAntigravity keepName sameValue noImageModel alwaysCache
       emptyCache false noSignature noSignature
       [askWeather; callWeather; weatherResult] true (js "claude") (js "s")
       false [])
  = [{| role := user; parts := [PText (js "weather?")] |};
     {| role := model;
        parts := [PThought (js "because...") (Some (js "sig1"));
                  PFunctionCall (js "t1") (js "get_weather") (JObj []) None] |};
     {| role := user;
        parts := [PFunctionResponse (js "t1") (js "get_weather") (js "sunny")] |}].
Proof. vm_compute. reflexivity. Qed.

(** Without any signature the same message yields no thought part. *)
Example unsigned_thinking_is_left_out :
  antigravityMessages
    (Builder.claudeMessageToAntigravity keepName sameValue noImageModel alwaysCache
       emptyCache false noSignature noSignature
       [{| msg_role := RoleAssistant;
           msg_content := Items [ThinkingItem (Some (js "because...")) None;
                                 TextItem (Some (js "ok "))] |}]
       true (js "claude") (js "s") false [])
  = [{| role := model; parts := [PText (js "ok")] |}].
Proof. vm_compute. reflexivity. Qed.

(** A bare follow-up call joins the model turn before it. *)
Example follow_up_call_is_merged :
  antigravityMessages
    (Builder.convertMessage keepName sameValue noImageModel alwaysCache emptyCache
       false noSignature noSignature true (js "claude") (js "s") false
       afterCall callAgain)
  = [{| role := user; parts := [PText (js "weather?")] |};
     {| role := model;
        parts := [PThought (js "because...") (Some (js "sig1"));
                  PFunctionCall (js "t1") (js "get_weather") (JObj []) None;
                  PFunctionCall (js "t2") (js "get_weather") (JObj []) None] |}].
Proof. vm_compute. reflexivity. Qed.

(** ** Web-search requests *)

Lemma hasWebSearchTool_member (l : list (option ClaudeTool)) (t : ClaudeTool) :
  In (Some t) l -> tool_name t = Some (js "web_search") ->
  hasWebSearchTool (Some l) = true.
Proof.
  intros Hin Hname. cbn [hasWebSearchTool]. apply existsb_exists.
  exists (Some t). split; [exact Hin|]. rewrite Hname. cbn [sameString].
  apply JsStringFacts.eqb_refl.
Qed.

Section RequestBody.

Variable BackendTool : Type.
Variable Settings : Type.
Variable Parameters : Type.
Variable SystemPrompt : Type.
Variable SystemInstruction : Type.
Variable buildSystemInstruction : SystemPrompt -> option SystemInstruction.
Variable isEnableThinking : jsstring -> bool.
Variable modelMapping : jsstring -> jsstring.
Variable generateGenerationConfig :
  Parameters -> bool -> jsstring -> GenerationConfig Settings.
Variable newRequestId : jsstring.
Variable sanitizeToolName : jsstring -> jsstring.
Variable reparse : JSON -> JSON.
Variable isImageModel : jsstring -> bool.
Variable shouldCacheSignature : bool -> bool -> bool.
Variable getSignature : jsstring -> jsstring -> bool -> option CacheEntry.
Variable useFallbackSignature : bool.
Variable getThoughtSignatureForModel : jsstring -> option jsstring.
Variable getToolSignatureForModel : jsstring -> option jsstring.

#[local] Abbreviation generateClaudeRequestBody :=
  (@Builder.generateClaudeRequestBody BackendTool Settings Parameters SystemPrompt
     SystemInstruction buildSystemInstruction isEnableThinking modelMapping
     generateGenerationConfig newRequestId sanitizeToolName reparse isImageModel
     shouldCacheSignature getSignature useFallbackSignature
     getThoughtSignatureForModel getToolSignatureForModel).
#[local] Abbreviation claudeMessageToAntigravity :=
  (Builder.claudeMessageToAntigravity sanitizeToolName reparse isImageModel
     shouldCacheSignature getSignature useFallbackSignature
     getThoughtSignatureForModel getToolSignatureForModel).

Lemma generateClaudeRequestBody_web_search
    (convert : option (list (option ClaudeTool)) -> jsstring -> jsstring -> Registry
               -> list BackendTool * Registry)
    (claudeMessages : list ChatMessage) (modelName : jsstring)
    (parameters : Parameters) (claudeTools : option (list (option ClaudeTool)))
    (systemPrompt : SystemPrompt) (tokenSessionId tokenProjectId : jsstring)
    (names0 : Registry) :
  hasWebSearchTool claudeTools = true ->
  generateClaudeRequestBody convert claudeMessages modelName parameters claudeTools
                            systemPrompt tokenSessionId tokenProjectId names0
  = (let conv := claudeMessageToAntigravity claudeMessages
                   (isEnableThinking modelName) (modelMapping modelName)
                   tokenSessionId false names0 in
     ({| project := tokenProjectId;
         requestId := newRequestId;
         request :=
           {| contents := antigravityMessages conv;
              generationConfig :=
                Some (forceSingleCandidate
                        (generateGenerationConfig parameters
                           (isEnableThinking modelName) (modelMapping modelName)));
              req_sessionId := tokenSessionId;
              tools := Some [googleSearch BackendTool 5];
              toolConfig := None;
              systemInstruction := buildSystemInstruction systemPrompt |};
         req_model := SEARCH_MODEL;
         userAgent := js "antigravity";
         requestType := web_search |},
      toolNames conv)).
Proof.
  intros Hweb. unfold Builder.generateClaudeRequestBody. rewrite Hweb.
  reflexivity.
Qed.

(** C3. When the tool list holds a tool named [web_search]:
    the client tools are not converted (the request is the same whatever the
    converter would return, and the messages are converted as for a request
    without tools, from the tool-name registry as it was), [request.tools]
    is the single [googleSearch] descriptor and there is no [toolConfig], the
    model is [gemini-2.5-flash], [generationConfig.candidateCount] is 1, and
    the request type is [web_search]. Without such a tool the request type is
    [agent] and the model is the mapped model. *)
Theorem web_search_request
    (convert : option (list (option ClaudeTool)) -> jsstring -> jsstring -> Registry
               -> list BackendTool * Registry)
    (claudeMessages : list ChatMessage) (modelName : jsstring)
    (parameters : Parameters) (claudeTools : list (option ClaudeTool))
    (systemPrompt : SystemPrompt) (tokenSessionId tokenProjectId : jsstring)
    (names0 : Registry) (searchTool : ClaudeTool) :
  In (Some searchTool) claudeTools ->
  tool_name searchTool = Some (js "web_search") ->
  let built := generateClaudeRequestBody convert claudeMessages modelName parameters
                 (Some claudeTools) systemPrompt tokenSessionId tokenProjectId
                 names0 in
  let body := fst built in
  (forall convert',
     generateClaudeRequestBody convert' claudeMessages modelName parameters
       (Some claudeTools) systemPrompt tokenSessionId tokenProjectId names0
     = built)
  /\
  (contents (request body), snd built)
  = (let conv := claudeMessageToAntigravity claudeMessages
                   (isEnableThinking modelName) (modelMapping modelName)
                   tokenSessionId false names0 in
     (antigravityMessages conv, toolNames conv))
  /\
  tools (request body) = Some [googleSearch BackendTool 5]
  /\
  toolConfig (request body) = None
  /\
  req_model body = js "gemini-2.5-flash"
  /\
  (exists config,
     generationConfig (request body) = Some config /\
     candidateCount config = Some 1%N)
  /\
  requestType body = web_search
  /\
  (forall otherTools,
     hasWebSearchTool otherTools = false ->
     let other := fst (generateClaudeRequestBody convert claudeMessages modelName
                         parameters otherTools systemPrompt tokenSessionId
                         tokenProjectId names0) in
     requestType other = agent /\ req_model other = modelMapping modelName).
Proof.
  intros Hin Hname built body.
  pose proof (hasWebSearchTool_member claudeTools searchTool Hin Hname) as Hweb.
  assert (Hbuilt : forall convert',
             generateClaudeRequestBody convert' claudeMessages modelName parameters
               (Some claudeTools) systemPrompt tokenSessionId tokenProjectId names0
             = built).
  { intros convert'. unfold built.
    now rewrite !generateClaudeRequestBody_web_search by exact Hweb. }
  split; [exact Hbuilt|].
  unfold body, built.
  rewrite generateClaudeRequestBody_web_search by exact Hweb.
  cbn [fst snd request contents tools toolConfig req_model generationConfig
       requestType].
  do 4 (split; [reflexivity|]).
  split; [eexists; split; reflexivity|].
  split; [reflexivity|].
  intros otherTools Hother. unfold Builder.generateClaudeRequestBody.
  rewrite Hother. destruct (convert otherTools _ _ _) as [tools0 names1].
  split; reflexivity.
Qed.

End RequestBody.

Lemma web_search_request_witness :
  let body := fst (Builder.generateClaudeRequestBody noSystemInstruction
                     (fun _ => true) keepName defaultConfig (js "req-1") keepName
                     sameValue noImageModel alwaysCache emptyCache false
                     noSignature noSignature declareAll [askWeather] (js "claude")
                     tt (Some [Some weatherTool; Some searchTool]) tt (js "s")
                     (js "p") []) in
  (In (Some searchTool) [Some weatherTool; Some searchTool]
   /\ tool_name searchTool = Some (js "web_search"))
  /\
  tools (request body) = Some [googleSearch ClaudeTool 5]
  /\
  toolConfig (request body) = None
  /\
  req_model body = js "gemini-2.5-flash"
  /\
  (exists config,
     generationConfig (request body) = Some config /\
     candidateCount config = Some 1%N)
  /\
  requestType body = web_search.
Proof.
  intros body.
  assert (Hin : In (Some searchTool) [Some weatherTool; Some searchTool])
    by (right; left; reflexivity).
  assert (Hname : tool_name searchTool = Some (js "web_search")) by reflexivity.
  split; [split; [exact Hin|exact Hname]|].
  destruct (@web_search_request ClaudeTool unit unit unit unit noSystemInstruction
              (fun _ => true) keepName defaultConfig (js "req-1") keepName sameValue
              noImageModel alwaysCache emptyCache false noSignature noSignature
              declareAll [askWeather] (js "claude") tt
              [Some weatherTool; Some searchTool] tt (js "s") (js "p") []
              searchTool Hin Hname)
    as (_ & _ & Htools & Hconfig & Hmodel & Hcount & Htype & _).
  split; [exact Htools|]. split; [exact Hconfig|]. split; [exact Hmodel|].
  split; [exact Hcount|exact Htype].
Defined.

(** The request for a tool list that holds [web_search], and for the same
    list without it. *)
Example web_search_request_evaluated :
  fst (Builder.generateClaudeRequestBody noSystemInstruction
         (fun _ => true) keepName defaultConfig (js "req-1") keepName sameValue
         noImageModel alwaysCache emptyCache false noSignature noSignature
         declareAll [askWeather] (js "claude") tt
         (Some [Some weatherTool; Some searchTool]) tt (js "s") (js "p") [])
  = {| project := js "p";
       requestId := js "req-1";
       request :=
         {| contents := [{| role := user; parts := [PText (js "weather?")] |}];
            generationConfig := Some {| candidateCount := Some 1%N; settings := tt |};
            req_sessionId := js "s";
            tools := Some [googleSearch ClaudeTool 5];
            toolConfig := None;
            systemInstruction := None |};
       req_model := js "gemini-2.5-flash";
       userAgent := js "antigravity";
       requestType := web_search |}.
Proof. vm_compute. reflexivity. Qed.

Example function_request_evaluated :
  fst (Builder.generateClaudeRequestBody noSystemInstruction
         (fun _ => true) keepName defaultConfig (js "req-1") keepName sameValue
         noImageModel alwaysCache emptyCache false noSignature noSignature
         declareAll [askWeather] (js "claude") tt
         (Some [Some weatherTool]) tt (js "s") (js "p") [])
  = {| project := js "p";
       requestId := js "req-1";
       request :=
         {| contents := [{| role := user; parts := [PText (js "weather?")] |}];
            generationConfig := Some {| candidateCount := None; settings := tt |};
            req_sessionId := js "s";
            tools := Some [declared weatherTool];
            toolConfig := Some {| functionCallingMode := js "VALIDATED" |};
            systemInstruction := None |};
       req_model := js "claude";
       userAgent := js "antigravity";
       requestType := agent |}.
Proof. vm_compute. reflexivity. Qed.

End BuilderFacts.

Module ToolResultsFacts.

Import Builder SystemPrompt ToolResults Inputs MoreInputs BuilderFacts.

(** ** Array contents *)

Lemma textBlocks_objects (blocks : list ResultBlock) :
  textBlocks (map Some blocks) = Ok (filter Shape.isTextBlock blocks).
Proof.
  induction blocks as [|b blocks IH]; [reflexivity|].
  cbn [map textBlocks filter]. now rewrite IH.
Qed.

Lemma textBlocks_null (entries : list (option ResultBlock)) :
  existsb isNullEntry entries = true -> textBlocks entries = TypeError.
Proof.
  induction entries as [|[c|] entries IH];
    cbn [existsb isNullEntry textBlocks orb]; [discriminate| |reflexivity].
  intros H. now rewrite (IH H).
Qed.

Lemma entries_objects (entries : list (option ResultBlock)) :
  existsb isNullEntry entries = false -> exists blocks, entries = map Some blocks.
Proof.
  induction entries as [|[c|] entries IH];
    cbn [existsb isNullEntry orb]; [now exists []| |discriminate].
  intros H. destruct (IH H) as (blocks & ->). now exists (c :: blocks).
Qed.

(** ** The loop of [Builder] is the loop of the source on entries without
    [null] *)

Lemma resultContentOf_objects (content : ResultContent) :
  ToolResults.resultContentOf (rawContent content) = Ok (Shape.statedOutput content).
Proof.
  destruct content; [reflexivity| |reflexivity].
  cbn [rawContent ToolResults.resultContentOf]. now rewrite textBlocks_objects.
Qed.

Lemma resultContentOf_refines (content : ResultContent) :
  ToolResults.resultContentOf (rawContent content)
  = Ok (Builder.resultContentOf content).
Proof. now rewrite resultContentOf_objects, resultContentOf_stated. Qed.

Lemma resultContentOf_null (content : RawResultContent) :
  hasNullBlock content = true -> ToolResults.resultContentOf content = TypeError.
Proof.
  destruct content; cbn [hasNullBlock]; try discriminate.
  intros H. cbn [ToolResults.resultContentOf]. now rewrite (textBlocks_null _ H).
Qed.

Lemma content_objects (content : RawResultContent) :
  hasNullBlock content = false -> exists typed, content = rawContent typed.
Proof.
  destruct content as [s|entries|]; cbn [hasNullBlock]; intros H.
  - now exists (ResultString s).
  - destruct (entries_objects _ H) as (blocks & ->). now exists (ResultBlocks blocks).
  - now exists ResultOther.
Qed.

Lemma handleToolResultItem_refines (msgs : list Turn) (item : ContentItem) :
  ToolResults.handleToolResultItem msgs (rawItem item)
  = Ok (Builder.handleToolResultItem msgs item).
Proof.
  destruct item; try reflexivity.
  cbn [rawItem ToolResults.handleToolResultItem Builder.handleToolResultItem].
  now rewrite resultContentOf_refines.
Qed.

Lemma handleItems_refines (items : list ContentItem) (msgs : list Turn) :
  handleItems (map rawItem items) msgs
  = Ok (fold_left Builder.handleToolResultItem items msgs).
Proof.
  revert msgs. induction items as [|item items IH]; intros msgs; [reflexivity|].
  cbn [map handleItems fold_left]. now rewrite handleToolResultItem_refines, IH.
Qed.

Lemma someToolResult_refines (items : list ContentItem) :
  someToolResult (map rawItem items) = Ok (existsb isToolResult items).
Proof.
  induction items as [|item items IH]; [reflexivity|].
  destruct item; cbn [map rawItem someToolResult existsb isToolResult orb];
    first [exact IH | reflexivity].
Qed.

(** ** Where the loop throws *)

Lemma handleToolResultItem_throws (msgs : list Turn) (item : RawItem) :
  throwsOn item = true -> ToolResults.handleToolResultItem msgs item = TypeError.
Proof.
  destruct item; cbn [throwsOn]; [reflexivity| |discriminate].
  intros H. cbn [ToolResults.handleToolResultItem].
  now rewrite (resultContentOf_null _ H).
Qed.

Lemma item_objects (item : RawItem) :
  throwsOn item = false -> exists typed, item = rawItem typed.
Proof.
  destruct item as [|toolUseId content|]; cbn [throwsOn]; intros H;
    [discriminate| |now exists OtherItem].
  destruct (content_objects _ H) as (typed & ->).
  now exists (ToolResultItem toolUseId typed).
Qed.

Lemma items_objects (items : list RawItem) :
  existsb throwsOn items = false -> exists typedItems, items = map rawItem typedItems.
Proof.
  induction items as [|item items IH]; [now exists []|].
  cbn [existsb]. intros H. apply orb_false_elim in H as [Hitem Hrest].
  destruct (item_objects _ Hitem) as (typed & ->).
  destruct (IH Hrest) as (typedItems & ->). now exists (typed :: typedItems).
Qed.

Lemma handleItems_throws (items : list RawItem) (msgs : list Turn) :
  existsb throwsOn items = true -> handleItems items msgs = TypeError.
Proof.
  revert msgs. induction items as [|item items IH]; intros msgs; [discriminate|].
  cbn [existsb handleItems].
  destruct (throwsOn item) eqn:Hitem; cbn [orb].
  - intros _. now rewrite (handleToolResultItem_throws msgs _ Hitem).
  - intros Hrest. destruct (item_objects _ Hitem) as (typed & ->).
    rewrite handleToolResultItem_refines. now apply IH.
Qed.

Lemma isRawToolResult_count (items : list ContentItem) :
  List.length (filter isRawToolResult (map rawItem items))
  = List.length (filter isToolResult items).
Proof.
  induction items as [|item items IH]; [reflexivity|].
  destruct item; cbn [map rawItem filter isRawToolResult isToolResult List.length];
    now rewrite IH.
Qed.

(** C10. A tool result whose id matches no function call of any model turn
    gets the empty string as function name. Its conversion throws a
    [TypeError] when its content is an array one of whose entries is [null],
    and only then; otherwise its [functionResponse] part, carrying the id,
    the empty name and the output of the content (a string as it is, the
    joined texts of the [text] entries of an array, the empty string for
    anything else), becomes the last part of the last turn, a user turn, as
    the loop of [Builder] has it. And a message of tool results is converted
    unless one of its entries is [null] or is a tool result with such an
    array, in which case the conversion throws; when it is converted, it adds
    one [functionResponse] part for each of its tool results, matched or
    not. *)
Theorem unmatched_tool_result_is_kept
    (toolUseId : jsstring) (content : RawResultContent) (msgs : list Turn) :
  (forall t name args sig,
     In t msgs -> role t = model ->
     ~ In (PFunctionCall toolUseId name args sig) (parts t)) ->
  findFunctionNameById toolUseId msgs = []
  /\
  (hasNullBlock content = true ->
   ToolResults.handleToolResultItem msgs (RawToolResult toolUseId content) = TypeError)
  /\
  (hasNullBlock content = false ->
   exists typed init last before,
     content = rawContent typed /\
     ToolResults.handleToolResultItem msgs (RawToolResult toolUseId content)
     = Ok (init ++ [last]) /\
     Builder.handleToolResultItem msgs (ToolResultItem toolUseId typed)
     = init ++ [last] /\
     role last = user /\
     parts last = before ++ [PFunctionResponse toolUseId [] (Shape.statedOutput typed)])
  /\
  (forall items turns,
     (existsb throwsOn items = true ->
      ToolResults.handleClaudeToolResult (Some items) turns = TypeError)
     /\
     (existsb throwsOn items = false ->
      exists typedItems turns',
        items = map rawItem typedItems /\
        ToolResults.handleClaudeToolResult (Some items) turns = Ok turns' /\
        Builder.handleClaudeToolResult
          {| msg_role := RoleUser; msg_content := Items typedItems |} turns = turns' /\
        countResponses turns'
        = countResponses turns + List.length (filter isRawToolResult items))).
Proof.
  intros H. pose proof (findFunctionNameById_unmatched toolUseId msgs H) as Hname.
  split; [exact Hname|]. split; [|split].
  - intros Hnull. apply handleToolResultItem_throws. exact Hnull.
  - intros Hnone. destruct (content_objects _ Hnone) as (typed & ->).
    destruct (pushFunctionResponse_last toolUseId [] (Shape.statedOutput typed) msgs)
      as (init & last & before & Hpushed & Hrole & Hparts).
    exists typed, init, last, before. split; [reflexivity|].
    assert (Htyped : Builder.handleToolResultItem msgs (ToolResultItem toolUseId typed)
                     = init ++ [last]).
    { cbn [Builder.handleToolResultItem].
      now rewrite Hname, resultContentOf_stated. }
    split; [|split; [exact Htyped|split; [exact Hrole|exact Hparts]]].
    rewrite <- Htyped.
    exact (handleToolResultItem_refines msgs (ToolResultItem toolUseId typed)).
  - intros items turns. split.
    + intros Hthrows. now apply handleItems_throws.
    + intros Hnone. destruct (items_objects _ Hnone) as (typedItems & ->).
      exists typedItems, (fold_left Builder.handleToolResultItem typedItems turns).
      split; [reflexivity|]. split; [apply handleItems_refines|].
      split; [reflexivity|].
      rewrite isRawToolResult_count. apply handleClaudeToolResult_count.
Qed.

(** C10, as it is worded, fails: a tool result whose content is an array
    holding [null] matches no call of the empty conversation, and its
    conversion throws. *)
Lemma unmatchedClaimAsWorded_fails : ~ unmatchedClaimAsWorded.
Proof.
  intros H.
  destruct (H (js "t9") (RawBlocks [None]) []) as (_ & msgs' & output & Hok & _).
  - intros t name args sig [].
  - discriminate Hok.
Qed.

Lemma unmatched_tool_result_is_kept_witness :
  let content :=
    RawBlocks
      [Some {| block_type := js "text"; block_text := Some (js "a") |};
       Some {| block_type := js "image"; block_text := Some (js "x") |};
       Some {| block_type := js "text"; block_text := Some (js "b") |}] in
  ((forall t name args sig,
      In t turnsAfterCall -> role t = model ->
      ~ In (PFunctionCall (js "t9") name args sig) (parts t))
   /\ hasNullBlock content = false)
  /\
  findFunctionNameById (js "t9") turnsAfterCall = []
  /\
  (exists typed init last before,
     content = rawContent typed /\
     ToolResults.handleToolResultItem turnsAfterCall (RawToolResult (js "t9") content)
     = Ok (init ++ [last]) /\
     Builder.handleToolResultItem turnsAfterCall (ToolResultItem (js "t9") typed)
     = init ++ [last] /\
     role last = user /\
     parts last
     = before ++ [PFunctionResponse (js "t9") [] (Shape.statedOutput typed)]).
Proof.
  intros content.
  assert (H : forall t name args sig,
             In t turnsAfterCall -> role t = model ->
             ~ In (PFunctionCall (js "t9") name args sig) (parts t)).
  { intros t name args sig [<-|[<-|[]]] Hrole; [discriminate Hrole|].
    intros [Hp|[Hp|[]]]; [discriminate Hp|].
    vm_compute in Hp. discriminate Hp. }
  assert (Hnone : hasNullBlock content = false) by reflexivity.
  split; [split; [exact H|exact Hnone]|].
  destruct (@unmatched_tool_result_is_kept (js "t9") content turnsAfterCall H)
    as (Hname & _ & Hkept & _).
  split; [exact Hname|exact (Hkept Hnone)].
Defined.

(** The unmatched tool result, converted: a new user turn holds its response,
    with the empty name and the joined texts of its two text blocks. *)
Example unmatched_result_converted :
  ToolResults.handleToolResultItem turnsAfterCall
    (RawToolResult (js "t9")
       (RawBlocks
          [Some {| block_type := js "text"; block_text := Some (js "a") |};
           Some {| block_type := js "image"; block_text := Some (js "x") |};
           Some {| block_type := js "text"; block_text := None |};
           Some {| block_type := js "text"; block_text := Some (js "b") |}]))
  = Ok (turnsAfterCall
        ++ [{| role := user; parts := [PFunctionResponse (js "t9") [] (js "ab")] |}]).
Proof. vm_compute. reflexivity. Qed.

(** A [null] among the entries of the array content, or among the entries of
    the message, makes the conversion throw, also after a tool result that
    was pushed. *)
Example null_block_throws :
  ToolResults.handleClaudeToolResult
    (Some [RawToolResult (js "t1") (RawString (js "sunny"));
           RawToolResult (js "t9")
             (RawBlocks [Some {| block_type := js "text";
                                 block_text := Some (js "a") |};
                         None])])
    turnsAfterCall
  = TypeError.
Proof. vm_compute. reflexivity. Qed.

Example null_item_throws :
  ToolResults.handleClaudeToolResult
    (Some [RawToolResult (js "t1") (RawString (js "sunny")); RawNull])
    turnsAfterCall
  = TypeError
  /\ someToolResult [RawNull; RawToolResult (js "t1") (RawString (js "sunny"))]
     = TypeError.
Proof. split; vm_compute; reflexivity. Qed.

End ToolResultsFacts.

(* ================================================================== *)
(** * Further properties of the streaming interpreter *)
(* ================================================================== *)

Module StreamMoreFacts.

Import Stream Boundary Inputs MoreInputs StreamFacts.

(** ** Decoding chunk by chunk *)

Lemma decode_needed_0 (d : decoder) (bs : list N) :
  needed d = 0 -> decode d bs = decode idle bs.
Proof. intros H. destruct bs; cbn [decode]; rewrite H; reflexivity. Qed.

Lemma decode_app (a b : list N) (d : decoder) :
  needed (stateAfter d a) = 0 ->
  decode d (a ++ b) = decode d a ++ decode idle b.
Proof.
  revert d. induction a as [|x a IH]; intros d H.
  - cbn [stateAfter] in H. cbn [app]. rewrite (decode_needed_0 d b H).
    cbn [decode]. now rewrite H.
  - cbn [app decode stateAfter] in *.
    destruct (needed d) as [|k].
    + destruct (lead x) as [out d'] eqn:E. cbn [snd] in H.
      rewrite (IH d' H). apply app_assoc.
    + destruct ((lower d <=? x)%N && (x <=? upper d)%N).
      * destruct k as [|k]; rewrite (IH _ H); [apply app_assoc|reflexivity].
      * destruct (lead x) as [out d'] eqn:E. cbn [snd] in H.
        rewrite (IH d' H). cbn [app]. f_equal. apply app_assoc.
Qed.

Lemma toString_app (a b : list byte) :
  endsOnBoundary a = true -> toString (a ++ b) = toString a ++ toString b.
Proof.
  unfold endsOnBoundary, toString. intros H. rewrite map_app.
  apply decode_app. destruct (needed _); [reflexivity|discriminate].
Qed.

Lemma toString_concat (chunks : list (list byte)) :
  Forall (fun c => endsOnBoundary c = true) (removelast chunks) ->
  toString (List.concat chunks) = List.concat (map toString chunks).
Proof.
  induction chunks as [|c chunks IH]; intros H; [reflexivity|].
  destruct chunks as [|c2 chunks].
  - cbn [List.concat map]. now rewrite !app_nil_r.
  - cbn [removelast] in H. inversion H as [|? ? Hc Hrest]; subst.
    cbn [List.concat map] in *. rewrite toString_app by exact Hc.
    f_equal. apply IH. exact Hrest.
Qed.

Lemma stateAfter_ascii (bs : list byte) :
  isAscii bs = true -> stateAfter idle (map Byte.to_N bs) = idle.
Proof.
  induction bs as [|b bs IH]; intros H; [reflexivity|].
  cbn [isAscii forallb] in H. apply andb_prop in H as [Hb Hbs].
  cbn [map stateAfter idle needed]. unfold lead. rewrite Hb. cbn [snd].
  apply IH, Hbs.
Qed.

Lemma isAscii_endsOnBoundary (chunk : list byte) :
  isAscii chunk = true -> endsOnBoundary chunk = true.
Proof.
  intros H. unfold endsOnBoundary. now rewrite stateAfter_ascii.
Qed.

Section Interpreter.

Variable JSON_parse : jsstring -> option JSON.
Variable JSON_stringify : JSON -> jsstring.
Variable generateToolCallId : nat -> jsstring.

#[local] Abbreviation parseAndEmitStreamChunk :=
  (Stream.parseAndEmitStreamChunk JSON_parse JSON_stringify generateToolCallId).
#[local] Abbreviation emitLines :=
  (Stream.emitLines JSON_parse JSON_stringify generateToolCallId).
#[local] Abbreviation processChunk :=
  (Stream.processChunk JSON_parse JSON_stringify generateToolCallId).
#[local] Abbreviation processChunks :=
  (Stream.processChunks JSON_parse JSON_stringify generateToolCallId).
#[local] Abbreviation onData :=
  (Stream.onData JSON_parse JSON_stringify generateToolCallId).
#[local] Abbreviation eventsOfStrings :=
  (Stream.eventsOfStrings JSON_parse JSON_stringify generateToolCallId).
#[local] Abbreviation eventsOfBuffers :=
  (Stream.eventsOfBuffers JSON_parse JSON_stringify generateToolCallId).

Lemma onData_processChunks (chunks : list (list byte)) (r : Receiver) :
  onData chunks r = processChunks (map toString chunks) r.
Proof.
  revert r. induction chunks as [|c chunks IH]; intros r; [reflexivity|].
  cbn [Stream.onData Stream.processChunks fold_left map]. apply IH.
Qed.

(** X4. [Buffer] chunks that are cut at character boundaries only (the last
    chunk may end anywhere) give the events of the same bytes delivered as
    one chunk. *)
Theorem chunks_cut_at_character_boundaries (chunks : list (list byte)) :
  Forall (fun c => endsOnBoundary c = true) (removelast chunks) ->
  eventsOfBuffers chunks = eventsOfBuffers [List.concat chunks].
Proof.
  intros H. unfold Stream.eventsOfBuffers.
  rewrite !onData_processChunks.
  fold (eventsOfStrings (map toString chunks)).
  fold (eventsOfStrings (map toString [List.concat chunks])).
  rewrite (processChunks_boundary_independent JSON_parse JSON_stringify
             generateToolCallId (map toString chunks)).
  cbn [map]. now rewrite toString_concat.
Qed.

(** X1. The line buffer makes the way the text is cut into chunks
    irrelevant: two sequences of string chunks with the same concatenation
    leave the same buffer, state and events. *)
Theorem same_text_same_events (chunks1 chunks2 : list jsstring) :
  List.concat chunks1 = List.concat chunks2 ->
  processChunks chunks1 initialReceiver = processChunks chunks2 initialReceiver.
Proof.
  intros H.
  rewrite (processChunks_concat JSON_parse JSON_stringify generateToolCallId
             chunks1 initialReceiver) by reflexivity.
  rewrite (processChunks_concat JSON_parse JSON_stringify generateToolCallId
             chunks2 initialReceiver) by reflexivity.
  now rewrite H.
Qed.

(** ** Which lines are interpreted *)

Lemma split_no_newline (s : jsstring) :
  ~ In NEWLINE s -> split s = [s].
Proof.
  induction s as [|c s IH]; intros H; [reflexivity|].
  cbn [split]. destruct (c =? NEWLINE)%N eqn:E.
  - apply N.eqb_eq in E. exfalso. apply H. now left.
  - rewrite IH; [reflexivity|]. intros Hin. apply H. now right.
Qed.

Lemma split_before_last_newline (text tail : jsstring) :
  ~ In NEWLINE tail ->
  split (text ++ NEWLINE :: tail) = split text ++ [tail].
Proof.
  intros H. rewrite split_app. cbn [split]. rewrite N.eqb_refl.
  rewrite (split_no_newline tail H), app_nil_r.
  rewrite (app_removelast_last [] (split_nonempty text)) at 3.
  rewrite <- app_assoc. reflexivity.
Qed.

(** X2. Only complete lines are interpreted: when the text received ends
    with a line that has no newline after it, the events are those of the
    lines before it, however the text was cut into chunks; the unfinished
    line stays in the buffer and is never interpreted. *)
Theorem unfinished_line_is_not_interpreted
    (chunks : list jsstring) (text tail : jsstring) :
  List.concat chunks = text ++ NEWLINE :: tail ->
  ~ In NEWLINE tail ->
  processChunks chunks initialReceiver
  = {| buffer := tail; world := emitLines (split text) initialWorld |}.
Proof.
  intros Htext Htail.
  rewrite (processChunks_concat JSON_parse JSON_stringify generateToolCallId
             chunks initialReceiver) by reflexivity.
  unfold Stream.processChunk. cbn [buffer world initialReceiver app].
  rewrite Htext, (@split_before_last_newline text tail Htail).
  now rewrite removelast_last, last_last.
Qed.

(** ** Tool calls without a finish signal *)

Lemma envelopeStep_no_flush (w w' : World) :
  envelopeStep false w w' ->
  existsb isToolCallsEvent (emitted w) = false ->
  existsb isToolCallsEvent (emitted w') = false.
Proof.
  intros (evs & added & flush & He & Hn & _ & [[-> _]|[Hf _]]) Hw;
    [|discriminate].
  rewrite He, app_nil_r, existsb_app, Hw. cbn [orb]. clear He.
  induction Hn as [|ev evs Hev _ IH]; [reflexivity|].
  cbn [existsb]. rewrite Hev. exact IH.
Qed.

Lemma emitLines_no_flush (lines : list jsstring) (w : World) :
  (forall line data,
     In line lines -> JSON_parse (slice line 6) = Some data ->
     hasFinishReason data = false) ->
  existsb isToolCallsEvent (emitted w) = false ->
  existsb isToolCallsEvent (emitted (emitLines lines w)) = false.
Proof.
  revert w. induction lines as [|line lines IH]; intros w Hnone Hw; [exact Hw|].
  cbn [Stream.emitLines fold_left]. apply IH.
  - intros l data Hin. apply Hnone. now right.
  - destruct (parseAndEmitStreamChunk_step JSON_parse JSON_stringify
                generateToolCallId line w) as (finish & Hstep & Hfinish).
    destruct finish.
    + destruct (Hfinish eq_refl) as (_ & data & Hparse & Hdata).
      rewrite (Hnone line data (or_introl eq_refl) Hparse) in Hdata.
      discriminate.
    + exact (envelopeStep_no_flush Hstep Hw).
Qed.

Lemma removelast_incl {A} (l : list A) (x : A) : In x (removelast l) -> In x l.
Proof.
  induction l as [|y l IH]; [contradiction|].
  destruct l as [|z l]; [contradiction|].
  cbn [removelast]. intros [->|H]; [now left|right; now apply IH].
Qed.

(** X3. Buffered tool calls go out only with a finish signal: if no line of
    the text parses to an envelope with a finish reason, the callback never
    receives a tool-calls event (the tool calls received stay in the buffer),
    and a stream that ends normally is closed with finish reason [stop]. *)
Theorem tool_calls_without_finish_signal (chunks : list jsstring) :
  (forall line data,
     In line (split (List.concat chunks)) ->
     JSON_parse (slice line 6) = Some data ->
     hasFinishReason data = false) ->
  existsb isToolCallsEvent (eventsOfStrings chunks) = false
  /\
  forall pool sent,
    Server.streamResponse
      {| Api.pool_after := pool; Api.events := eventsOfStrings chunks;
         Api.sent_with := sent; Api.completion := Api.Returned |}
    = {| Server.frames := map Server.frameOf (eventsOfStrings chunks)
                          ++ Server.endStream Server.stop;
         Server.ended := true |}.
Proof.
  intros Hnone.
  assert (H : existsb isToolCallsEvent (eventsOfStrings chunks) = false).
  { rewrite (processChunks_boundary_independent JSON_parse JSON_stringify
               generateToolCallId chunks).
    unfold Stream.eventsOfStrings, Stream.processChunks, Stream.processChunk.
    cbn [fold_left buffer world initialReceiver app].
    apply emitLines_no_flush; [|reflexivity].
    intros line data Hin. apply Hnone. now apply removelast_incl. }
  split; [exact H|].
  intros pool sent. unfold Server.streamResponse. cbn [Api.completion Api.events].
  unfold Server.hasToolCall.
  replace (existsb Server.isToolCalls (eventsOfStrings chunks)) with false.
  reflexivity.
Qed.

End Interpreter.

(** The ASCII case: chunks without a byte above 127 can be cut anywhere. *)
Lemma ascii_chunks_on_boundary (chunks : list (list byte)) :
  forallb isAscii chunks = true ->
  Forall (fun c => endsOnBoundary c = true) (removelast chunks).
Proof.
  intros H. apply Forall_forall. intros c Hin.
  apply isAscii_endsOnBoundary.
  rewrite forallb_forall in H. apply H. now apply removelast_incl.
Qed.

Lemma same_text_same_events_witness :
  List.concat cutByLine = List.concat cutInsideLine
  /\
  processChunks parseScenario stringifyScenario noIds cutByLine initialReceiver
  = processChunks parseScenario stringifyScenario noIds cutInsideLine
      initialReceiver.
Proof.
  assert (H : List.concat cutByLine = List.concat cutInsideLine)
    by (vm_compute; reflexivity).
  split; [exact H|].
  apply (@same_text_same_events parseScenario stringifyScenario noIds
           cutByLine cutInsideLine H).
Defined.

Lemma chunks_cut_at_character_boundaries_witness :
  Forall (fun c => endsOnBoundary c = true) (removelast scenarioChunks)
  /\
  eventsOfBuffers parseScenario stringifyScenario noIds scenarioChunks
  = eventsOfBuffers parseScenario stringifyScenario noIds
      [List.concat scenarioChunks].
Proof.
  assert (H : Forall (fun c => endsOnBoundary c = true)
                     (removelast scenarioChunks)).
  { apply ascii_chunks_on_boundary. vm_compute. reflexivity. }
  split; [exact H|].
  apply (@chunks_cut_at_character_boundaries parseScenario stringifyScenario
           noIds scenarioChunks H).
Defined.

Lemma unfinishedTail_no_newline : ~ In NEWLINE unfinishedTail.
Proof.
  assert (H : existsb (N.eqb NEWLINE) unfinishedTail = false)
    by (vm_compute; reflexivity).
  intros Hin.
  assert (Hfound : existsb (N.eqb NEWLINE) unfinishedTail = true).
  { apply existsb_exists. exists NEWLINE. split; [exact Hin|apply N.eqb_refl]. }
  rewrite H in Hfound. discriminate Hfound.
Qed.

Lemma unfinished_line_is_not_interpreted_witness :
  (List.concat unfinishedChunks = scenarioText ++ NEWLINE :: unfinishedTail
   /\ ~ In NEWLINE unfinishedTail)
  /\
  processChunks parseScenario stringifyScenario noIds unfinishedChunks
    initialReceiver
  = {| buffer := unfinishedTail;
       world := emitLines parseScenario stringifyScenario noIds
                  (split scenarioText) initialWorld |}.
Proof.
  assert (H : List.concat unfinishedChunks
              = scenarioText ++ NEWLINE :: unfinishedTail)
    by (vm_compute; reflexivity).
  split; [split; [exact H|exact unfinishedTail_no_newline]|].
  apply (@unfinished_line_is_not_interpreted parseScenario stringifyScenario
           noIds unfinishedChunks scenarioText unfinishedTail H
           unfinishedTail_no_newline).
Defined.

(** The tool call of the unfinished line is not reported. *)
Example unfinished_scenario_events :
  emitted (world (processChunks parseScenario stringifyScenario noIds
                    unfinishedChunks initialReceiver))
  = [Thinking THINK_OPEN; Thinking (JStr (js "hmm")); Thinking THINK_CLOSE;
     Text (JStr (js "Hello"))].
Proof. vm_compute. reflexivity. Qed.

Lemma parseUnfinished_no_finish (s : jsstring) (data : JSON) :
  parseUnfinished s = Some data -> hasFinishReason data = false.
Proof.
  assert (Hcall : hasFinishReason callEnvelope = false)
    by (vm_compute; reflexivity).
  assert (Hthought : hasFinishReason thoughtEnvelope = false)
    by (vm_compute; reflexivity).
  assert (Htext : hasFinishReason textEnvelope = false)
    by (vm_compute; reflexivity).
  unfold parseUnfinished.
  generalize (slice (toString callLine) 6) (slice (toString thoughtLine) 6)
             (slice (toString textLine) 6).
  intros a b c.
  destruct (JsString.eqb s a); [intros [= <-]; exact Hcall|].
  destruct (JsString.eqb s b); [intros [= <-]; exact Hthought|].
  destruct (JsString.eqb s c); [intros [= <-]; exact Htext|].
  discriminate.
Qed.

Lemma tool_calls_without_finish_signal_witness :
  (forall line data,
     In line (split (List.concat callChunks)) ->
     parseUnfinished (slice line 6) = Some data ->
     hasFinishReason data = false)
  /\
  (existsb isToolCallsEvent
     (eventsOfStrings parseUnfinished stringifyScenario noIds callChunks)
   = false
   /\
   forall pool sent,
     Server.streamResponse
       {| Api.pool_after := pool;
          Api.events := eventsOfStrings parseUnfinished stringifyScenario noIds
                          callChunks;
          Api.sent_with := sent; Api.completion := Api.Returned |}
     = {| Server.frames :=
            map Server.frameOf
              (eventsOfStrings parseUnfinished stringifyScenario noIds
                 callChunks)
            ++ Server.endStream Server.stop;
          Server.ended := true |}).
Proof.
  assert (H : forall line data,
             In line (split (List.concat callChunks)) ->
             parseUnfinished (slice line 6) = Some data ->
             hasFinishReason data = false)
    by (intros line data _; apply parseUnfinished_no_finish).
  split; [exact H|].
  apply (@tool_calls_without_finish_signal parseUnfinished stringifyScenario
           noIds callChunks H).
Defined.

(** The call is received and buffered, and never handed to the callback. *)
Example call_without_finish_buffered :
  let r := processChunks parseUnfinished stringifyScenario noIds callChunks
             initialReceiver in
  toolCalls (state (world r)) = [weatherCall] /\ List.length (emitted (world r)) = 2.
Proof. vm_compute. split; reflexivity. Qed.

End StreamMoreFacts.

(* ================================================================== *)
(** * Further properties of the client and the handler *)
(* ================================================================== *)

Module ApiMoreFacts.

Import Stream Api Server Shape Inputs MoreInputs.

Section Client.

Variable JSON_parse : jsstring -> option JSON.
Variable JSON_stringify : JSON -> jsstring.
Variable generateToolCallId : nat -> jsstring.
Variable JSON_stringify_indented : JSON -> jsstring.
Variable getToken : Pool -> Pool * option TokenRef.
Variable axios : TokenRef -> AxiosReply.
Variable antigravity_fetchStream : TokenRef -> RequesterReply.

#[local] Abbreviation handleApiError :=
  (Api.handleApiError JSON_stringify_indented).
#[local] Abbreviation generateAssistantResponse :=
  (Api.generateAssistantResponse JSON_parse JSON_stringify generateToolCallId
     JSON_stringify_indented getToken axios antigravity_fetchStream).

(** X6. On the requester transport a reply whose status is not 200 (or that
    never reports a status) is never interpreted: whatever its chunks hold,
    the callback receives no event; when the reply ends, the call throws
    through [handleApiError] with that status and the concatenated chunks as
    the error text. *)
Theorem requester_error_reply_not_interpreted
    (pool pool1 : Pool) (token : TokenRef) :
  getToken pool = (pool1, Some token) ->
  is200 (started (antigravity_fetchStream token)) = false ->
  let reply := antigravity_fetchStream token in
  let run := generateAssistantResponse false pool in
  events run = [] /\
  sent_with run = [token] /\
  exists e pool2 msg,
    handleApiError e token pool1 = (pool2, msg) /\
    pool_after run = pool2 /\
    completion run = Threw msg /\
    (finished reply = End ->
     e = {| response := None; err_status := started reply;
            message := List.concat (delivered reply) |}) /\
    (forall e', finished reply = Error e' -> e = e').
Proof.
  intros Htok Hstatus reply run. subst run reply.
  unfold Api.generateAssistantResponse. rewrite Htok, Hstatus.
  destruct (finished (antigravity_fetchStream token)) as [|e'] eqn:Hfin.
  - destruct (Api.handleApiError _ _ _ _) as [pool2 msg] eqn:Hhandle.
    split; [reflexivity|]. split; [reflexivity|].
    eexists _, pool2, msg. split; [exact Hhandle|].
    split; [reflexivity|]. split; [reflexivity|].
    split; [reflexivity|discriminate].
  - destruct (Api.handleApiError _ _ _ _) as [pool2 msg] eqn:Hhandle.
    split; [reflexivity|]. split; [reflexivity|].
    exists e', pool2, msg. split; [exact Hhandle|].
    split; [reflexivity|]. split; [reflexivity|].
    split; [discriminate|]. now intros e'' [= <-].
Qed.

End Client.

Lemma frameOf_isContentChunk (evs : list Event) :
  forallb isContentChunk (map frameOf evs) = true.
Proof.
  induction evs as [|[c|c|calls] evs IH]; [reflexivity|exact IH..].
Qed.

(** X5. Every streamed response, however the call ends: the client gets at
    least one frame; the frames are content chunks, followed, exactly when
    the response is ended, by one chunk with a finish reason and [DONE].
    The response is left without them only when the call threw after an
    event had been written, and then nothing of the error is written. *)
Theorem streamed_response_termination (run : Run) :
  let r := streamResponse run in
  frames r <> [] /\
  exists body,
    forallb isContentChunk body = true /\
    ((ended r = true /\
      exists reason, frames r = body ++ [Chunk EmptyDelta (Some reason); DONE])
     \/
     (ended r = false /\ frames r = body /\
      body = map frameOf (events run) /\ events run <> [] /\
      exists msg, completion run = Threw msg)).
Proof.
  intros r. subst r. unfold streamResponse.
  destruct (completion run) as [|msg] eqn:Hc.
  - cbn [frames ended]. split; [now destruct (map frameOf (events run))|].
    exists (map frameOf (events run)).
    split; [apply frameOf_isContentChunk|]. left. split; [reflexivity|].
    eexists. reflexivity.
  - destruct (events run) as [|ev evs] eqn:He; cbn [map frames ended].
    + split; [discriminate|].
      exists [Chunk (Content (JStr (ERROR_PREFIX ++ msg))) None].
      split; [reflexivity|]. left. split; [reflexivity|].
      exists stop. reflexivity.
    + split; [discriminate|].
      exists (frameOf ev :: map frameOf evs).
      split; [apply (frameOf_isContentChunk (ev :: evs))|]. right.
      split; [reflexivity|]. split; [reflexivity|]. split; [reflexivity|].
      split; [discriminate|]. now exists msg.
Qed.

Lemma requester_error_reply_not_interpreted_witness :
  let run := Api.generateAssistantResponse parseScenario stringifyScenario noIds
               stringifyScenario firstAccount scenarioBackend rateLimited false
               twoAccounts in
  (firstAccount twoAccounts = (twoAccounts, Some 0)
   /\ is200 (started (rateLimited 0)) = false)
  /\
  events run = [] /\ sent_with run = [0].
Proof.
  intros run.
  assert (Htok : firstAccount twoAccounts = (twoAccounts, Some 0))
    by reflexivity.
  assert (Hstatus : is200 (started (rateLimited 0)) = false) by reflexivity.
  destruct (@requester_error_reply_not_interpreted parseScenario
              stringifyScenario noIds stringifyScenario firstAccount
              scenarioBackend rateLimited twoAccounts twoAccounts 0
              Htok Hstatus) as (Hevents & Hsent & _).
  split; [split; [exact Htok|exact Hstatus]|].
  split; [exact Hevents|exact Hsent].
Defined.

(** The rate-limited call, evaluated: the line of the body is part of the
    error text, the pool is untouched, and the client reads the error as the
    only content. *)
Example rate_limited_call_evaluated :
  let run := Api.generateAssistantResponse parseScenario stringifyScenario noIds
               stringifyScenario firstAccount scenarioBackend rateLimited false
               twoAccounts in
  pool_after run = twoAccounts /\
  completion run
  = Threw (js "API请求失败 (429): " ++ toString (textLine ++ [x0a]) ++ js "quota")
  /\
  List.length (frames (streamResponse run)) = 3.
Proof. vm_compute. repeat split. Qed.

(** A stream that breaks after its first chunk: the response is left open. *)
Example broken_stream_evaluated :
  let run := Api.generateAssistantResponse parseScenario stringifyScenario noIds
               stringifyScenario firstAccount brokenStream silentRequester true
               twoAccounts in
  streamResponse run
  = {| frames := [Chunk (Content THINK_OPEN) None;
                  Chunk (Content (JStr (js "hmm"))) None];
       ended := false |}.
Proof. vm_compute. reflexivity. Qed.

End ApiMoreFacts.

(* ================================================================== *)
(** * Further properties of the request builder *)
(* ================================================================== *)

Module BuilderMoreFacts.

Import Builder Shape Inputs MoreInputs BuilderFacts.

(** ** The parts of all turns only grow *)

Lemma flat_map_parts_snoc (msgs : list Turn) (t : Turn) :
  flat_map parts (msgs ++ [t]) = flat_map parts msgs ++ parts t.
Proof. rewrite flat_map_app. cbn [flat_map]. now rewrite app_nil_r. Qed.

Lemma flat_map_parts_pushToLast (extra : list Part) (msgs : list Turn) :
  msgs <> [] ->
  flat_map parts (pushToLast extra msgs) = flat_map parts msgs ++ extra.
Proof.
  destruct (snoc_cases msgs) as [->|(init & last & ->)]; [congruence|].
  intros _. rewrite pushToLast_snoc, !flat_map_parts_snoc. cbn [parts].
  apply app_assoc.
Qed.

Lemma pushFunctionResponse_parts (id name content : jsstring) (msgs : list Turn) :
  flat_map parts (pushFunctionResponse id name content msgs)
  = flat_map parts msgs ++ [PFunctionResponse id name content].
Proof.
  unfold pushFunctionResponse.
  destruct (lastMessage msgs) as [last|] eqn:E; [|apply flat_map_parts_snoc].
  destruct (isUser (role last) && _); [|apply flat_map_parts_snoc].
  apply flat_map_parts_pushToLast. intros ->. discriminate E.
Qed.

Lemma pushModelMessage_parts (newParts calls : list Part) (hasContent : bool)
                             (msgs : list Turn) :
  exists kept,
    (kept = [] \/ kept = newParts) /\
    flat_map parts (pushModelMessage newParts calls hasContent msgs)
    = flat_map parts msgs ++ kept ++ calls.
Proof.
  unfold pushModelMessage.
  destruct (lastMessage msgs) as [last|] eqn:E;
    [|exists newParts; split; [now right|apply flat_map_parts_snoc]].
  destruct (isModel (role last) && _ && _);
    [|exists newParts; split; [now right|apply flat_map_parts_snoc]].
  exists []. split; [now left|].
  apply flat_map_parts_pushToLast. intros ->. discriminate E.
Qed.

(** ** White space at the end of a text *)

Lemma trimEnd_nonEmpty (s : jsstring) :
  hasContentOf s = true -> nonEmpty (trimEnd s) = true.
Proof.
  intros H. destruct (trimEnd s) eqn:E; [|reflexivity]. exfalso.
  unfold trimEnd in E. apply (f_equal (@rev N)) in E.
  rewrite rev_involutive in E. cbn [rev] in E.
  apply trimStart_nil_iff in E. rewrite forallb_rev in E.
  apply hasContentOf_false_iff in E. congruence.
Qed.

Section Converter.

Variable sanitizeToolName : jsstring -> jsstring.
Variable reparse : JSON -> JSON.
Variable isImageModel : jsstring -> bool.
Variable shouldCacheSignature : bool -> bool -> bool.
Variable getSignature : jsstring -> jsstring -> bool -> option CacheEntry.
Variable useFallbackSignature : bool.
Variable getThoughtSignatureForModel : jsstring -> option jsstring.
Variable getToolSignatureForModel : jsstring -> option jsstring.

#[local] Abbreviation getSignatureContext :=
  (Builder.getSignatureContext isImageModel shouldCacheSignature getSignature
     useFallbackSignature getThoughtSignatureForModel getToolSignatureForModel).
#[local] Abbreviation collect := (Builder.collect sanitizeToolName reparse).
#[local] Abbreviation collectItem := (Builder.collectItem sanitizeToolName reparse).
#[local] Abbreviation toolCallOf := (Builder.toolCallOf sanitizeToolName reparse).
#[local] Abbreviation callsOfMessage :=
  (Shape.callsOfMessage sanitizeToolName reparse).
#[local] Abbreviation handleClaudeAssistantMessage :=
  (Builder.handleClaudeAssistantMessage sanitizeToolName reparse isImageModel
     shouldCacheSignature getSignature useFallbackSignature
     getThoughtSignatureForModel getToolSignatureForModel).
#[local] Abbreviation convertMessage :=
  (Builder.convertMessage sanitizeToolName reparse isImageModel
     shouldCacheSignature getSignature useFallbackSignature
     getThoughtSignatureForModel getToolSignatureForModel).
#[local] Abbreviation convertMessages :=
  (Builder.convertMessages sanitizeToolName reparse isImageModel
     shouldCacheSignature getSignature useFallbackSignature
     getThoughtSignatureForModel getToolSignatureForModel).
#[local] Abbreviation claudeMessageToAntigravity :=
  (Builder.claudeMessageToAntigravity sanitizeToolName reparse isImageModel
     shouldCacheSignature getSignature useFallbackSignature
     getThoughtSignatureForModel getToolSignatureForModel).

(** What holds of the parts every message pushes holds of all parts. *)
Lemma convertMessages_all_parts
    (allowed : Part -> Prop) (enableThinking : bool)
    (actualModelName sessionId : jsstring) (hasTools : bool) :
  (forall conv message,
     built allowed (antigravityMessages conv)
       (antigravityMessages
          (convertMessage enableThinking actualModelName sessionId hasTools
             conv message))) ->
  forall claudeMessages conv,
    Forall (fun t => Forall allowed (parts t)) (antigravityMessages conv) ->
    Forall (fun t => Forall allowed (parts t))
      (antigravityMessages
         (convertMessages enableThinking actualModelName sessionId hasTools
            claudeMessages conv)).
Proof.
  intros Hstep claudeMessages.
  induction claudeMessages as [|message rest IH]; intros conv Hconv;
    [exact Hconv|].
  cbn [Builder.convertMessages fold_left]. apply IH.
  eapply all_parts_built; [apply Hstep|exact Hconv].
Qed.

Lemma messageParts_textNonEmpty (enableThinking : bool) (ctx : SignatureContext)
                                (c : Collected) :
  Forall (fun p => textNonEmpty p = true) (messageParts enableThinking ctx c).
Proof.
  assert (Htext : Forall (fun p => textNonEmpty p = true)
                    (if hasContentOf (textContent c)
                     then [PText (trimEnd (textContent c))] else [])).
  { destruct (hasContentOf (textContent c)) eqn:E; [|constructor].
    constructor; [|constructor]. now apply trimEnd_nonEmpty. }
  destruct enableThinking.
  - destruct (messageParts_thinking ctx c) as [Hno Hyes].
    destruct (truthyStr (orElse (messageSignature c)
                           (orElse (reasoningSignature ctx) (toolSignature ctx)))).
    + destruct (Hyes eq_refl) as (thought & Hne & ->).
      constructor; [exact Hne|exact Htext].
    + now rewrite (Hno eq_refl).
  - now rewrite messageParts_plain.
Qed.

Lemma convertMessage_built_textNonEmpty
    (enableThinking : bool) (actualModelName sessionId : jsstring) (hasTools : bool)
    (conv : Conversion) (message : ChatMessage) :
  built (fun p => textNonEmpty p = true) (antigravityMessages conv)
        (antigravityMessages
           (convertMessage enableThinking actualModelName sessionId hasTools
                           conv message)).
Proof.
  unfold Builder.convertMessage. destruct (msg_role message).
  - destruct (hasToolResult (msg_content message)).
    + cbn [antigravityMessages]. now apply handleClaudeToolResult_built.
    + pose proof (extractImages_inlineData (msg_content message)) as Himgs.
      destruct (extractImagesFromClaudeContent (msg_content message))
        as [text images].
      cbn [antigravityMessages snd] in *. unfold pushUserMessage.
      apply built_turn; [constructor|]. cbn [parts].
      constructor; [cbn [textNonEmpty]; now destruct (nonEmpty text) eqn:E|].
      eapply Forall_impl; [|exact Himgs].
      now intros p (mime & data & ->).
  - unfold Builder.handleClaudeAssistantMessage. cbn [antigravityMessages].
    apply pushModelMessage_built; [apply messageParts_textNonEmpty|].
    eapply Forall_impl; [|apply collect_toolCalls_isFunctionCall].
    intros p Hp. now destruct p.
  - constructor.
Qed.

(** X7. No text part and no thought part of a converted conversation holds
    the empty string: an empty user text becomes one space, an assistant
    text that is all white space gives no part at all. *)
Theorem text_parts_are_never_empty
    (claudeMessages : list ChatMessage) (enableThinking : bool)
    (actualModelName sessionId : jsstring) (hasTools : bool) (names0 : Registry) :
  Forall (fun t => Forall (fun p => textNonEmpty p = true) (parts t))
    (antigravityMessages
       (claudeMessageToAntigravity claudeMessages enableThinking actualModelName
          sessionId hasTools names0)).
Proof.
  unfold Builder.claudeMessageToAntigravity.
  apply convertMessages_all_parts; [|constructor].
  apply convertMessage_built_textNonEmpty.
Qed.

Lemma toolCallOf_unsigned (ctx : SignatureContext) (item : ContentItem) :
  Forall (fun p => unsigned p = true) (toolCallOf false ctx item).
Proof. destruct item; repeat constructor. Qed.

(** X8. With thinking disabled the converted conversation holds no thought
    part, and no part of it carries a [thoughtSignature], whatever signatures
    the client's messages and the signature cache hold. *)
Theorem thinking_disabled_leaves_no_signature
    (claudeMessages : list ChatMessage)
    (actualModelName sessionId : jsstring) (hasTools : bool) (names0 : Registry) :
  Forall (fun t => Forall (fun p => unsigned p = true) (parts t))
    (antigravityMessages
       (claudeMessageToAntigravity claudeMessages false actualModelName
          sessionId hasTools names0)).
Proof.
  unfold Builder.claudeMessageToAntigravity.
  apply convertMessages_all_parts; [|constructor].
  intros conv message. apply convertMessage_built; try reflexivity.
  intros _. split.
  - rewrite messageParts_plain.
    destruct (hasContentOf _); repeat constructor.
  - rewrite collect_toolCalls. apply Forall_flat_map, Forall_forall.
    intros item _. apply toolCallOf_unsigned.
Qed.

(** ** Tool calls and tool results are kept, in order *)

Lemma filter_none {A} (f : A -> bool) (l : list A) :
  Forall (fun x => f x = false) l -> filter f l = [].
Proof.
  induction 1 as [|x l Hx _ IH]; [reflexivity|]. cbn [filter]. now rewrite Hx.
Qed.

Lemma filter_all {A} (f : A -> bool) (l : list A) :
  Forall (fun x => f x = true) l -> filter f l = l.
Proof.
  induction 1 as [|x l Hx _ IH]; [reflexivity|].
  cbn [filter]. now rewrite Hx, IH.
Qed.

Lemma flat_map_none {A B} (g : A -> list B) (l : list A) :
  Forall (fun x => g x = []) l -> flat_map g l = [].
Proof.
  induction 1 as [|x l Hx _ IH]; [reflexivity|].
  cbn [flat_map]. now rewrite Hx, IH.
Qed.

Lemma messageParts_no_response (enableThinking : bool) (ctx : SignatureContext)
                               (c : Collected) :
  Forall (fun p => responseOf p = []) (messageParts enableThinking ctx c).
Proof.
  destruct enableThinking.
  - destruct (messageParts_thinking ctx c) as [Hno Hyes].
    destruct (truthyStr (orElse (messageSignature c)
                           (orElse (reasoningSignature ctx) (toolSignature ctx)))).
    + destruct (Hyes eq_refl) as (thought & Hne & ->).
      destruct (hasContentOf (textContent c)); repeat constructor.
    + rewrite (Hno eq_refl).
      destruct (hasContentOf (textContent c)); repeat constructor.
  - rewrite messageParts_plain.
    destruct (hasContentOf (textContent c)); repeat constructor.
Qed.

(** What the loop of [handleClaudeToolResult] adds: one response for every
    [tool_result] item, in order. *)
Lemma handleToolResultItems_parts (items : list ContentItem) (msgs : list Turn) :
  exists extra,
    flat_map parts (fold_left handleToolResultItem items msgs)
    = flat_map parts msgs ++ extra /\
    Forall (fun p => isFunctionCall p = false) extra /\
    flat_map responseOf extra = flat_map resultOf items.
Proof.
  revert msgs. induction items as [|item items IH]; intros msgs.
  - exists []. cbn [fold_left flat_map]. now rewrite app_nil_r.
  - cbn [fold_left].
    destruct (IH (handleToolResultItem msgs item)) as (extra & Hparts & Hcalls & Hresp).
    destruct item; cbn [handleToolResultItem] in *;
      try (exists extra; now repeat split).
    rewrite pushFunctionResponse_parts, <- app_assoc in Hparts.
    eexists. split; [exact Hparts|]. split.
    + constructor; [reflexivity|exact Hcalls].
    + cbn [app flat_map responseOf resultOf].
      now rewrite Hresp, BuilderFacts.resultContentOf_stated.
Qed.

Lemma resultOf_none (items : list ContentItem) :
  existsb isToolResult items = false -> flat_map resultOf items = [].
Proof.
  induction items as [|item items IH]; [reflexivity|].
  cbn [existsb flat_map]. intros H. apply orb_false_elim in H as [Hitem Hrest].
  rewrite (IH Hrest). now destruct item.
Qed.

(** What one message adds to the parts of all turns. *)
Lemma convertMessage_parts
    (enableThinking : bool) (actualModelName sessionId : jsstring) (hasTools : bool)
    (conv : Conversion) (message : ChatMessage) :
  exists extra,
    flat_map parts
      (antigravityMessages
         (convertMessage enableThinking actualModelName sessionId hasTools
            conv message))
    = flat_map parts (antigravityMessages conv) ++ extra /\
    filter isFunctionCall extra
    = callsOfMessage enableThinking
        (getSignatureContext sessionId actualModelName hasTools) message /\
    flat_map responseOf extra = resultsOfMessage message.
Proof.
  unfold Builder.convertMessage, Shape.callsOfMessage, resultsOfMessage.
  destruct (msg_role message).
  - destruct (hasToolResult (msg_content message)) eqn:Hres.
    + cbn [antigravityMessages]. unfold handleClaudeToolResult.
      destruct (msg_content message) as [text|items|]; try discriminate.
      destruct (handleToolResultItems_parts items (antigravityMessages conv))
        as (extra & Hparts & Hcalls & Hresp).
      exists extra. split; [exact Hparts|]. split; [|exact Hresp].
      now apply filter_none.
    + pose proof (extractImages_inlineData (msg_content message)) as Himgs.
      destruct (extractImagesFromClaudeContent (msg_content message))
        as [text images].
      cbn [antigravityMessages snd] in *. unfold pushUserMessage.
      eexists. split; [apply flat_map_parts_snoc|]. cbn [parts]. split.
      * cbn [filter isFunctionCall]. apply filter_none.
        eapply Forall_impl; [|exact Himgs]. now intros p (mime & data & ->).
      * cbn [flat_map responseOf app].
        rewrite flat_map_none
          by (eapply Forall_impl; [|exact Himgs]; now intros p (mime & data & ->)).
        destruct (msg_content message) as [t|items|]; try reflexivity.
        symmetry. now apply resultOf_none.
  - unfold Builder.handleClaudeAssistantMessage. cbn [antigravityMessages].
    set (ctx := getSignatureContext sessionId actualModelName hasTools).
    set (c := collect enableThinking actualModelName ctx (msg_content message)
                (toolNames conv)).
    destruct (pushModelMessage_parts (messageParts enableThinking ctx c)
                (toolCalls c) (hasContentOf (textContent c))
                (antigravityMessages conv)) as (kept & Hkept & Hparts).
    exists (kept ++ toolCalls c). split; [exact Hparts|].
    assert (Hcalls : Forall (fun p => isFunctionCall p = true) (toolCalls c))
      by apply collect_toolCalls_isFunctionCall.
    split.
    + rewrite filter_app, (filter_all _ Hcalls).
      replace (filter isFunctionCall kept) with (@nil Part).
      * apply collect_toolCalls.
      * symmetry. destruct Hkept as [->| ->]; [reflexivity|].
        apply filter_none, messageParts_no_functionCall.
    + rewrite flat_map_app.
      rewrite (flat_map_none responseOf (l := toolCalls c))
        by (eapply Forall_impl; [|exact Hcalls]; intros p Hp; now destruct p).
      rewrite app_nil_r.
      destruct Hkept as [->| ->]; [reflexivity|].
      apply flat_map_none, messageParts_no_response.
  - exists []. now rewrite app_nil_r.
Qed.

Lemma convertMessages_parts
    (enableThinking : bool) (actualModelName sessionId : jsstring) (hasTools : bool)
    (claudeMessages : list ChatMessage) (conv : Conversion) :
  exists extra,
    flat_map parts
      (antigravityMessages
         (convertMessages enableThinking actualModelName sessionId hasTools
            claudeMessages conv))
    = flat_map parts (antigravityMessages conv) ++ extra /\
    filter isFunctionCall extra
    = flat_map (callsOfMessage enableThinking
                  (getSignatureContext sessionId actualModelName hasTools))
               claudeMessages /\
    flat_map responseOf extra = flat_map resultsOfMessage claudeMessages.
Proof.
  revert conv. induction claudeMessages as [|message rest IH]; intros conv.
  - exists []. now rewrite app_nil_r.
  - cbn [Builder.convertMessages fold_left flat_map].
    destruct (convertMessage_parts enableThinking actualModelName sessionId
                hasTools conv message) as (first & Hfirst & Hcalls1 & Hresp1).
    destruct (IH (convertMessage enableThinking actualModelName sessionId
                    hasTools conv message)) as (more & Hmore & Hcalls2 & Hresp2).
    exists (first ++ more). split; [|split].
    + unfold Builder.convertMessages in Hmore. rewrite Hmore, Hfirst.
      now rewrite app_assoc.
    + now rewrite filter_app, Hcalls1, Hcalls2.
    + now rewrite flat_map_app, Hresp1, Hresp2.
Qed.

(** X9. No tool call is lost, duplicated or reordered: the [functionCall]
    parts of the converted conversation, read turn by turn, are the parts of
    the [tool_use] items of the assistant messages, in the order of the
    messages and of their items, whether a message opened a turn or was merged
    into the last one. *)
Theorem tool_calls_are_kept_in_order
    (claudeMessages : list ChatMessage) (enableThinking : bool)
    (actualModelName sessionId : jsstring) (hasTools : bool) (names0 : Registry) :
  functionCalls
    (antigravityMessages
       (claudeMessageToAntigravity claudeMessages enableThinking actualModelName
          sessionId hasTools names0))
  = flat_map (callsOfMessage enableThinking
                (getSignatureContext sessionId actualModelName hasTools))
             claudeMessages.
Proof.
  unfold Builder.claudeMessageToAntigravity, functionCalls.
  destruct (convertMessages_parts enableThinking actualModelName sessionId
              hasTools claudeMessages
              {| antigravityMessages := []; toolNames := names0 |})
    as (extra & Hparts & Hcalls & _).
  rewrite Hparts. exact Hcalls.
Qed.

(** X10. No tool result is lost, duplicated or reordered: the ids and
    outputs of the [functionResponse] parts of the converted conversation are
    those of the [tool_result] items of the user messages, in order; a string
    content is the output as it is, an array content the concatenation of its
    text blocks, any other content the empty string. *)
Theorem tool_results_are_kept_in_order
    (claudeMessages : list ChatMessage) (enableThinking : bool)
    (actualModelName sessionId : jsstring) (hasTools : bool) (names0 : Registry) :
  functionResponses
    (antigravityMessages
       (claudeMessageToAntigravity claudeMessages enableThinking actualModelName
          sessionId hasTools names0))
  = flat_map resultsOfMessage claudeMessages.
Proof.
  unfold Builder.claudeMessageToAntigravity, functionResponses.
  destruct (convertMessages_parts enableThinking actualModelName sessionId
              hasTools claudeMessages
              {| antigravityMessages := []; toolNames := names0 |})
    as (extra & Hparts & _ & Hresp).
  rewrite Hparts. exact Hresp.
Qed.

(** ** A user message with a tool result *)

Lemma handleToolResultItems_filter (items : list ContentItem) (msgs : list Turn) :
  fold_left handleToolResultItem items msgs
  = fold_left handleToolResultItem (filter isToolResult items) msgs.
Proof.
  revert msgs. induction items as [|item items IH]; intros msgs; [reflexivity|].
  destruct item; cbn [fold_left filter isToolResult handleToolResultItem];
    apply IH.
Qed.

Lemma existsb_filter {A} (f : A -> bool) (l : list A) :
  existsb f (filter f l) = existsb f l.
Proof.
  induction l as [|x l IH]; [reflexivity|].
  cbn [filter existsb]. destruct (f x) eqn:E; cbn [existsb]; now rewrite ?E, IH.
Qed.

(** X11. A user message that holds a [tool_result] item gives function
    responses only: its text items and its images are dropped, as are all
    other items; the message is converted as if it held its [tool_result]
    items alone. *)
Theorem tool_result_message_drops_other_items
    (enableThinking : bool) (actualModelName sessionId : jsstring) (hasTools : bool)
    (conv : Conversion) (items : list ContentItem) :
  existsb isToolResult items = true ->
  convertMessage enableThinking actualModelName sessionId hasTools conv
    {| msg_role := RoleUser; msg_content := Items items |}
  = convertMessage enableThinking actualModelName sessionId hasTools conv
      {| msg_role := RoleUser; msg_content := Items (filter isToolResult items) |}.
Proof.
  intros H. unfold Builder.convertMessage.
  cbn [msg_role msg_content hasToolResult].
  rewrite existsb_filter, H. unfold handleClaudeToolResult. cbn [msg_content].
  now rewrite handleToolResultItems_filter.
Qed.

(** ** The names of function responses *)

Lemma findInParts_sound (id name : jsstring) (ps : list Part) :
  findInParts id ps = Some name ->
  exists args signature, In (PFunctionCall id name args signature) ps.
Proof.
  induction ps as [|p ps IH]; [discriminate|]. cbn [findInParts].
  destruct (functionCallName id p) as [found|] eqn:E.
  - intros [= ->]. destruct p; try discriminate. cbn [functionCallName] in E.
    destruct (JsString.eqb id0 id) eqn:Eid; [|discriminate].
    apply JsStringFacts.eqb_eq in Eid as ->. injection E as ->.
    eexists _, _. now left.
  - intros H. destruct (IH H) as (args & signature & Hin).
    exists args, signature. now right.
Qed.

Lemma findInTurns_sound (id name : jsstring) (turns : list Turn) :
  findInTurns id turns = Some name ->
  exists t args signature,
    In t turns /\ role t = model /\
    In (PFunctionCall id name args signature) (parts t).
Proof.
  induction turns as [|t turns IH]; [discriminate|]. cbn [findInTurns].
  destruct (isModel (role t)) eqn:Hrole.
  - destruct (findInParts id (parts t)) as [found|] eqn:E.
    + intros [= ->]. destruct (findInParts_sound _ _ E) as (args & signature & Hin).
      exists t, args, signature. split; [now left|]. split; [|exact Hin].
      now destruct (role t).
    + intros H. destruct (IH H) as (t' & args & signature & Hin & Hm & Hp).
      exists t', args, signature. split; [now right|now split].
  - intros H. destruct (IH H) as (t' & args & signature & Hin & Hm & Hp).
    exists t', args, signature. split; [now right|now split].
Qed.

(** A name found is the name of a call with that id in a model turn. *)
Lemma findFunctionNameById_sound (id : jsstring) (msgs : list Turn) :
  findFunctionNameById id msgs <> [] ->
  exists t args signature,
    In t msgs /\ role t = model /\
    In (PFunctionCall id (findFunctionNameById id msgs) args signature) (parts t).
Proof.
  unfold findFunctionNameById.
  destruct (findInTurns id (rev msgs)) as [name|] eqn:E; [|congruence].
  intros _. destruct (findInTurns_sound _ _ E) as (t & args & signature & Hin & H).
  exists t, args, signature. split; [now apply in_rev|exact H].
Qed.

Lemma namedResponsesMatched_app (ps extra : list Part) :
  namedResponsesMatched ps ->
  (forall id name output,
     In (PFunctionResponse id name output) extra -> name <> [] ->
     exists args signature, In (PFunctionCall id name args signature) ps) ->
  namedResponsesMatched (ps ++ extra).
Proof.
  intros Hps Hextra n id name output Hn Hname.
  destruct (Nat.lt_ge_cases n (List.length ps)) as [Hlt|Hge].
  - rewrite nth_error_app1 in Hn by exact Hlt.
    destruct (Hps n id name output Hn Hname) as (args & signature & Hin).
    exists args, signature. rewrite firstn_app. apply in_or_app. now left.
  - rewrite nth_error_app2 in Hn by exact Hge. apply nth_error_In in Hn.
    destruct (Hextra id name output Hn Hname) as (args & signature & Hin).
    exists args, signature. rewrite firstn_app. apply in_or_app. left.
    now rewrite firstn_all2.
Qed.

Lemma handleToolResultItems_matched (items : list ContentItem) (msgs : list Turn) :
  namedResponsesMatched (flat_map parts msgs) ->
  namedResponsesMatched (flat_map parts (fold_left handleToolResultItem items msgs)).
Proof.
  revert msgs. induction items as [|item items IH]; intros msgs Hmsgs;
    [exact Hmsgs|].
  cbn [fold_left]. apply IH.
  destruct item; cbn [handleToolResultItem]; try exact Hmsgs.
  rewrite pushFunctionResponse_parts.
  apply namedResponsesMatched_app; [exact Hmsgs|].
  intros id name output [[= <- <- <-]|[]] Hname.
  destruct (findFunctionNameById_sound _ _ Hname)
    as (t & args & signature & Hin & _ & Hp).
  exists args, signature. apply in_flat_map. now exists t.
Qed.

Lemma responseOf_none_In (extra : list Part) (id name output : jsstring) :
  flat_map responseOf extra = [] -> ~ In (PFunctionResponse id name output) extra.
Proof.
  induction extra as [|p extra IH]; [now intros _ []|].
  cbn [flat_map]. intros H [->|Hin]; [discriminate|].
  apply app_eq_nil in H as [_ H]. now apply IH.
Qed.

Lemma convertMessage_matched
    (enableThinking : bool) (actualModelName sessionId : jsstring) (hasTools : bool)
    (conv : Conversion) (message : ChatMessage) :
  namedResponsesMatched (flat_map parts (antigravityMessages conv)) ->
  namedResponsesMatched
    (flat_map parts
       (antigravityMessages
          (convertMessage enableThinking actualModelName sessionId hasTools
             conv message))).
Proof.
  intros Hconv.
  destruct (msg_role message) eqn:Hrole;
    [destruct (hasToolResult (msg_content message)) eqn:Hres|..].
  - unfold Builder.convertMessage. rewrite Hrole, Hres.
    cbn [antigravityMessages]. unfold handleClaudeToolResult.
    destruct (msg_content message); try exact Hconv.
    now apply handleToolResultItems_matched.
  - destruct (convertMessage_parts enableThinking actualModelName sessionId
                hasTools conv message) as (extra & -> & _ & Hresp).
    apply namedResponsesMatched_app; [exact Hconv|].
    intros id name output Hin. exfalso.
    apply (responseOf_none_In extra id name output); [|exact Hin].
    rewrite Hresp. unfold resultsOfMessage. rewrite Hrole.
    unfold hasToolResult in Hres.
    destruct (msg_content message); try reflexivity. now apply resultOf_none.
  - destruct (convertMessage_parts enableThinking actualModelName sessionId
                hasTools conv message) as (extra & -> & _ & Hresp).
    apply namedResponsesMatched_app; [exact Hconv|].
    intros id name output Hin. exfalso.
    apply (responseOf_none_In extra id name output); [|exact Hin].
    rewrite Hresp. unfold resultsOfMessage. now rewrite Hrole.
  - unfold Builder.convertMessage. now rewrite Hrole.
Qed.

(** X12. A function response never carries an invented name: in the
    converted conversation every [functionResponse] part with a non-empty
    name comes after a [functionCall] part with the same id and the same
    name. *)
Theorem response_names_come_from_calls
    (claudeMessages : list ChatMessage) (enableThinking : bool)
    (actualModelName sessionId : jsstring) (hasTools : bool) (names0 : Registry) :
  namedResponsesMatched
    (flat_map parts
       (antigravityMessages
          (claudeMessageToAntigravity claudeMessages enableThinking
             actualModelName sessionId hasTools names0))).
Proof.
  unfold Builder.claudeMessageToAntigravity, Builder.convertMessages.
  assert (H : forall conv,
             namedResponsesMatched (flat_map parts (antigravityMessages conv)) ->
             namedResponsesMatched
               (flat_map parts
                  (antigravityMessages
                     (fold_left
                        (convertMessage enableThinking actualModelName sessionId
                           hasTools) claudeMessages conv)))).
  { induction claudeMessages as [|message rest IH]; intros conv Hconv;
      [exact Hconv|].
    cbn [fold_left]. apply IH. now apply convertMessage_matched. }
  apply H. intros n id name output Hn. destruct n; discriminate Hn.
Qed.

(** ** The tool-name registry *)

Lemma collectItem_names (enableThinking : bool) (actualModelName : jsstring)
                        (ctx : SignatureContext) (acc : Collected)
                        (item : ContentItem) :
  names (collectItem enableThinking actualModelName ctx acc item)
  = names acc ++ renamingOf sanitizeToolName actualModelName item.
Proof.
  destruct item; cbn [Builder.collectItem renamingOf names];
    rewrite ?app_nil_r; try reflexivity.
  unfold processToolName.
  destruct (nonEmpty actualModelName && _); cbn [names];
    now rewrite ?app_nil_r.
Qed.

Lemma fold_collectItem_names (enableThinking : bool) (actualModelName : jsstring)
                             (ctx : SignatureContext) (items : list ContentItem)
                             (acc : Collected) :
  names (fold_left (collectItem enableThinking actualModelName ctx) items acc)
  = names acc ++ flat_map (renamingOf sanitizeToolName actualModelName) items.
Proof.
  revert acc. induction items as [|item items IH]; intros acc;
    cbn [fold_left flat_map].
  - now rewrite app_nil_r.
  - now rewrite IH, collectItem_names, app_assoc.
Qed.

Lemma collect_names (enableThinking : bool) (actualModelName : jsstring)
                    (ctx : SignatureContext) (content : Content)
                    (names0 : Registry) :
  names (collect enableThinking actualModelName ctx content names0)
  = names0 ++ match content with
              | Items items =>
                  flat_map (renamingOf sanitizeToolName actualModelName) items
              | _ => []
              end.
Proof.
  destruct content as [text|items|]; cbn [Builder.collect names];
    rewrite ?app_nil_r; try reflexivity.
  now rewrite fold_collectItem_names.
Qed.

Lemma renamingOf_isRenaming (actualModelName : jsstring) (item : ContentItem) :
  Forall (isRenaming sanitizeToolName actualModelName)
         (renamingOf sanitizeToolName actualModelName item).
Proof.
  destruct item; try constructor. cbn [renamingOf].
  destruct (nonEmpty actualModelName && _) eqn:E; [|constructor].
  apply andb_prop in E as [Hmodel Hname].
  constructor; [|constructor]. cbn [isRenaming].
  split; [reflexivity|]. split; [now intros ->|]. split; [reflexivity|].
  apply JsStringFacts.eqb_neq. now destruct (JsString.eqb _ _).
Qed.

(** X13. The tool-name registry only grows, and only by genuine renamings:
    after a conversion it holds the entries it held before, followed by one
    entry (model, sanitized name, original name) for every [tool_use] item
    of an assistant message whose name sanitizing changes, in order; nothing
    is registered when the model name is empty or the name is unchanged. *)
Theorem registry_grows_by_renamings
    (claudeMessages : list ChatMessage) (enableThinking : bool)
    (actualModelName sessionId : jsstring) (hasTools : bool) (names0 : Registry) :
  let added := flat_map (renamingsOfMessage sanitizeToolName actualModelName)
                        claudeMessages in
  toolNames (claudeMessageToAntigravity claudeMessages enableThinking
               actualModelName sessionId hasTools names0)
  = names0 ++ added
  /\ Forall (isRenaming sanitizeToolName actualModelName) added.
Proof.
  intros added. subst added. split.
  - unfold Builder.claudeMessageToAntigravity, Builder.convertMessages.
    change names0
      with (toolNames {| antigravityMessages := []; toolNames := names0 |}) at 2.
    generalize {| antigravityMessages := []; toolNames := names0 |}.
    induction claudeMessages as [|message rest IH]; intros conv;
      cbn [fold_left flat_map]; [now rewrite app_nil_r|].
    rewrite IH, app_assoc. f_equal.
    unfold Builder.convertMessage, renamingsOfMessage.
    destruct (msg_role message).
    + destruct (hasToolResult (msg_content message));
        [|destruct (extractImagesFromClaudeContent _)];
        cbn [toolNames]; now rewrite app_nil_r.
    + unfold Builder.handleClaudeAssistantMessage. cbn [toolNames].
      rewrite collect_names. now destruct (msg_content message).
    + now rewrite app_nil_r.
  - apply Forall_flat_map, Forall_forall. intros message _.
    unfold renamingsOfMessage.
    destruct (msg_role message); try constructor.
    destruct (msg_content message) as [text|items|]; try constructor.
    apply Forall_flat_map, Forall_forall. intros item _.
    apply renamingOf_isRenaming.
Qed.

(** ** Roles and parts *)

Lemma turnOk_pushToLast (extra : list Part) (msgs : list Turn) (last : Turn) :
  lastMessage msgs = Some last ->
  forallb (if isUser (role last) then userPart else modelPart) extra = true ->
  Forall (fun t => turnOk t = true) msgs ->
  Forall (fun t => turnOk t = true) (pushToLast extra msgs).
Proof.
  intros Hlast Hextra Hmsgs.
  destruct (lastMessage_Some _ Hlast) as (init & ->).
  rewrite pushToLast_snoc. apply Forall_app in Hmsgs as [Hinit Hok].
  apply Forall_app. split; [exact Hinit|]. constructor; [|constructor].
  inversion Hok as [|? ? Ht _]; subst. unfold turnOk in *. cbn [role parts].
  destruct (role last); cbn [isUser] in Hextra.
  - apply andb_prop in Ht as [Hne Hall].
    rewrite forallb_app, Hall, Hextra. now destruct (parts last).
  - now rewrite forallb_app, Ht, Hextra.
Qed.

Lemma turnOk_snoc (msgs : list Turn) (t : Turn) :
  turnOk t = true ->
  Forall (fun t => turnOk t = true) msgs ->
  Forall (fun t => turnOk t = true) (msgs ++ [t]).
Proof.
  intros Ht Hmsgs. apply Forall_app. split; [exact Hmsgs|now constructor].
Qed.

Lemma pushFunctionResponse_turnOk (id name content : jsstring) (msgs : list Turn) :
  Forall (fun t => turnOk t = true) msgs ->
  Forall (fun t => turnOk t = true) (pushFunctionResponse id name content msgs).
Proof.
  intros Hmsgs. unfold pushFunctionResponse.
  destruct (lastMessage msgs) as [last|] eqn:E; [|now apply turnOk_snoc].
  destruct (isUser (role last)) eqn:Hrole; cbn [andb]; [|now apply turnOk_snoc].
  destruct (existsb isFunctionResponse (parts last)); [|now apply turnOk_snoc].
  apply (turnOk_pushToLast _ E); [now rewrite Hrole|exact Hmsgs].
Qed.

Lemma pushModelMessage_turnOk (newParts calls : list Part) (hasContent : bool)
                              (msgs : list Turn) :
  forallb modelPart newParts = true ->
  forallb modelPart calls = true ->
  Forall (fun t => turnOk t = true) msgs ->
  Forall (fun t => turnOk t = true)
         (pushModelMessage newParts calls hasContent msgs).
Proof.
  intros Hparts Hcalls Hmsgs. unfold pushModelMessage.
  assert (Hopen : Forall (fun t => turnOk t = true)
                    (msgs ++ [{| role := model; parts := newParts ++ calls |}])).
  { apply turnOk_snoc; [|exact Hmsgs]. unfold turnOk. cbn [role parts].
    now rewrite forallb_app, Hparts, Hcalls. }
  destruct (lastMessage msgs) as [last|] eqn:E; [|exact Hopen].
  destruct (isModel (role last)) eqn:Hrole; cbn [andb]; [|exact Hopen].
  destruct (_ && _); [|exact Hopen].
  apply (turnOk_pushToLast _ E); [|exact Hmsgs].
  now destruct (role last).
Qed.

Lemma messageParts_modelPart (enableThinking : bool) (ctx : SignatureContext)
                              (c : Collected) :
  forallb modelPart (messageParts enableThinking ctx c) = true.
Proof.
  destruct enableThinking.
  - destruct (messageParts_thinking ctx c) as [Hno Hyes].
    destruct (truthyStr (orElse (messageSignature c)
                           (orElse (reasoningSignature ctx) (toolSignature ctx)))).
    + destruct (Hyes eq_refl) as (thought & Hne & ->).
      now destruct (hasContentOf (textContent c)).
    + rewrite (Hno eq_refl). now destruct (hasContentOf (textContent c)).
  - rewrite messageParts_plain. now destruct (hasContentOf (textContent c)).
Qed.

Lemma convertMessage_turnOk
    (enableThinking : bool) (actualModelName sessionId : jsstring) (hasTools : bool)
    (conv : Conversion) (message : ChatMessage) :
  Forall (fun t => turnOk t = true) (antigravityMessages conv) ->
  Forall (fun t => turnOk t = true)
    (antigravityMessages
       (convertMessage enableThinking actualModelName sessionId hasTools
          conv message)).
Proof.
  intros Hconv. unfold Builder.convertMessage. destruct (msg_role message).
  - destruct (hasToolResult (msg_content message)).
    + cbn [antigravityMessages]. unfold handleClaudeToolResult.
      destruct (msg_content message) as [text|items|]; try exact Hconv.
      revert Hconv. generalize (antigravityMessages conv).
      induction items as [|item items IH]; intros msgs Hmsgs; [exact Hmsgs|].
      cbn [fold_left]. apply IH.
      destruct item; cbn [handleToolResultItem]; try exact Hmsgs.
      now apply pushFunctionResponse_turnOk.
    + pose proof (extractImages_inlineData (msg_content message)) as Himgs.
      destruct (extractImagesFromClaudeContent (msg_content message))
        as [text images].
      cbn [antigravityMessages snd] in *. unfold pushUserMessage.
      apply turnOk_snoc; [|exact Hconv]. unfold turnOk.
      cbn [role parts nonEmptyParts forallb userPart andb].
      apply forallb_forall. intros p Hp.
      rewrite Forall_forall in Himgs.
      now destruct (Himgs p Hp) as (mime & data & ->).
  - unfold Builder.handleClaudeAssistantMessage. cbn [antigravityMessages].
    apply pushModelMessage_turnOk; [| |exact Hconv].
    + apply messageParts_modelPart.
    + apply forallb_forall. intros p Hp.
      pose proof (collect_toolCalls_isFunctionCall sanitizeToolName reparse
                    enableThinking actualModelName
                    (getSignatureContext sessionId actualModelName hasTools)
                    (msg_content message) (toolNames conv)) as Hcalls.
      rewrite Forall_forall in Hcalls. specialize (Hcalls p Hp).
      now destruct p.
  - exact Hconv.
Qed.

Lemma convertMessages_turnOk
    (enableThinking : bool) (actualModelName sessionId : jsstring) (hasTools : bool)
    (claudeMessages : list ChatMessage) (conv : Conversion) :
  Forall (fun t => turnOk t = true) (antigravityMessages conv) ->
  Forall (fun t => turnOk t = true)
    (antigravityMessages
       (convertMessages enableThinking actualModelName sessionId hasTools
          claudeMessages conv)).
Proof.
  unfold Builder.convertMessages. revert conv.
  induction claudeMessages as [|message rest IH]; intros conv Hconv;
    [exact Hconv|].
  cbn [fold_left]. apply IH. now apply convertMessage_turnOk.
Qed.

(** X14. Roles and parts agree in a converted conversation: every user turn
    holds at least one part and only text, inline image and function
    response parts; every model turn holds only thought, text and function
    call parts. *)
Theorem turns_hold_the_parts_of_their_role
    (claudeMessages : list ChatMessage) (enableThinking : bool)
    (actualModelName sessionId : jsstring) (hasTools : bool) (names0 : Registry) :
  Forall (fun t => turnOk t = true)
    (antigravityMessages
       (claudeMessageToAntigravity claudeMessages enableThinking actualModelName
          sessionId hasTools names0)).
Proof.
  unfold Builder.claudeMessageToAntigravity.
  apply convertMessages_turnOk. constructor.
Qed.

End Converter.

Lemma tool_result_message_drops_other_items_witness :
  existsb isToolResult resultWithComment = true
  /\
  Builder.convertMessage keepName sameValue noImageModel alwaysCache emptyCache
    false noSignature noSignature true (js "claude") (js "s") false afterCall
    {| msg_role := RoleUser; msg_content := Items resultWithComment |}
  = Builder.convertMessage keepName sameValue noImageModel alwaysCache emptyCache
      false noSignature noSignature true (js "claude") (js "s") false afterCall
      {| msg_role := RoleUser;
         msg_content := Items (filter isToolResult resultWithComment) |}.
Proof.
  split; [reflexivity|].
  apply (@tool_result_message_drops_other_items keepName sameValue noImageModel
           alwaysCache emptyCache false noSignature noSignature true
           (js "claude") (js "s") false afterCall resultWithComment).
  reflexivity.
Defined.

Section RequestBody.

Variable BackendTool : Type.
Variable Settings : Type.
Variable Parameters : Type.
Variable SystemPrompt : Type.
Variable SystemInstruction : Type.
Variable buildSystemInstruction : SystemPrompt -> option SystemInstruction.
Variable isEnableThinking : jsstring -> bool.
Variable modelMapping : jsstring -> jsstring.
Variable generateGenerationConfig :
  Parameters -> bool -> jsstring -> GenerationConfig Settings.
Variable newRequestId : jsstring.
Variable sanitizeToolName : jsstring -> jsstring.
Variable reparse : JSON -> JSON.
Variable isImageModel : jsstring -> bool.
Variable shouldCacheSignature : bool -> bool -> bool.
Variable getSignature : jsstring -> jsstring -> bool -> option CacheEntry.
Variable useFallbackSignature : bool.
Variable getThoughtSignatureForModel : jsstring -> option jsstring.
Variable getToolSignatureForModel : jsstring -> option jsstring.

#[local] Abbreviation generateClaudeRequestBody :=
  (@Builder.generateClaudeRequestBody BackendTool Settings Parameters SystemPrompt
     SystemInstruction buildSystemInstruction isEnableThinking modelMapping
     generateGenerationConfig newRequestId sanitizeToolName reparse isImageModel
     shouldCacheSignature getSignature useFallbackSignature
     getThoughtSignatureForModel getToolSignatureForModel).

(** X26. Every request body is well formed, whatever the client sends and
    whatever the tool converter returns: in [request.contents] every user
    turn holds at least one part and the parts of a turn fit its role, and no
    text is empty; [request.tools] is never an empty array; a [toolConfig]
    comes only with a non-empty list of declared tools; and the request is
    either a web search, whose tools are the [googleSearch] descriptor
    alone, or of type [agent], whose tools, if any, are declared tools. *)
Theorem request_body_is_well_formed
    (convert : option (list (option ClaudeTool)) -> jsstring -> jsstring -> Registry
               -> list BackendTool * Registry)
    (claudeMessages : list ChatMessage) (modelName : jsstring)
    (parameters : Parameters) (claudeTools : option (list (option ClaudeTool)))
    (systemPrompt : SystemPrompt) (tokenSessionId tokenProjectId : jsstring)
    (names0 : Registry) :
  let body := fst (generateClaudeRequestBody convert claudeMessages modelName
                     parameters claudeTools systemPrompt tokenSessionId
                     tokenProjectId names0) in
  Forall (fun t => turnOk t = true) (contents (request body))
  /\
  Forall (fun t => Forall (fun p => textNonEmpty p = true) (parts t))
         (contents (request body))
  /\
  tools (request body) <> Some []
  /\
  (toolConfig (request body) = None
   \/ exists first rest,
        tools (request body) = Some (map (@declared BackendTool) (first :: rest)))
  /\
  ((requestType body = web_search
    /\ tools (request body) = Some [googleSearch BackendTool 5])
   \/
   (requestType body = agent
    /\ forall entries, tools (request body) = Some entries ->
                       forallb isDeclared entries = true)).
Proof.
  intros body. subst body. unfold Builder.generateClaudeRequestBody.
  destruct (hasWebSearchTool claudeTools).
  - cbn [fst buildRequestBody request contents tools toolConfig requestType].
    split; [unfold Builder.claudeMessageToAntigravity;
            apply convertMessages_turnOk; constructor|].
    split; [unfold Builder.claudeMessageToAntigravity;
            apply convertMessages_all_parts; [|constructor];
            apply convertMessage_built_textNonEmpty|].
    split; [discriminate|]. split; [now left|]. left. now split.
  - destruct (convert claudeTools tokenSessionId (modelMapping modelName) names0)
      as [tools0 names1].
    cbn [fst buildRequestBody request contents tools toolConfig requestType].
    split; [unfold Builder.claudeMessageToAntigravity;
            apply convertMessages_turnOk; constructor|].
    split; [unfold Builder.claudeMessageToAntigravity;
            apply convertMessages_all_parts; [|constructor];
            apply convertMessage_built_textNonEmpty|].
    destruct tools0 as [|first rest].
    + split; [discriminate|]. split; [now left|]. right.
      split; [reflexivity|]. discriminate.
    + split; [discriminate|]. split; [right; now exists first, rest|].
      right. split; [reflexivity|]. intros entries [= <-].
      apply forallb_forall. intros entry [<-|Hin]; [reflexivity|].
      apply in_map_iff in Hin as (tool & <- & _). reflexivity.
Qed.

End RequestBody.

(** The comment and the image are not in the converted conversation. *)
Example commented_result_evaluated :
  antigravityMessages
    (Builder.claudeMessageToAntigravity keepName sameValue noImageModel alwaysCache
       emptyCache false noSignature noSignature
       [askWeather; callWeather;
        {| msg_role := RoleUser; msg_content := Items resultWithComment |}]
       true (js "claude") (js "s") false [])
  = [{| role := user; parts := [PText (js "weather?")] |};
     {| role := model;
        parts := [PThought (js "because...") (Some (js "sig1"));
                  PFunctionCall (js "t1") (js "get_weather") (JObj []) None] |};
     {| role := user;
        parts := [PFunctionResponse (js "t1") (js "get_weather") (js "sunny")] |}].
Proof. vm_compute. reflexivity. Qed.

(** A model turn, unlike a user turn, may be empty: an assistant message of
    white space only, with no signature at hand, opens a turn without
    parts. *)
Example blank_answer_opens_empty_turn :
  antigravityMessages
    (Builder.claudeMessageToAntigravity keepName sameValue noImageModel alwaysCache
       emptyCache false noSignature noSignature [askWeather; blankAnswer]
       true (js "claude") (js "s") false [])
  = [{| role := user; parts := [PText (js "weather?")] |};
     {| role := model; parts := [] |}].
Proof. vm_compute. reflexivity. Qed.

End BuilderMoreFacts.

(* ================================================================== *)
(** * Properties of the system instruction *)
(* ================================================================== *)

Module SystemPromptFacts.

Import Builder SystemPrompt Inputs MoreInputs BuilderFacts.

(** ** Cleaned parts *)

Lemma cleanSystemPart_object (fields : list (jsstring * JSON)) :
  cleanSystemPart (JObj fields) = JNull
  \/ exists cleanedPart,
       cleanSystemPart (JObj fields) = JObj cleanedPart /\
       supportedKeys cleanedPart = true /\
       cleanSystemPart (JObj cleanedPart) = JObj cleanedPart.
Proof.
  unfold cleanSystemPart. cbn [truthy typeofObject negb orb]. unfold kept.
  cbn [prop].
  destruct (assoc (js "text") fields) as [text|];
    destruct (assoc (js "inlineData") fields) as [inlineData|];
    destruct (assoc (js "fileData") fields) as [fileData|];
    cbn [app]; [right; eexists; split; [reflexivity|split; vm_compute; reflexivity]..
               |now left].
Qed.

Lemma cleanSystemPart_cleaned (p : JSON) :
  cleanSystemPart p = JNull \/ cleaned (cleanSystemPart p) = true.
Proof.
  destruct p as [|b|bits|s|items|fields]; try (now left).
  - right. unfold cleanSystemPart. cbn [typeofObject negb]. now rewrite orb_true_r.
  - right. unfold cleanSystemPart. cbn [typeofObject negb]. now rewrite orb_true_r.
  - right. unfold cleanSystemPart. cbn [typeofObject negb]. now rewrite orb_true_r.
  - destruct (cleanSystemPart_object fields) as [->|(c & -> & Hkeys & _)];
      [now left|now right].
Qed.

Lemma cleanSystemPart_idempotent (p : JSON) :
  cleanSystemPart (cleanSystemPart p) = cleanSystemPart p.
Proof.
  destruct p as [|b|bits|s|items|fields]; try reflexivity.
  - unfold cleanSystemPart at 2. cbn [typeofObject negb]. now rewrite orb_true_r.
  - unfold cleanSystemPart at 2. cbn [typeofObject negb]. now rewrite orb_true_r.
  - unfold cleanSystemPart at 2. cbn [typeofObject negb]. now rewrite orb_true_r.
  - destruct (cleanSystemPart_object fields) as [->|(c & -> & _ & Hc)];
      [reflexivity|exact Hc].
Qed.

Lemma cleanParts_cleaned (items : list JSON) :
  Forall (fun p => cleaned p = true) (cleanParts items).
Proof.
  unfold cleanParts. induction items as [|p items IH]; [constructor|].
  cbn [map filter].
  destruct (cleanSystemPart_cleaned p) as [->|Hp]; [exact IH|].
  destruct (isNull (cleanSystemPart p)); [exact IH|now constructor].
Qed.

Lemma cleanParts_idempotent (items : list JSON) :
  cleanParts (cleanParts items) = cleanParts items.
Proof.
  unfold cleanParts. induction items as [|p items IH]; [reflexivity|].
  cbn [map filter].
  destruct (isNull (cleanSystemPart p)) eqn:E; cbn [negb]; [exact IH|].
  cbn [map filter]. rewrite cleanSystemPart_idempotent, E. cbn [negb].
  now rewrite IH.
Qed.

(** X15. The parts made of the client's system prompt hold only what the
    backend supports: none is [null], none is an array, and every part that
    is an object holds only the keys [text], [inlineData] and [fileData], at
    least one of them (fields such as [type] and [cache_control] are gone);
    cleaning them again changes nothing. *)
Theorem user_parts_are_cleaned (userSystemPrompt : jsvalue) (userParts : list JSON) :
  userPartsOf userSystemPrompt = Ok userParts ->
  Forall (fun p => cleaned p = true) userParts
  /\ cleanParts userParts = userParts.
Proof.
  unfold userPartsOf. destruct userSystemPrompt as [v|];
    [|intros [= <-]; split; [constructor|reflexivity]].
  destruct (negb (truthy v)); [intros [= <-]; split; [constructor|reflexivity]|].
  destruct v as [|b|bits|s|items|fields];
    try (intros [= <-]; split; [constructor|reflexivity]).
  - destruct (nonEmpty (trim s)); intros [= <-];
      (split; [repeat constructor|reflexivity]).
  - intros [= <-]. split; [apply cleanParts_cleaned|apply cleanParts_idempotent].
  - destruct (assoc (js "parts") fields) as [p|];
      [|intros [= <-]; split; [constructor|reflexivity]].
    destruct (truthy p); [|intros [= <-]; split; [constructor|reflexivity]].
    destruct p; try discriminate.
    intros [= <-]. split; [apply cleanParts_cleaned|apply cleanParts_idempotent].
Qed.

(** ** Texts that are kept *)

Lemma notBlank_app (s rest : jsstring) :
  notBlank s = true -> notBlank (s ++ rest) = true.
Proof.
  unfold notBlank. intros Hs.
  destruct (trim (s ++ rest)) eqn:E; [|reflexivity]. exfalso.
  apply trim_nil_iff in E. rewrite forallb_app in E.
  apply andb_prop in E as [E _]. apply trim_nil_iff in E.
  rewrite E in Hs. discriminate.
Qed.

Lemma join_notBlank (sep : jsstring) (texts : list jsstring) :
  texts <> [] ->
  Forall (fun s => notBlank s = true) texts ->
  notBlank (join sep texts) = true.
Proof.
  intros Hne Hall. destruct Hall as [|s rest Hs Hrest]; [congruence|].
  cbn [join]. destruct rest; [exact Hs|now apply notBlank_app].
Qed.

Lemma keptTexts_notBlank (parts : list JSON) (texts : list jsstring) :
  keptTexts parts = Ok texts -> Forall (fun s => notBlank s = true) texts.
Proof.
  revert texts. induction parts as [|p parts IH]; intros texts;
    cbn [keptTexts]; [intros [= <-]; constructor|].
  destruct (textOr p); try discriminate.
  destruct (keptTexts parts) as [rest|]; [|discriminate].
  specialize (IH rest eq_refl).
  destruct (nonEmpty (trim s)) eqn:E; intros [= <-]; [|exact IH].
  now constructor.
Qed.

Lemma textOr_textPart (s : jsstring) : textOr (textPart s) = JStr s.
Proof.
  unfold textOr, textPart. cbn [prop assoc].
  rewrite JsStringFacts.eqb_refl. now destruct s.
Qed.

(** A merged text read again is itself. *)
Lemma keptTexts_merged (parts : list JSON) (texts : list jsstring) :
  keptTexts parts = Ok texts ->
  exists again,
    keptTexts [textPart (join PARAGRAPH texts)] = Ok again /\
    join PARAGRAPH again = join PARAGRAPH texts.
Proof.
  intros H. cbn [keptTexts]. rewrite textOr_textPart.
  destruct texts as [|s rest].
  - exists []. split; reflexivity.
  - assert (Hm : notBlank (join PARAGRAPH (s :: rest)) = true).
    { apply join_notBlank; [discriminate|]. exact (keptTexts_notBlank _ H). }
    unfold notBlank in Hm. rewrite Hm.
    exists [join PARAGRAPH (s :: rest)]. split; reflexivity.
Qed.

Lemma promptPart_nil (prompt : jsvalue) :
  promptPart prompt = Ok [] <-> blankString prompt = true.
Proof.
  unfold promptPart, blankString, notBlank.
  destruct prompt as [[|b|bits|s|items|fields]|]; try (split; discriminate).
  destruct (nonEmpty (trim s)); split; try discriminate; reflexivity.
Qed.

Section Config.

Variable officialSystemPrompt : jsvalue.
Variable systemInstruction : jsvalue.
Variable useContextSystemPrompt : bool.
Variable officialPromptPosition : jsvalue.

#[local] Abbreviation buildSystemPromptParts :=
  (SystemPrompt.buildSystemPromptParts officialSystemPrompt systemInstruction
     useContextSystemPrompt officialPromptPosition).
#[local] Abbreviation buildSystemInstruction merge :=
  (SystemPrompt.buildSystemInstruction officialSystemPrompt systemInstruction
     useContextSystemPrompt merge officialPromptPosition).
#[local] Abbreviation mergeSystemInstruction merge :=
  (SystemPrompt.mergeSystemInstruction officialSystemPrompt systemInstruction
     useContextSystemPrompt merge officialPromptPosition).

Lemma buildSystemPromptParts_nil (userSystemPrompt : jsvalue) :
  buildSystemPromptParts userSystemPrompt = Ok [] <->
  exists userParts,
    userPartsOf userSystemPrompt = Ok userParts /\
    blankString officialSystemPrompt = true /\
    blankString systemInstruction = true /\
    (useContextSystemPrompt = false \/ userParts = []).
Proof.
  unfold SystemPrompt.buildSystemPromptParts.
  destruct (userPartsOf userSystemPrompt) as [userParts|];
    [|split; [discriminate|intros (u & H & _); discriminate]].
  destruct (promptPart systemInstruction) as [proxy|] eqn:Hs;
    [|split; [discriminate|];
      intros (u & _ & _ & H & _); apply promptPart_nil in H; congruence].
  destruct (promptPart officialSystemPrompt) as [official|] eqn:Ho;
    [|split; [discriminate|];
      intros (u & _ & H & _); apply promptPart_nil in H; congruence].
  split.
  - intros H. exists userParts. split; [reflexivity|].
    assert (Hnil : official = [] /\ proxy = []
                   /\ (if useContextSystemPrompt
                          && match userParts with [] => false | _ :: _ => true end
                       then userParts else []) = []).
    { destruct (isBefore officialPromptPosition); injection H as H;
        apply app_eq_nil in H as [H1 H2];
        [apply app_eq_nil in H2 as [H2 H3]|apply app_eq_nil in H1 as [H1 H3]];
        now repeat split. }
    destruct Hnil as (-> & -> & Huser).
    split; [now apply promptPart_nil|]. split; [now apply promptPart_nil|].
    destruct useContextSystemPrompt; [right|now left].
    destruct userParts; [reflexivity|discriminate].
  - intros (u & [= <-] & Hob & Hsb & Hctx).
    apply promptPart_nil in Hob, Hsb. rewrite Ho in Hob. rewrite Hs in Hsb.
    injection Hob as ->. injection Hsb as ->.
    assert (Huser : (if useContextSystemPrompt
                        && match userParts with [] => false | _ :: _ => true end
                     then userParts else []) = []).
    { destruct Hctx as [->| ->]; [reflexivity|].
      now rewrite andb_false_r. }
    rewrite Huser. now destruct (isBefore _).
Qed.

Lemma buildSystemInstruction_parts (mergeSystemPrompt : bool)
                                   (userSystemPrompt : jsvalue)
                                   (instruction : SystemInstruction) :
  buildSystemInstruction mergeSystemPrompt userSystemPrompt
  = Ok (Some instruction) ->
  si_parts instruction <> [].
Proof.
  unfold SystemPrompt.buildSystemInstruction.
  destruct (buildSystemPromptParts userSystemPrompt) as [[|p parts]|];
    try discriminate.
  destruct mergeSystemPrompt.
  - destruct (keptTexts (p :: parts)); [|discriminate].
    intros [= <-]. discriminate.
  - intros [= <-]. discriminate.
Qed.

(** X16. No system instruction is sent ([null]) exactly when there is
    nothing to say: both prompts of the configuration are strings of white
    space only (or empty) and the client's prompt gives no part or is not
    used; a system instruction that is sent holds at least one part. *)
Theorem system_instruction_absent_iff
    (mergeSystemPrompt : bool) (userSystemPrompt : jsvalue) :
  (buildSystemInstruction mergeSystemPrompt userSystemPrompt = Ok None <->
   exists userParts,
     userPartsOf userSystemPrompt = Ok userParts /\
     blankString officialSystemPrompt = true /\
     blankString systemInstruction = true /\
     (useContextSystemPrompt = false \/ userParts = []))
  /\
  (forall instruction,
     buildSystemInstruction mergeSystemPrompt userSystemPrompt
     = Ok (Some instruction) ->
     si_parts instruction <> []).
Proof.
  split.
  - rewrite <- buildSystemPromptParts_nil.
    unfold SystemPrompt.buildSystemInstruction.
    destruct (buildSystemPromptParts userSystemPrompt) as [[|p parts]|];
      [tauto| |split; discriminate].
    destruct mergeSystemPrompt; [|split; discriminate].
    destruct (keptTexts (p :: parts)); split; discriminate.
  - apply buildSystemInstruction_parts.
Qed.

(** X17. The text [mergeSystemInstruction] returns, or the [TypeError] it
    throws, does not depend on [config.mergeSystemPrompt]: a merged
    instruction read again gives the merged text. *)
Theorem merged_text_independent_of_merge_setting
    (baseSystem contextSystem : jsvalue) :
  mergeSystemInstruction true baseSystem contextSystem
  = mergeSystemInstruction false baseSystem contextSystem.
Proof.
  unfold SystemPrompt.mergeSystemInstruction, SystemPrompt.buildSystemInstruction.
  destruct (buildSystemPromptParts contextSystem) as [[|p parts]|];
    try reflexivity.
  cbn [si_parts].
  destruct (keptTexts (p :: parts)) as [texts|] eqn:E; [|reflexivity].
  cbn [si_parts].
  destruct (keptTexts_merged _ E) as (again & -> & ->). reflexivity.
Qed.

(** X19. The base system text is used only when there is no instruction at
    all: whenever [buildSystemInstruction] gives one, the result of
    [mergeSystemInstruction] is the same for every [baseSystem]. *)
Theorem base_system_only_without_instruction
    (mergeSystemPrompt : bool) (baseSystem1 baseSystem2 contextSystem : jsvalue) :
  buildSystemInstruction mergeSystemPrompt contextSystem <> Ok None ->
  mergeSystemInstruction mergeSystemPrompt baseSystem1 contextSystem
  = mergeSystemInstruction mergeSystemPrompt baseSystem2 contextSystem.
Proof.
  intros Hsome. unfold SystemPrompt.mergeSystemInstruction.
  destruct (buildSystemInstruction mergeSystemPrompt contextSystem)
    as [[instruction|]|] eqn:E; [|congruence|reflexivity].
  pose proof (buildSystemInstruction_parts _ _ E) as Hparts.
  now destruct (si_parts instruction).
Qed.

End Config.

(** X18. With [useContextSystemPrompt] off the client's system prompt never
    reaches the backend: the instruction is the one built without any
    prompt, unless the prompt is malformed ([parts] that is no array), in
    which case the [TypeError] is thrown all the same. *)
Theorem context_prompt_off_is_ignored
    (officialSystemPrompt systemInstruction : jsvalue)
    (mergeSystemPrompt : bool) (officialPromptPosition : jsvalue)
    (userSystemPrompt : jsvalue) :
  buildSystemInstruction officialSystemPrompt systemInstruction false
    mergeSystemPrompt officialPromptPosition userSystemPrompt
  = match userPartsOf userSystemPrompt with
    | Ok _ =>
        buildSystemInstruction officialSystemPrompt systemInstruction false
          mergeSystemPrompt officialPromptPosition None
    | TypeError => TypeError
    end.
Proof.
  unfold buildSystemInstruction, buildSystemPromptParts.
  destruct (userPartsOf userSystemPrompt); reflexivity.
Qed.

Lemma user_parts_are_cleaned_witness :
  userPartsOf (Some blockPrompt) = Ok [textPart (js "be brief"); JStr (js "x")]
  /\
  (Forall (fun p => cleaned p = true) [textPart (js "be brief"); JStr (js "x")]
   /\ cleanParts [textPart (js "be brief"); JStr (js "x")]
      = [textPart (js "be brief"); JStr (js "x")]).
Proof.
  assert (H : userPartsOf (Some blockPrompt)
              = Ok [textPart (js "be brief"); JStr (js "x")])
    by (vm_compute; reflexivity).
  split; [exact H|].
  apply (@user_parts_are_cleaned (Some blockPrompt)
           [textPart (js "be brief"); JStr (js "x")] H).
Defined.

Lemma base_system_only_without_instruction_witness :
  buildSystemInstruction noPrompt proxyPrompt true false BEFORE (Some blockPrompt)
  <> Ok None
  /\
  mergeSystemInstruction noPrompt proxyPrompt true false BEFORE
    (Some (JStr (js "base"))) (Some blockPrompt)
  = mergeSystemInstruction noPrompt proxyPrompt true false BEFORE
      None (Some blockPrompt).
Proof.
  assert (H : buildSystemInstruction noPrompt proxyPrompt true false BEFORE
                (Some blockPrompt) <> Ok None)
    by (vm_compute; discriminate).
  split; [exact H|].
  apply (@base_system_only_without_instruction noPrompt proxyPrompt true BEFORE false
           (Some (JStr (js "base"))) None (Some blockPrompt) H).
Defined.

(** The block prompt after the proxy prompt, merged: the bare string has no
    text and adds nothing. *)
Example merged_instruction_evaluated :
  buildSystemInstruction noPrompt proxyPrompt true true BEFORE (Some blockPrompt)
  = Ok (Some {| si_parts :=
                  [textPart (js "You are helpful." ++ PARAGRAPH ++ js "be brief")] |}).
Proof. vm_compute. reflexivity. Qed.

(** A [parts] that is no array throws, also when the prompt is not used. *)
Example broken_prompt_throws :
  buildSystemInstruction noPrompt proxyPrompt false false BEFORE (Some brokenPrompt)
  = TypeError.
Proof. vm_compute. reflexivity. Qed.

(** A text that is a number passes unmerged and throws when merged. *)
Example number_text_throws_when_merged :
  buildSystemInstruction noPrompt proxyPrompt true false BEFORE (Some numberPrompt)
  = Ok (Some {| si_parts := [textPart (js "You are helpful.");
                             JObj [(js "text", JNum 4617315517961601024)]] |})
  /\
  buildSystemInstruction noPrompt proxyPrompt true true BEFORE (Some numberPrompt)
  = TypeError.
Proof. vm_compute. split; reflexivity. Qed.

(** A configuration that holds no official prompt at all: reading its
    [trim] throws, whatever the client sends. *)
Example missing_official_prompt_throws :
  buildSystemInstruction None proxyPrompt true false BEFORE (Some blockPrompt)
  = TypeError
  /\
  buildSystemInstruction None proxyPrompt false false None None = TypeError.
Proof. vm_compute. split; reflexivity. Qed.

End SystemPromptFacts.

(* ================================================================== *)
(** * Properties of search results and citations *)
(* ================================================================== *)

Module WebSearchFacts.

Import Builder Grounding WebSearch Inputs MoreInputs.

Lemma hasGroundingData_object (fields : list (jsstring * JSON)) :
  hasGroundingData (Some (JObj fields))
  = match assoc (js "groundingMetadata") fields with
    | Some m =>
        truthy m && typeofObject m
        && (isNonEmptyArray (prop m (js "webSearchQueries"))
            || isNonEmptyArray (prop m (js "groundingChunks"))
            || isNonEmptyArray (prop m (js "groundingSupports")))
    | None => false
    end
    || isNonEmptyArray (assoc (js "groundingChunks") fields)
    || isNonEmptyArray (assoc (js "groundingSupports") fields).
Proof.
  unfold hasGroundingData. cbn [truthy negb prop].
  destruct (match assoc (js "groundingMetadata") fields with
            | Some m => _
            | None => false
            end); [reflexivity|].
  destruct (isNonEmptyArray (assoc (js "groundingChunks") fields)); [reflexivity|].
  destruct (isNonEmptyArray (assoc (js "groundingSupports") fields)); reflexivity.
Qed.

(** Where a non-empty grounding array comes from. *)
Lemma groundingArray_source (candidate : jsvalue) (k : jsstring) :
  groundingArray candidate k <> [] ->
  exists fields,
    candidate = Some (JObj fields) /\
    (isNonEmptyArray (assoc k fields) = true
     \/ exists m,
          assoc (js "groundingMetadata") fields = Some (JObj m) /\
          isNonEmptyArray (assoc k m) = true).
Proof.
  unfold groundingArray, groundingMetadataOf.
  destruct candidate as [[|b|bits|s|items|fields]|];
    cbn [optProp prop arrayOr assoc];
    try (intros H; now contradiction H).
  intros H. exists fields. split; [reflexivity|].
  destruct (assoc k fields) as [[|b|bits|s|items|inner]|] eqn:Ek;
    try (destruct items; [congruence|now left]);
    right;
    (destruct (assoc (js "groundingMetadata") fields) as [m|];
     [|cbn [prop assoc arrayOr] in H; congruence];
     destruct (truthy m); [|cbn [prop assoc arrayOr] in H; congruence];
     destruct m as [|b'|bits'|s'|items'|m]; cbn [prop arrayOr] in H;
     try congruence;
     exists m; split; [reflexivity|];
     destruct (assoc k m) as [[| | | |[|x l]|]|]; cbn [arrayOr] in H;
     congruence || reflexivity).
Qed.

Section Encoding.

Variable stableEncryptedContent : JSON -> jsstring.

#[local] Abbreviation toWebSearchResults :=
  (WebSearch.toWebSearchResults stableEncryptedContent).
#[local] Abbreviation buildCitationsFromSupport :=
  (WebSearch.buildCitationsFromSupport stableEncryptedContent).
#[local] Abbreviation extractGroundingData :=
  (WebSearch.extractGroundingData stableEncryptedContent).

(** X20. What [extractGroundingData] finds, [hasGroundingData] announces:
    if the extracted query is not empty, or a result or a support is
    extracted, then [hasGroundingData] is true for the candidate. *)
Theorem extracted_data_is_announced (candidate : jsvalue) :
  query (extractGroundingData candidate) <> []
  \/ results (extractGroundingData candidate) <> []
  \/ supports (extractGroundingData candidate) <> [] ->
  hasGroundingData candidate = true.
Proof.
  unfold WebSearch.extractGroundingData. cbn [query results supports].
  intros [Hq|[Hr|Hs]].
  - unfold groundingMetadataOf in Hq.
    destruct candidate as [[|b|bits|s|items|fields]|]; cbn [optProp prop] in Hq;
      try (cbn [assoc] in Hq; congruence).
    rewrite hasGroundingData_object.
    destruct (assoc (js "groundingMetadata") fields) as [m|];
      [|cbn [prop assoc] in Hq; congruence].
    destruct (truthy m) eqn:Hm; [|cbn [prop assoc] in Hq; congruence].
    destruct m as [|b'|bits'|s'|items'|m]; cbn [prop] in Hq; try congruence.
    cbn [typeofObject prop andb].
    destruct (assoc (js "webSearchQueries") m) as [[| | | |[|x l]|]|];
      try congruence.
    reflexivity.
  - assert (Hc : groundingArray candidate (js "groundingChunks") <> []).
    { intros E. rewrite E in Hr. now apply Hr. }
    destruct (groundingArray_source _ _ Hc) as (fields & -> & [H|(m & Hm & H)]);
      rewrite hasGroundingData_object.
    + rewrite H. now rewrite orb_true_r.
    + rewrite Hm. cbn [truthy typeofObject prop andb]. rewrite H.
      now rewrite orb_true_r.
  - destruct (groundingArray_source _ _ Hs) as (fields & -> & [H|(m & Hm & H)]);
      rewrite hasGroundingData_object.
    + rewrite H. now rewrite orb_true_r.
    + rewrite Hm. cbn [truthy typeofObject prop andb]. rewrite H.
      now rewrite !orb_true_r.
Qed.

Lemma toWebSearchResults_usable (groundingChunks : list JSON) :
  Forall (fun r => nonEmpty (url r) || nonEmpty (title r) = true)
         (toWebSearchResults groundingChunks).
Proof.
  unfold WebSearch.toWebSearchResults. apply Forall_forall.
  intros r Hr. now apply filter_In in Hr.
Qed.

Lemma citationOf_source (results0 : list WebSearchResult) (cited : jsstring)
                        (idx : JSON) (c : Citation) :
  In c (citationOf stableEncryptedContent results0 cited idx) ->
  cited_text c = cited /\
  exists bits n r,
    idx = JNum bits /\ asIndex bits = Some n /\ nth_error results0 n = Some r /\
    In r results0 /\ cite_url c = url r /\ cite_title c = title r /\
    encrypted_index c
    = stableEncryptedContent
        (JObj [(js "url", JStr (url r)); (js "title", JStr (title r));
               (js "cited_text", JStr cited)]).
Proof.
  unfold citationOf. destruct idx; try contradiction.
  destruct (asIndex bits) as [n|] eqn:Eidx; [|contradiction].
  destruct (nth_error results0 n) as [r|] eqn:E; [|contradiction].
  intros [<-|[]]. split; [reflexivity|].
  exists bits, n, r.
  split; [reflexivity|]. split; [exact Eidx|]. split; [exact E|].
  split; [now apply nth_error_In in E|].
  split; [reflexivity|]. split; reflexivity.
Qed.

Lemma citationOf_length (results0 : list WebSearchResult) (cited : jsstring)
                        (indices : list JSON) :
  List.length (flat_map (citationOf stableEncryptedContent results0 cited) indices)
  <= List.length indices.
Proof.
  induction indices as [|idx indices IH]; [apply Nat.le_refl|].
  cbn [flat_map]. rewrite length_app. cbn [List.length].
  assert (List.length (citationOf stableEncryptedContent results0 cited idx) <= 1).
  { unfold citationOf. destruct idx; cbn; try lia.
    destruct (asIndex bits); cbn; try lia.
    destruct (nth_error results0 n); cbn; lia. }
  lia.
Qed.

(** X21. A citation never points outside the search results, and quotes
    the support: every citation built for a support carries, as its cited
    text, the segment text of that support, which is a string and not empty;
    it carries the address and title of the extracted result that stands at
    one of the support's chunk indices, a number that is an array index (so
    one of the two is not empty), and its encrypted index is computed from
    that address, that title and the cited text; there are at most as many
    citations as the support has chunk indices, and none when no result was
    extracted. *)
Theorem citations_point_to_results (candidate : jsvalue) (support : JSON) :
  let found := results (extractGroundingData candidate) in
  let citations := buildCitationsFromSupport found support in
  let indices := arrayOr (optProp (Some support) (js "groundingChunkIndices")) in
  Forall (fun c =>
            cited_text c <> [] /\
            optProp (optProp (Some support) (js "segment")) (js "text")
            = Some (JStr (cited_text c)) /\
            exists r, In r found /\ cite_url c = url r /\ cite_title c = title r /\
                      nonEmpty (url r) || nonEmpty (title r) = true /\
                      (exists bits n,
                         In (JNum bits) indices /\ asIndex bits = Some n /\
                         nth_error found n = Some r) /\
                      encrypted_index c
                      = stableEncryptedContent
                          (JObj [(js "url", JStr (url r));
                                 (js "title", JStr (title r));
                                 (js "cited_text", JStr (cited_text c))]))
         citations
  /\ List.length citations <= List.length indices
  /\ (found = [] -> citations = []).
Proof.
  intros found citations indices. subst citations indices.
  unfold WebSearch.buildCitationsFromSupport.
  destruct (optProp (optProp (Some support) (js "segment")) (js "text"))
    as [[|b|bits|[|ch rest]|items|fields]|];
    try (split; [constructor|split; [apply Nat.le_0_l|reflexivity]]).
  split; [|split].
  - apply Forall_forall. intros c Hc. apply in_flat_map in Hc as (idx & Hidx & Hc).
    destruct (citationOf_source _ _ _ _ Hc)
      as (Htext & bits & n & r & -> & Hn & Hnth & Hr & Hu & Ht & He).
    rewrite Htext.
    split; [discriminate|]. split; [reflexivity|].
    exists r. split; [exact Hr|]. split; [exact Hu|]. split; [exact Ht|].
    split.
    { pose proof (toWebSearchResults_usable
                    (groundingArray candidate (js "groundingChunks"))) as Hall.
      rewrite Forall_forall in Hall. apply Hall. exact Hr. }
    split; [|exact He].
    exists bits, n. split; [exact Hidx|]. split; [exact Hn|exact Hnth].
  - apply citationOf_length.
  - intros ->.
    induction (arrayOr (optProp (Some support) (js "groundingChunkIndices")))
      as [|idx indices IH]; [reflexivity|].
    cbn [flat_map]. rewrite IH, app_nil_r.
    unfold citationOf. destruct idx; try reflexivity.
    destruct (asIndex bits) as [n|]; [|reflexivity]. now destruct n.
Qed.

(** X22. When no chunk is dropped (every chunk has an address or a title),
    a chunk index cites the chunk at that index: the citation carries the
    address and the title of that very chunk. *)
Theorem citation_cites_the_indexed_chunk
    (groundingChunks : list JSON) (cited : jsstring) (bits : N) (n : nat)
    (chunk : JSON) :
  Forall (fun ch =>
            nonEmpty (url (resultOfChunk stableEncryptedContent ch))
            || nonEmpty (title (resultOfChunk stableEncryptedContent ch)) = true)
         groundingChunks ->
  asIndex bits = Some n ->
  nth_error groundingChunks n = Some chunk ->
  map (fun c => (cited_text c, cite_url c, cite_title c))
      (citationOf stableEncryptedContent (toWebSearchResults groundingChunks)
                  cited (JNum bits))
  = [(cited, url (resultOfChunk stableEncryptedContent chunk),
      title (resultOfChunk stableEncryptedContent chunk))].
Proof.
  intros Hall Hidx Hnth. unfold citationOf, WebSearch.toWebSearchResults.
  rewrite Hidx.
  assert (Hkeep : filter (fun r => nonEmpty (url r) || nonEmpty (title r))
                         (map (resultOfChunk stableEncryptedContent) groundingChunks)
                  = map (resultOfChunk stableEncryptedContent) groundingChunks).
  { clear Hnth. induction Hall as [|ch l Hch _ IH]; [reflexivity|].
    cbn [map filter]. now rewrite Hch, IH. }
  rewrite Hkeep, nth_error_map, Hnth. reflexivity.
Qed.

End Encoding.

Lemma extracted_data_is_announced_witness :
  (query (extractGroundingData firstField (Some groundedCandidate)) <> []
   \/ results (extractGroundingData firstField (Some groundedCandidate)) <> []
   \/ supports (extractGroundingData firstField (Some groundedCandidate)) <> [])
  /\ hasGroundingData (Some groundedCandidate) = true.
Proof.
  assert (H : query (extractGroundingData firstField (Some groundedCandidate)) <> []
              \/ results (extractGroundingData firstField (Some groundedCandidate))
                 <> []
              \/ supports (extractGroundingData firstField (Some groundedCandidate))
                 <> [])
    by (left; vm_compute; discriminate).
  split; [exact H|].
  apply (@extracted_data_is_announced firstField (Some groundedCandidate) H).
Defined.

Lemma citation_cites_the_indexed_chunk_witness :
  (Forall (fun ch =>
             nonEmpty (url (resultOfChunk firstField ch))
             || nonEmpty (title (resultOfChunk firstField ch)) = true)
          [rocqChunk]
   /\ asIndex 0 = Some 0
   /\ nth_error [rocqChunk] 0 = Some rocqChunk)
  /\
  map (fun c => (cited_text c, cite_url c, cite_title c))
      (citationOf firstField (toWebSearchResults firstField [rocqChunk])
                  (js "a prover") (JNum 0))
  = [(js "a prover", url (resultOfChunk firstField rocqChunk),
      title (resultOfChunk firstField rocqChunk))].
Proof.
  assert (Hall : Forall (fun ch =>
                           nonEmpty (url (resultOfChunk firstField ch))
                           || nonEmpty (title (resultOfChunk firstField ch)) = true)
                        [rocqChunk])
    by (constructor; [vm_compute; reflexivity|constructor]).
  split; [split; [exact Hall|split; reflexivity]|].
  apply (@citation_cites_the_indexed_chunk firstField [rocqChunk] (js "a prover")
           0%N 0 rocqChunk Hall eq_refl eq_refl).
Defined.

(** The grounded candidate, evaluated: the chunk without address and title
    is dropped, and of the four indices only 0 gives a citation (1 now
    points past the results, 7 never existed, 0.5 is no index). *)
Example grounded_candidate_evaluated :
  let d := extractGroundingData firstField (Some groundedCandidate) in
  query d = js "rocq"
  /\ map (fun r => (url r, title r)) (results d)
     = [(js "https://rocq-prover.org", js "Rocq")]
  /\ map (fun c => (cited_text c, cite_url c))
         (flat_map (buildCitationsFromSupport firstField (results d)) (supports d))
     = [(js "a prover", js "https://rocq-prover.org")].
Proof. vm_compute. repeat split. Qed.

(** When a chunk is dropped the indices after it shift: with the chunk
    without address first, index 0 cites the chunk that was second. *)
Example dropped_chunk_shifts_indices :
  map (fun c => cite_url c)
      (citationOf firstField (toWebSearchResults firstField [emptyChunk; rocqChunk])
                  (js "a prover") (JNum 0))
  = [js "https://rocq-prover.org"]
  /\
  citationOf firstField (toWebSearchResults firstField [emptyChunk; rocqChunk])
             (js "a prover") (JNum 4607182418800017408)
  = [].
Proof. vm_compute. split; reflexivity. Qed.

End WebSearchFacts.

(* ================================================================== *)
(** * Properties of the streamed web-search blocks *)
(* ================================================================== *)

Module ClaudeStreamFacts.

Import Builder WebSearch ClaudeStream Inputs MoreInputs.

Lemma scan_app (inside : bool) (index : N) (a b : list SseEvent) :
  scan inside index (a ++ b)
  = match scan inside index a with
    | Some (inside', index') => scan inside' index' b
    | None => None
    end.
Proof.
  revert inside index. induction a as [|ev a IH]; intros inside index;
    [reflexivity|].
  cbn [app scan]. destruct ev;
    [destruct (negb inside && _)|destruct (inside && _)..]; auto.
Qed.

Lemma reached_refl (s : StreamingState) : reached s s false 0.
Proof.
  exists []. rewrite app_nil_r. cbn [scan N.of_nat].
  now rewrite N.add_0_r.
Qed.

Lemma reached_start (s0 s : StreamingState) (k : nat) (b : ContentBlock) :
  reached s0 s false k ->
  reached s0 (emitEvent (fun i => content_block_start i b) s) true k.
Proof.
  intros (evs & Hsent & Hscan & Hindex & Hws).
  exists (evs ++ [content_block_start (contentIndex s) b]).
  cbn [emitEvent sent contentIndex webSearch].
  rewrite Hsent, app_assoc, scan_app, Hscan. cbn [scan negb andb].
  now rewrite N.eqb_refl.
Qed.

Lemma reached_delta (s0 s : StreamingState) (k : nat) (d : Delta) :
  reached s0 s true k ->
  reached s0 (emitEvent (fun i => content_block_delta i d) s) true k.
Proof.
  intros (evs & Hsent & Hscan & Hindex & Hws).
  exists (evs ++ [content_block_delta (contentIndex s) d]).
  cbn [emitEvent sent contentIndex webSearch].
  rewrite Hsent, app_assoc, scan_app, Hscan. cbn [scan andb].
  now rewrite N.eqb_refl.
Qed.

Lemma reached_stop (s0 s : StreamingState) (k : nat) :
  reached s0 s true k ->
  reached s0 (nextIndex (emitEvent content_block_stop s)) false (S k).
Proof.
  intros (evs & Hsent & Hscan & Hindex & Hws).
  exists (evs ++ [content_block_stop (contentIndex s)]).
  cbn [nextIndex emitEvent sent contentIndex webSearch].
  rewrite Hsent, app_assoc, scan_app, Hscan. cbn [scan andb].
  rewrite N.eqb_refl. repeat split; [|exact Hws]. lia.
Qed.

Section Emitter.

Variable stableEncryptedContent : JSON -> jsstring.
Variable JSON_stringify : JSON -> jsstring.
Variable makeSrvToolUseId : jsstring.

#[local] Abbreviation emitCitations :=
  (ClaudeStream.emitCitations stableEncryptedContent).
#[local] Abbreviation emitWebSearchBlocks :=
  (ClaudeStream.emitWebSearchBlocks stableEncryptedContent JSON_stringify
     makeSrvToolUseId).

Lemma emitCitations_reached (results0 : list WebSearchResult)
                            (s0 s : StreamingState) (k : nat) (support : JSON) :
  reached s0 s false k ->
  reached s0 (emitCitations results0 s support) false
          (k + List.length (citedSupports stableEncryptedContent results0 [support])).
Proof.
  intros H. unfold ClaudeStream.emitCitations, citedSupports. cbn [filter].
  destruct (buildCitationsFromSupport stableEncryptedContent results0 support)
    as [|c citations]; cbn [List.length]; [now rewrite Nat.add_0_r|].
  rewrite Nat.add_1_r. apply reached_stop.
  apply (reached_start (text_block true)) in H. revert H.
  generalize (emitEvent (fun i => content_block_start i (text_block true)) s).
  induction (c :: citations) as [|citation rest IH]; intros s1 H; [exact H|].
  cbn [fold_left]. apply IH. now apply reached_delta.
Qed.

Lemma emitCitations_fold_reached (results0 : list WebSearchResult)
                                 (supports0 : list JSON)
                                 (s0 s : StreamingState) (k : nat) :
  reached s0 s false k ->
  reached s0 (fold_left (emitCitations results0) supports0 s) false
          (k + List.length (citedSupports stableEncryptedContent results0 supports0)).
Proof.
  revert s k. induction supports0 as [|support rest IH]; intros s k H.
  - cbn [fold_left]. unfold citedSupports. cbn [filter List.length].
    now rewrite Nat.add_0_r.
  - cbn [fold_left].
    apply (emitCitations_reached results0 support) in H.
    apply IH in H.
    replace (k + List.length (citedSupports stableEncryptedContent results0
                                (support :: rest)))
      with (k + List.length (citedSupports stableEncryptedContent results0 [support])
            + List.length (citedSupports stableEncryptedContent results0 rest));
      [exact H|].
    unfold citedSupports. cbn [filter].
    destruct (buildCitationsFromSupport stableEncryptedContent results0 support);
      cbn [List.length]; lia.
Qed.

Lemma emitText_fold_reached (texts : list JSON) (s0 s : StreamingState) (k : nat) :
  reached s0 s true k ->
  reached s0 (fold_left emitText texts s) true k.
Proof.
  revert s. induction texts as [|text rest IH]; intros s H; [exact H|].
  cbn [fold_left]. apply IH. unfold emitText.
  destruct (truthy text); [now apply reached_delta|exact H].
Qed.

Lemma emitWebSearchBlocks_reached (s : StreamingState) :
  exists s' k,
    emitWebSearchBlocks (Some s) = Some s' /\
    reached (setToolUseId (orDefault (toolUseId (webSearch s)) makeSrvToolUseId) s)
            s' false k /\
    k = 3 + List.length
              (citedSupports stableEncryptedContent
                 match ws_results (webSearch s) with Some l => l | None => [] end
                 match ws_supports (webSearch s) with Some l => l | None => [] end).
Proof.
  unfold ClaudeStream.emitWebSearchBlocks.
  eexists _, _. split; [reflexivity|]. split.
  - apply reached_stop, emitText_fold_reached, reached_start,
      emitCitations_fold_reached, reached_stop, reached_start, reached_stop,
      reached_delta, reached_start, reached_refl.
  - reflexivity.
Qed.

(** X23. The events of [emitWebSearchBlocks] are whole blocks with
    consecutive indices: read from [state.contentIndex], every block is a
    start, its deltas and a stop with one and the same index, the indices go
    up by one, and [state.contentIndex] ends at the index after the last
    block, which is the first index plus 3 plus the number of supports that
    give a citation; the tool-use id is kept if there is one and is stored
    in the state. *)
Theorem web_search_blocks_are_whole (s : StreamingState) :
  exists s' evs,
    emitWebSearchBlocks (Some s) = Some s' /\
    sent s' = sent s ++ evs /\
    blocksFrom (contentIndex s) evs = Some (contentIndex s') /\
    contentIndex s'
    = (contentIndex s + 3
       + N.of_nat
           (List.length
              (citedSupports stableEncryptedContent
                 match ws_results (webSearch s) with Some l => l | None => [] end
                 match ws_supports (webSearch s) with Some l => l | None => [] end)))%N
    /\
    toolUseId (webSearch s')
    = Some (orDefault (toolUseId (webSearch s)) makeSrvToolUseId).
Proof.
  destruct (emitWebSearchBlocks_reached s)
    as (s' & k & Hs' & (evs & Hsent & Hscan & Hindex & Hws) & ->).
  cbn [setToolUseId sent contentIndex] in Hsent, Hscan, Hindex.
  exists s', evs. split; [exact Hs'|]. split; [exact Hsent|].
  split; [|split].
  - unfold blocksFrom. now rewrite Hscan.
  - rewrite Hindex. lia.
  - now rewrite Hws.
Qed.

End Emitter.

(** The search state, evaluated: four blocks, with indices 2 to 5. *)
Example search_state_evaluated :
  option_map (fun s => (contentIndex s, map isStart (sent s)))
    (emitWebSearchBlocks firstField firstField (js "srvtoolu_1") (Some searchState))
  = Some (6%N, [true; false; false; true; false; true; false; false;
                true; false; false; false]).
Proof. vm_compute. reflexivity. Qed.

End ClaudeStreamFacts.

(* ================================================================== *)
(** * The whole-body reply and the stream *)
(* ================================================================== *)

Module NoStreamFacts.

Import Stream NoStream Inputs MoreInputs.

Lemma textOf_app (toText : JSON -> jsstring) (a b : list Event) :
  textOf toText (a ++ b) = textOf toText a ++ textOf toText b.
Proof. apply flat_map_app. Qed.

Section Parser.

Variable JSON_stringify : JSON -> jsstring.
Variable generateToolCallId : nat -> jsstring.
Variable toText : JSON -> jsstring.
Variable dataUrl : jsvalue -> jsvalue -> jsstring.

#[local] Abbreviation convertToToolCall :=
  (Stream.convertToToolCall JSON_stringify generateToolCallId).
#[local] Abbreviation dispatchPart :=
  (Stream.dispatchPart JSON_stringify generateToolCallId).
#[local] Abbreviation handlePart :=
  (Stream.handlePart JSON_stringify generateToolCallId).
#[local] Abbreviation loopOverParts :=
  (Stream.loopOverParts JSON_stringify generateToolCallId).
#[local] Abbreviation absorbPart :=
  (NoStream.absorbPart JSON_stringify generateToolCallId toText dataUrl).
#[local] Abbreviation absorb :=
  (NoStream.absorb JSON_stringify generateToolCallId toText dataUrl).
#[local] Abbreviation parseReply :=
  (NoStream.parseReply JSON_stringify generateToolCallId toText dataUrl).

(** How two runs stand to each other: the whole-body loop went from [acc]
    to [acc'], the streaming loop from [ws] to [ws'], and both added the
    same tool calls and the same text. *)
#[local] Abbreviation together acc acc' ws ws' :=
  (exists calls text,
      NoStream.toolCalls acc' = NoStream.toolCalls acc ++ calls /\
      Stream.toolCalls (state ws') = Stream.toolCalls (state ws) ++ calls /\
      content acc' = content acc ++ text /\
      textOf toText (emitted ws') = textOf toText (emitted ws) ++ text).

(** The id of a call depends on the number of ids issued only. *)
Lemma convertToToolCall_same_ids (fc : JSON) (wa ws : World) :
  idsIssued wa = idsIssued ws ->
  exists tc n,
    convertToToolCall fc wa
    = Normal tc {| state := state wa; emitted := emitted wa; idsIssued := n |} /\
    convertToToolCall fc ws
    = Normal tc {| state := state ws; emitted := emitted ws; idsIssued := n |}.
Proof.
  intros Hids. unfold Stream.convertToToolCall, bind, freshToolCallId, ret.
  destruct wa as [sta evsa na], ws as [sts evss ns]. cbn [idsIssued] in Hids.
  subst ns. cbn [state emitted idsIssued].
  destruct (prop fc (js "id")) as [v|]; [destruct (truthy v)|];
    eexists; eexists; split; reflexivity.
Qed.

Lemma absorbPart_agrees (part : JSON) (acc : Parsed) (wa ws : World) :
  idsIssued wa = idsIssued ws ->
  exists acc' wa' ws',
    absorbPart acc part wa = Normal acc' wa' /\
    dispatchPart part ws = Normal tt ws' /\
    idsIssued wa' = idsIssued ws' /\
    together acc acc' ws ws'.
Proof.
  intros Hids. unfold NoStream.absorbPart, Stream.dispatchPart.
  assert (Hsame : forall acc0,
             NoStream.toolCalls acc0 = NoStream.toolCalls acc ->
             content acc0 = content acc ->
             exists acc' wa' ws',
               ret acc0 wa = Normal acc' wa' /\
               ret tt ws = Normal tt ws' /\
               idsIssued wa' = idsIssued ws' /\
               together acc acc' ws ws').
  { intros acc0 Hcalls Htext. exists acc0, wa, ws. repeat split; [exact Hids|].
    exists [], []. now rewrite !app_nil_r. }
  assert (Hthought : forall t,
             exists acc' wa' ws',
               ret {| content := content acc;
                      thinkingContent := thinkingContent acc ++ t;
                      toolCalls := NoStream.toolCalls acc;
                      imageContents := imageContents acc |} wa
               = Normal acc' wa' /\
               (st <- getState ;;
                when (negb (thinkingStarted st))
                     (callback (Thinking Stream.THINK_OPEN) ;;;
                      setThinkingStarted true) ;;;
                callback (Thinking match prop part (js "text") with
                                   | Some t => if truthy t then t else JStr []
                                   | None => JStr []
                                   end)) ws
               = Normal tt ws' /\
               idsIssued wa' = idsIssued ws' /\
               together acc acc' ws ws').
  { intros t. destruct ws as [[started calls] evs n].
    destruct started; (do 3 eexists); (split; [reflexivity|]);
      (split; [reflexivity|]); (split; [exact Hids|]);
      exists [], []; cbn [state emitted Stream.toolCalls NoStream.toolCalls content];
      rewrite !app_nil_r, ?textOf_app; cbn [textOf flat_map];
      now rewrite ?app_nil_r. }
  destruct (prop part (js "thought")) as [[|[|]| | | |]|];
    try apply Hthought;
    (destruct (prop part (js "text")) as [t|];
     [|destruct (prop part (js "functionCall")) as [fc|];
       [destruct (truthy fc) eqn:Hfc|]]).
  all: try (apply Hsame; unfold absorbImage;
            repeat match goal with
                   | |- context [match ?x with _ => _ end] => destruct x
                   end; reflexivity).
  all: try (destruct ws as [[started calls] evs n];
            destruct started; (do 3 eexists); (split; [reflexivity|]);
            (split; [reflexivity|]); (split; [exact Hids|]);
            exists [], (toText t);
            cbn [state emitted Stream.toolCalls NoStream.toolCalls content];
            rewrite !app_nil_r, ?textOf_app; cbn [textOf flat_map];
            now rewrite ?app_nil_r).
  all: cbn [when]; unfold bind;
    destruct (convertToToolCall_same_ids fc wa ws Hids) as (tc & n & -> & ->);
    (do 3 eexists); (split; [reflexivity|]); (split; [reflexivity|]);
    (split; [reflexivity|]);
    exists [tc], [];
    cbn [state emitted Stream.toolCalls NoStream.toolCalls content];
    now rewrite !app_nil_r.
Qed.

Lemma absorb_agrees (items : list JSON) (acc : Parsed) (wa ws : World) :
  idsIssued wa = idsIssued ws ->
  match absorb items acc wa, forEach items handlePart ws with
  | Normal acc' wa', Normal _ ws' =>
      idsIssued wa' = idsIssued ws' /\ together acc acc' ws ws'
  | Thrown _, Thrown _ => True
  | _, _ => False
  end.
Proof.
  revert acc wa ws. induction items as [|part rest IH]; intros acc wa ws Hids.
  - cbn [NoStream.absorb forEach]. unfold ret. split; [exact Hids|].
    exists [], []. now rewrite !app_nil_r.
  - assert (Hstep :
      match (acc' <- absorbPart acc part ;; absorb rest acc') wa,
            (dispatchPart part ;;; forEach rest handlePart) ws with
      | Normal acc' wa', Normal _ ws' =>
          idsIssued wa' = idsIssued ws' /\ together acc acc' ws ws'
      | Thrown _, Thrown _ => True
      | _, _ => False
      end).
    { unfold bind.
      destruct (absorbPart_agrees part acc wa ws Hids)
        as (acc1 & wa1 & ws1 & -> & -> & Hids1 & calls1 & text1 & Ha & Hs & Hc & Ht).
      specialize (IH acc1 wa1 ws1 Hids1).
      destruct (absorb rest acc1 wa1) as [acc2 wa2|wa2],
               (forEach rest handlePart ws1) as [[] ws2|ws2]; try exact IH.
      destruct IH as (Hids2 & calls2 & text2 & Ha2 & Hs2 & Hc2 & Ht2).
      split; [exact Hids2|]. exists (calls1 ++ calls2), (text1 ++ text2).
      rewrite Ha2, Hs2, Hc2, Ht2, Ha, Hs, Hc, Ht. now rewrite !app_assoc. }
    destruct part; [exact I|exact Hstep..].
Qed.

Lemma finish_toolCalls (acc : Parsed) :
  reply_toolCalls (finish acc) = NoStream.toolCalls acc.
Proof. unfold finish. now destruct (imageContents acc). Qed.

(** X24. The whole-body reply and the stream agree on an envelope: from
    the same state, [generateAssistantResponseNoStream] throws on the parts
    exactly when the streaming loop does; otherwise it returns the tool
    calls the streaming loop buffers, in the same order and with the same
    ids, as many ids are issued, and the text both make of the text parts
    is the same. *)
Theorem whole_body_agrees_with_stream (data : JSON) (w : World) :
  data <> JNull ->
  match parseReply data w, loopOverParts data w with
  | Normal reply wa, Normal _ ws =>
      idsIssued wa = idsIssued ws /\
      Stream.toolCalls (state ws)
      = Stream.toolCalls (state w) ++ reply_toolCalls reply /\
      exists acc,
        reply = finish acc /\
        textOf toText (emitted ws) = textOf toText (emitted w) ++ content acc
  | Thrown _, Thrown _ => True
  | _, _ => False
  end.
Proof.
  intros Hdata.
  assert (Hnone : match ret (A := Reply) (finish nothing) w, ret tt w with
                  | Normal reply wa, Normal _ ws =>
                      idsIssued wa = idsIssued ws /\
                      Stream.toolCalls (state ws)
                      = Stream.toolCalls (state w) ++ reply_toolCalls reply /\
                      exists acc,
                        reply = finish acc /\
                        textOf toText (emitted ws)
                        = textOf toText (emitted w) ++ content acc
                  | Thrown _, Thrown _ => True
                  | _, _ => False
                  end).
  { unfold ret. split; [reflexivity|]. split; [now rewrite app_nil_r|].
    exists nothing. split; [reflexivity|]. now rewrite app_nil_r. }
  unfold NoStream.parseReply, Stream.loopOverParts.
  destruct data; [congruence|..];
    (destruct (optProp (optProp _ (js "content")) (js "parts")) as [parts|];
     [|exact Hnone];
     destruct (truthy parts); [|exact Hnone];
     cbn [when];
     destruct (iterate parts) as [elements|]; [|exact I];
     unfold bind at 1;
     pose proof (absorb_agrees elements nothing w w eq_refl) as H;
     destruct (absorb elements nothing w) as [acc wa|wa],
              (forEach elements handlePart w) as [[] ws|ws]; try exact H;
     destruct H as (Hids & calls & text & Ha & Hs & Hc & Ht);
     unfold ret; split; [exact Hids|];
     rewrite finish_toolCalls; split; [now rewrite Hs, Ha|];
     exists acc; split; [reflexivity|]; now rewrite Ht, Hc).
Qed.

(** What the streaming loop does on an envelope the whole-body loop
    accepts. *)
Lemma loopOverParts_of_reply (data : JSON) (w wa : World) (reply : Reply) :
  data <> JNull ->
  parseReply data w = Normal reply wa ->
  exists ws,
    loopOverParts data w = Normal tt ws /\
    Stream.toolCalls (state ws)
    = Stream.toolCalls (state w) ++ reply_toolCalls reply.
Proof.
  intros Hdata. unfold NoStream.parseReply, Stream.loopOverParts.
  assert (Hnone : ret (finish nothing) w = Normal reply wa ->
                  exists ws,
                    ret tt w = Normal tt ws /\
                    Stream.toolCalls (state ws)
                    = Stream.toolCalls (state w) ++ reply_toolCalls reply).
  { unfold ret. intros [= <- <-]. exists w. split; [reflexivity|].
    now rewrite app_nil_r. }
  destruct data; [congruence|..];
    (destruct (optProp (optProp _ (js "content")) (js "parts")) as [parts|];
     [|exact Hnone];
     destruct (truthy parts); [|exact Hnone];
     cbn [when];
     destruct (iterate parts) as [elements|]; [|discriminate];
     unfold bind at 1;
     pose proof (absorb_agrees elements nothing w w eq_refl) as H;
     destruct (absorb elements nothing w) as [acc wa'|wa'],
              (forEach elements handlePart w) as [[] ws|ws];
     try contradiction; try discriminate;
     destruct H as (Hids & calls & text & Ha & Hs & Hc & Ht);
     unfold ret; intros [= <- <-];
     exists ws; split; [reflexivity|];
     rewrite finish_toolCalls; now rewrite Hs, Ha).
Qed.

Lemma reportedCalls_app (a b : list Event) :
  reportedCalls (a ++ b) = reportedCalls a ++ reportedCalls b.
Proof. apply flat_map_app. Qed.

Lemma reportedCalls_none (evs : list Event) :
  Forall (fun ev => isToolCallsEvent ev = false) evs -> reportedCalls evs = [].
Proof.
  induction 1 as [|ev evs Hev _ IH]; [reflexivity|].
  unfold reportedCalls in *. cbn [flat_map]. rewrite IH.
  now destruct ev.
Qed.

Lemma flushToolCalls_keeps (data : JSON) (ws : World) :
  reportedOrPending (worldOf (flushToolCalls data ws)) = reportedOrPending ws.
Proof.
  unfold flushToolCalls, bind, getState, reportedOrPending.
  destruct (truthy_opt _ && _); cbn [when worldOf ret]; [|reflexivity].
  destruct ws as [[started calls] evs n].
  destruct started;
    cbn [when bind callback setThinkingStarted setToolCalls ret worldOf state
         emitted thinkingStarted Stream.toolCalls];
    unfold bind, callback, setThinkingStarted, setToolCalls;
    cbn [worldOf state emitted Stream.toolCalls];
    rewrite ?reportedCalls_app; cbn [reportedCalls flat_map];
    now rewrite ?app_nil_r.
Qed.

(** X27. A tool call is reported once, in order, and at the finish signal:
    when the whole-body loop accepts an envelope, the streaming interpreter
    of the same envelope
    - with a finish signal, and a call buffered before or carried by the
      envelope, reports to the callback, as one last tool-calls event, the
      calls buffered before followed by the tool calls of the envelope, and
      leaves the buffer empty; the events before that one report no call;
    - without a finish signal, or with no call at all, reports nothing and
      leaves in the buffer the calls buffered before followed by the tool
      calls of the envelope;
    - so the calls reported followed by the calls buffered are, afterwards,
      those of before followed by the tool calls of the envelope: none is
      dropped, none is repeated. *)
Theorem tool_calls_are_reported_once (data : JSON) (w wa : World) (reply : Reply) :
  data <> JNull ->
  parseReply data w = Normal reply wa ->
  let w' := tryCatch (interpretEnvelope JSON_stringify generateToolCallId data) w in
  let all := Stream.toolCalls (state w) ++ reply_toolCalls reply in
  (hasFinishReason data = true -> all <> [] ->
   reportedCalls (emitted w') = reportedCalls (emitted w) ++ all
   /\ Stream.toolCalls (state w') = []
   /\ exists evs,
        emitted w' = emitted w ++ evs ++ [ToolCalls all]
        /\ reportedCalls evs = [])
  /\
  (hasFinishReason data = false \/ all = [] ->
   reportedCalls (emitted w') = reportedCalls (emitted w)
   /\ Stream.toolCalls (state w') = all)
  /\
  reportedOrPending w' = reportedOrPending w ++ reply_toolCalls reply.
Proof.
  intros Hdata Hreply w' all.
  destruct (@loopOverParts_of_reply data w wa reply Hdata Hreply)
    as (ws & Hloop & Hcalls).
  assert (Hloop' : w' = worldOf (flushToolCalls data ws)).
  { subst w'. unfold tryCatch, Stream.interpretEnvelope.
    destruct data; [congruence|..]; unfold bind; rewrite Hloop;
      now destruct (flushToolCalls _ ws). }
  pose proof (StreamFacts.loopOverParts_progress JSON_stringify
                generateToolCallId data w) as (evs & added & He & _ & Hn & _).
  rewrite Hloop in He. cbn [worldOf] in He.
  pose proof (reportedCalls_none Hn) as Hevs.
  fold all in Hcalls. clearbody w'. subst w'.
  rewrite (StreamFacts.hasFinishReason_envelope Hdata).
  split; [|split].
  - intros Hfinish Hall.
    assert (Hbuffered : Stream.toolCalls (state ws) <> []) by now rewrite Hcalls.
    rewrite (@StreamFacts.flushToolCalls_finish data ws Hfinish Hbuffered).
    cbn [worldOf emitted state Stream.toolCalls]. rewrite He, Hcalls.
    assert (Hclose : reportedCalls
                       (if thinkingStarted (state ws)
                        then [Thinking Stream.THINK_CLOSE] else []) = [])
      by now destruct (thinkingStarted (state ws)).
    split; [|split; [reflexivity|]].
    + rewrite !reportedCalls_app, Hevs, Hclose. cbn [reportedCalls flat_map].
      now rewrite !app_nil_r.
    + exists (evs ++ if thinkingStarted (state ws)
                     then [Thinking Stream.THINK_CLOSE] else []).
      split; [now rewrite <- !app_assoc|].
      now rewrite reportedCalls_app, Hevs, Hclose.
  - intros Hidle.
    assert (Hidle' : truthy_opt (optProp (firstCandidate data) (js "finishReason"))
                     = false \/ Stream.toolCalls (state ws) = [])
      by now rewrite Hcalls.
    rewrite (@StreamFacts.flushToolCalls_idle data ws Hidle').
    cbn [worldOf]. rewrite He, reportedCalls_app, Hevs, app_nil_r.
    now split.
  - rewrite flushToolCalls_keeps. unfold reportedOrPending.
    rewrite He, reportedCalls_app, Hevs, app_nil_r, Hcalls.
    apply app_assoc.
Qed.

End Parser.

Lemma whole_body_agrees_with_stream_witness :
  wholeReply <> JNull
  /\
  match NoStream.parseReply stringifyScenario callId textOfString pngUrl
          wholeReply initialWorld,
        Stream.loopOverParts stringifyScenario callId wholeReply initialWorld with
  | Normal reply wa, Normal _ ws =>
      idsIssued wa = idsIssued ws /\
      Stream.toolCalls (state ws)
      = Stream.toolCalls (state initialWorld) ++ reply_toolCalls reply /\
      exists acc,
        reply = finish acc /\
        textOf textOfString (emitted ws)
        = textOf textOfString (emitted initialWorld) ++ content acc
  | Thrown _, Thrown _ => True
  | _, _ => False
  end.
Proof.
  assert (H : wholeReply <> JNull) by discriminate.
  split; [exact H|].
  apply (@whole_body_agrees_with_stream stringifyScenario callId textOfString
           pngUrl wholeReply initialWorld H).
Defined.

Lemma tool_calls_are_reported_once_witness :
  let w' := tryCatch (interpretEnvelope stringifyScenario callId finishEnvelope)
                     initialWorld in
  let all := Stream.toolCalls (state initialWorld) ++ reply_toolCalls finishReply in
  (finishEnvelope <> JNull
   /\ NoStream.parseReply stringifyScenario callId textOfString pngUrl
        finishEnvelope initialWorld
      = Normal finishReply initialWorld
   /\ hasFinishReason finishEnvelope = true
   /\ all <> [])
  /\
  (reportedCalls (emitted w') = reportedCalls (emitted initialWorld) ++ all
   /\ Stream.toolCalls (state w') = []
   /\ exists evs,
        emitted w' = emitted initialWorld ++ evs ++ [ToolCalls all]
        /\ reportedCalls evs = []).
Proof.
  intros w' all.
  assert (Hdata : finishEnvelope <> JNull) by discriminate.
  assert (Hreply : NoStream.parseReply stringifyScenario callId textOfString
                     pngUrl finishEnvelope initialWorld
                   = Normal finishReply initialWorld)
    by (vm_compute; reflexivity).
  assert (Hfinish : hasFinishReason finishEnvelope = true)
    by (vm_compute; reflexivity).
  assert (Hall : all <> []) by (vm_compute; discriminate).
  split; [repeat (split; [assumption|]); exact Hall|].
  exact (proj1 (@tool_calls_are_reported_once stringifyScenario callId textOfString
                  pngUrl finishEnvelope initialWorld initialWorld finishReply
                  Hdata Hreply) Hfinish Hall).
Defined.

(** The finish envelope of the scenario, read by the streaming interpreter
    with an empty buffer: its one call is reported, the buffer ends empty. *)
Example finish_envelope_reported :
  let w' := tryCatch (interpretEnvelope stringifyScenario callId finishEnvelope)
                     initialWorld in
  emitted w' = [ToolCalls (reply_toolCalls finishReply)]
  /\ Stream.toolCalls (state w') = [].
Proof. vm_compute. split; reflexivity. Qed.

(** The whole-body reply, evaluated: thinking is wrapped, the image comes
    last as markdown, and the call gets the first id. *)
Example whole_reply_evaluated :
  NoStream.parseReply stringifyScenario callId textOfString pngUrl wholeReply
    initialWorld
  = Normal
      {| reply_content :=
           NoStream.THINK_OPEN ++ js "hmm" ++ NoStream.THINK_CLOSE ++ js "Hello"
           ++ BLANK_LINE ++ js "![image](data:image/png;base64,AAAA)";
         reply_toolCalls :=
           [{| tc_id := JStr (js "call_0");
               tc_name := Some (JStr (js "get_weather"));
               tc_arguments := Some (stringifyScenario (JObj [])) |}] |}
      {| state := initialState; emitted := []; idsIssued := 1 |}.
Proof. vm_compute. reflexivity. Qed.

End NoStreamFacts.

(* ================================================================== *)
(** * Properties of the Claude response *)
(* ================================================================== *)

Module ClaudeFormatFacts.

Import Builder WebSearch ClaudeFormat Inputs MoreInputs.

Section Formatter.

Variable JSON_parse : jsstring -> option JSON.
Variable stableEncryptedContent : JSON -> jsstring.
Variable makeSrvToolUseId : jsstring.

#[local] Abbreviation toolBlock := (ClaudeFormat.toolBlock JSON_parse).
#[local] Abbreviation searchBlocks :=
  (ClaudeFormat.searchBlocks stableEncryptedContent makeSrvToolUseId).
#[local] Abbreviation createClaudeResponse :=
  (ClaudeFormat.createClaudeResponse JSON_parse stableEncryptedContent
     makeSrvToolUseId).

Lemma searchBlocks_plain (webSearchData : WebSearchData) :
  Forall (fun b => toolUseOf b = [] /\ signatureOf b = None)
         (searchBlocks webSearchData).
Proof.
  unfold ClaudeFormat.searchBlocks. apply Forall_app. split.
  - repeat constructor.
  - apply Forall_flat_map, Forall_forall. intros support _.
    destruct (buildCitationsFromSupport _ _ support); repeat constructor.
Qed.

Lemma toolBlocks_toolUseOf (pass : bool) (calls : list ToolCall) :
  flat_map toolUseOf (map (toolBlock pass) calls)
  = map (fun tc => (call_id tc, call_name tc)) calls.
Proof.
  induction calls as [|tc calls IH]; [reflexivity|].
  cbn [map flat_map]. rewrite IH. unfold ClaudeFormat.toolBlock.
  destruct (match call_arguments tc with Some a => JSON_parse a | None => None end);
    reflexivity.
Qed.

Lemma toolBlocks_unsigned (calls : list ToolCall) :
  Forall (fun b => signatureOf b = None) (map (toolBlock false) calls).
Proof.
  apply Forall_map, Forall_forall. intros tc _. unfold ClaudeFormat.toolBlock.
  destruct (match call_arguments tc with Some a => JSON_parse a | None => None end);
    cbn [signatureOf]; now rewrite ?andb_false_r.
Qed.

Lemma flat_map_toolUseOf_none (blocks : list Block) :
  Forall (fun b => toolUseOf b = [] /\ signatureOf b = None) blocks ->
  flat_map toolUseOf blocks = [].
Proof.
  induction 1 as [|b blocks [Hb _] _ IH]; [reflexivity|].
  cbn [flat_map]. now rewrite Hb, IH.
Qed.

(** X25. Every tool call is reported, and signatures stay private unless
    asked for: the [tool_use] blocks of a response carry the ids and names
    of the tool calls, one block for each call and in their order, also for
    a call whose arguments are no valid JSON (its input is the empty
    object); and without [passSignatureToClient] no block of the response
    carries a signature. *)
Theorem tool_calls_reported_signatures_private
    (id model : jsstring) (content reasoning reasoningSignature : option jsstring)
    (toolCalls : option (list ToolCall)) (stopReason : jsstring)
    (usage : option UsageIn) (webSearchData : option WebSearchData) :
  (forall passSignatureToClient,
     flat_map toolUseOf
       (response_content
          (createClaudeResponse id model content reasoning reasoningSignature
             toolCalls stopReason usage passSignatureToClient webSearchData))
     = map (fun tc => (call_id tc, call_name tc))
           match toolCalls with Some calls => calls | None => [] end)
  /\
  Forall (fun b => signatureOf b = None)
    (response_content
       (createClaudeResponse id model content reasoning reasoningSignature
          toolCalls stopReason usage false webSearchData)).
Proof.
  split.
  - intros pass. unfold ClaudeFormat.createClaudeResponse.
    cbn [response_content]. rewrite !flat_map_app.
    replace (flat_map toolUseOf
               (if truthyStr reasoning
                then [thinking (orDefault reasoning [])
                        (if truthyStr reasoningSignature && pass
                         then reasoningSignature else None)]
                else [])) with (@nil (JSON * jsvalue))
      by now destruct (truthyStr reasoning).
    replace (flat_map toolUseOf
               match webSearchData with
               | Some data => searchBlocks data
               | None => []
               end) with (@nil (JSON * jsvalue))
      by (destruct webSearchData; [|reflexivity];
          symmetry; apply flat_map_toolUseOf_none, searchBlocks_plain).
    replace (flat_map toolUseOf
               (if truthyStr content then [text (orDefault content [])] else []))
      with (@nil (JSON * jsvalue)) by now destruct (truthyStr content).
    cbn [app]. destruct toolCalls; [apply toolBlocks_toolUseOf|reflexivity].
  - unfold ClaudeFormat.createClaudeResponse. cbn [response_content].
    repeat (apply Forall_app; split).
    + destruct (truthyStr reasoning); [|constructor].
      constructor; [|constructor]. cbn [signatureOf]. now rewrite andb_false_r.
    + destruct webSearchData as [data|]; [|constructor].
      eapply Forall_impl; [|apply searchBlocks_plain]. now intros b [_ Hb].
    + destruct (truthyStr content); repeat constructor.
    + destruct toolCalls; [apply toolBlocks_unsigned|constructor].
Qed.

End Formatter.

(** Two signed calls, the second with arguments that do not parse: both are
    reported, the second with an empty input and, even when signatures are
    passed on, without its signature. *)
Example signed_calls_evaluated :
  response_content
    (ClaudeFormat.createClaudeResponse parseEmptyObject firstField (js "srvtoolu_1")
       (js "msg_1") (js "claude") None None None (Some signedCalls)
       (js "tool_use") None true None)
  = [tool_use (JStr (js "t1")) (Some (JStr (js "get_weather"))) (JObj [])
              (Some (js "sig1"));
     tool_use (JStr (js "t2")) (Some (JStr (js "get_time"))) (JObj []) None].
Proof. vm_compute. reflexivity. Qed.

(** ** The streamed blocks and the blocks of a whole response *)

Lemma added_refl (s : ClaudeStream.StreamingState) : ClaudeStream.added s s [] [].
Proof. exists []. now rewrite app_nil_r. Qed.

Lemma added_event (s0 s : ClaudeStream.StreamingState)
                  (cs : list Citation) (rs : list WebSearchResult)
                  (ev : N -> ClaudeStream.SseEvent) :
  ClaudeStream.added s0 s cs rs ->
  ClaudeStream.added s0 (ClaudeStream.emitEvent ev s)
    (cs ++ ClaudeStream.citationsSent [ev (ClaudeStream.contentIndex s)])
    (rs ++ ClaudeStream.resultsSent [ev (ClaudeStream.contentIndex s)]).
Proof.
  intros (evs & Hsent & Hcs & Hrs).
  exists (evs ++ [ev (ClaudeStream.contentIndex s)]).
  cbn [ClaudeStream.emitEvent ClaudeStream.sent].
  rewrite Hsent, app_assoc. split; [reflexivity|].
  unfold ClaudeStream.citationsSent, ClaudeStream.resultsSent in *.
  now rewrite !flat_map_app, Hcs, Hrs.
Qed.

Lemma added_next (s0 s : ClaudeStream.StreamingState)
                 (cs : list Citation) (rs : list WebSearchResult) :
  ClaudeStream.added s0 s cs rs ->
  ClaudeStream.added s0 (ClaudeStream.nextIndex s) cs rs.
Proof. intros H. exact H. Qed.

Section Both.

Variable JSON_parse : jsstring -> option JSON.
Variable JSON_stringify : JSON -> jsstring.
Variable stableEncryptedContent : JSON -> jsstring.
Variable makeSrvToolUseId : jsstring.

Lemma emitCitations_added (results0 : list WebSearchResult)
                          (s0 s : ClaudeStream.StreamingState)
                          (cs : list Citation) (rs : list WebSearchResult)
                          (support : JSON) :
  ClaudeStream.added s0 s cs rs ->
  ClaudeStream.added s0
    (ClaudeStream.emitCitations stableEncryptedContent results0 s support)
    (cs ++ buildCitationsFromSupport stableEncryptedContent results0 support) rs.
Proof.
  intros H. unfold ClaudeStream.emitCitations.
  destruct (buildCitationsFromSupport stableEncryptedContent results0 support)
    as [|c citations]; [now rewrite app_nil_r|].
  apply added_next.
  assert (Hfold : forall l s1 cs1,
             ClaudeStream.added s0 s1 cs1 rs ->
             ClaudeStream.added s0
               (fold_left
                  (fun s citation =>
                     ClaudeStream.emitEvent
                       (fun i => ClaudeStream.content_block_delta i
                                   (ClaudeStream.citations_delta citation)) s)
                  l s1)
               (cs1 ++ l) rs).
  { induction l as [|citation l IH]; intros s1 cs1 H1;
      [now rewrite app_nil_r|].
    cbn [fold_left].
    apply (added_event
             (fun i => ClaudeStream.content_block_delta i
                         (ClaudeStream.citations_delta citation))) in H1.
    cbn [ClaudeStream.citationsSent ClaudeStream.resultsSent flat_map app] in H1.
    rewrite app_nil_r in H1. apply IH in H1. now rewrite <- app_assoc in H1. }
  apply (added_event
           (fun i => ClaudeStream.content_block_start i
                       (ClaudeStream.text_block true))) in H.
  cbn [ClaudeStream.citationsSent ClaudeStream.resultsSent flat_map app] in H.
  rewrite !app_nil_r in H.
  apply (Hfold (c :: citations)) in H.
  apply (added_event ClaudeStream.content_block_stop) in H.
  cbn [ClaudeStream.citationsSent ClaudeStream.resultsSent flat_map app] in H.
  now rewrite !app_nil_r in H.
Qed.

Lemma emitCitations_fold_added (results0 : list WebSearchResult)
                               (supports0 : list JSON)
                               (s0 s : ClaudeStream.StreamingState)
                               (cs : list Citation) (rs : list WebSearchResult) :
  ClaudeStream.added s0 s cs rs ->
  ClaudeStream.added s0
    (fold_left (ClaudeStream.emitCitations stableEncryptedContent results0)
               supports0 s)
    (cs ++ flat_map (buildCitationsFromSupport stableEncryptedContent results0)
                    supports0) rs.
Proof.
  revert s cs. induction supports0 as [|support rest IH]; intros s cs H.
  - cbn [fold_left flat_map]. now rewrite app_nil_r.
  - cbn [fold_left flat_map].
    apply (emitCitations_added results0 support) in H.
    apply IH in H. now rewrite <- app_assoc in H.
Qed.

Lemma emitText_fold_added (texts : list JSON)
                          (s0 s : ClaudeStream.StreamingState)
                          (cs : list Citation) (rs : list WebSearchResult) :
  ClaudeStream.added s0 s cs rs ->
  ClaudeStream.added s0 (fold_left ClaudeStream.emitText texts s) cs rs.
Proof.
  revert s. induction texts as [|t rest IH]; intros s H; [exact H|].
  cbn [fold_left]. apply IH. unfold ClaudeStream.emitText.
  destruct (truthy t); [|exact H].
  apply (added_event
           (fun i => ClaudeStream.content_block_delta i
                       (ClaudeStream.text_delta t))) in H.
  cbn [ClaudeStream.citationsSent ClaudeStream.resultsSent flat_map app] in H.
  now rewrite !app_nil_r in H.
Qed.

Lemma searchBlocks_citations (webSearchData : WebSearchData) :
  citationsOf (ClaudeFormat.searchBlocks stableEncryptedContent makeSrvToolUseId
                 webSearchData)
  = flat_map (buildCitationsFromSupport stableEncryptedContent
                match wsd_results webSearchData with Some l => l | None => [] end)
             match wsd_supports webSearchData with Some l => l | None => [] end
  /\
  resultsOf (ClaudeFormat.searchBlocks stableEncryptedContent makeSrvToolUseId
               webSearchData)
  = match wsd_results webSearchData with Some l => l | None => [] end.
Proof.
  unfold ClaudeFormat.searchBlocks, citationsOf, resultsOf.
  rewrite !flat_map_app. cbn [flat_map app].
  generalize (match wsd_results webSearchData with Some l => l | None => [] end).
  generalize (match wsd_supports webSearchData with Some l => l | None => [] end).
  intros supports0 results0.
  assert (H : flat_map (fun b => match b with citing cs => cs | _ => [] end)
                (flat_map
                   (fun support =>
                      match buildCitationsFromSupport stableEncryptedContent
                              results0 support with
                      | [] => []
                      | c :: l => [citing (c :: l)]
                      end) supports0)
              = flat_map (buildCitationsFromSupport stableEncryptedContent
                            results0) supports0
              /\
              flat_map (fun b => match b with
                                 | web_search_tool_result _ l => l
                                 | _ => []
                                 end)
                (flat_map
                   (fun support =>
                      match buildCitationsFromSupport stableEncryptedContent
                              results0 support with
                      | [] => []
                      | c :: l => [citing (c :: l)]
                      end) supports0)
              = []).
  { induction supports0 as [|support rest [IHc IHr]]; [now split|].
    cbn [flat_map]. rewrite !flat_map_app, IHc, IHr.
    destruct (buildCitationsFromSupport stableEncryptedContent results0 support);
      cbn [flat_map app]; rewrite ?app_nil_r; split; reflexivity. }
  destruct H as [-> ->]. rewrite !app_nil_r. split; reflexivity.
Qed.

Lemma added_set (s : ClaudeStream.StreamingState) (id : jsstring) :
  ClaudeStream.added s (ClaudeStream.setToolUseId id s) [] [].
Proof.
  exists []. cbn [ClaudeStream.setToolUseId ClaudeStream.sent].
  now rewrite app_nil_r.
Qed.

Lemma emitWebSearchBlocks_added (s : ClaudeStream.StreamingState) :
  exists s' cs rs,
    ClaudeStream.emitWebSearchBlocks stableEncryptedContent JSON_stringify
      makeSrvToolUseId (Some s) = Some s' /\
    ClaudeStream.added s s' cs rs /\
    cs = flat_map (buildCitationsFromSupport stableEncryptedContent
                     match ClaudeStream.ws_results (ClaudeStream.webSearch s) with
                     | Some l => l
                     | None => []
                     end)
                  match ClaudeStream.ws_supports (ClaudeStream.webSearch s) with
                  | Some l => l
                  | None => []
                  end /\
    rs = match ClaudeStream.ws_results (ClaudeStream.webSearch s) with
         | Some l => l
         | None => []
         end.
Proof.
  unfold ClaudeStream.emitWebSearchBlocks.
  eexists _, _, _. split; [reflexivity|]. split.
  - apply added_next, added_event, emitText_fold_added, added_event,
      emitCitations_fold_added, added_next, added_event, added_event,
      added_next, added_event, added_event, added_event, added_set.
  - cbn [ClaudeStream.citationsSent ClaudeStream.resultsSent flat_map app
         ClaudeStream.webSearch ClaudeStream.emitEvent ClaudeStream.nextIndex
         ClaudeStream.setToolUseId ClaudeStream.ws_results
         ClaudeStream.ws_supports].
    now rewrite !app_nil_r.
Qed.

Lemma toolBlocks_plain (pass : bool) (calls : list ToolCall) :
  citationsOf (map (ClaudeFormat.toolBlock JSON_parse pass) calls) = []
  /\ resultsOf (map (ClaudeFormat.toolBlock JSON_parse pass) calls) = [].
Proof.
  unfold citationsOf, resultsOf.
  induction calls as [|tc calls [IHc IHr]]; [now split|].
  cbn [map flat_map]. rewrite IHc, IHr. unfold ClaudeFormat.toolBlock.
  destruct (match call_arguments tc with Some a => JSON_parse a | None => None end);
    split; reflexivity.
Qed.

Lemma createClaudeResponse_search
    (webSearchData : WebSearchData)
    (id model : jsstring) (content reasoning reasoningSignature : option jsstring)
    (toolCalls : option (list ToolCall)) (stopReason : jsstring)
    (usage : option UsageIn) (passSignatureToClient : bool) :
  let blocks :=
    response_content
      (ClaudeFormat.createClaudeResponse JSON_parse stableEncryptedContent
         makeSrvToolUseId id model content reasoning reasoningSignature toolCalls
         stopReason usage passSignatureToClient (Some webSearchData)) in
  citationsOf blocks
  = citationsOf (ClaudeFormat.searchBlocks stableEncryptedContent makeSrvToolUseId
                   webSearchData)
  /\
  resultsOf blocks
  = resultsOf (ClaudeFormat.searchBlocks stableEncryptedContent makeSrvToolUseId
                 webSearchData).
Proof.
  intros blocks. subst blocks. unfold ClaudeFormat.createClaudeResponse.
  cbn [response_content].
  assert (Htools : citationsOf match toolCalls with
                               | Some calls =>
                                   map (ClaudeFormat.toolBlock JSON_parse
                                          passSignatureToClient) calls
                               | None => []
                               end = []
                   /\ resultsOf match toolCalls with
                                | Some calls =>
                                    map (ClaudeFormat.toolBlock JSON_parse
                                           passSignatureToClient) calls
                                | None => []
                                end = [])
    by (destruct toolCalls; [apply toolBlocks_plain|now split]).
  destruct Htools as [Htc Htr].
  unfold citationsOf, resultsOf in *. rewrite !flat_map_app, Htc, Htr.
  destruct (truthyStr reasoning), (truthyStr content);
    cbn [flat_map app]; rewrite ?app_nil_r; split; reflexivity.
Qed.

(** X28. The stream and the whole response show the same search: for the
    same results and supports, the events of [emitWebSearchBlocks] carry, in
    the same order, the search results and the citations that the blocks of
    [createClaudeResponse] carry. *)
Theorem stream_and_response_cite_alike
    (s : ClaudeStream.StreamingState) (webSearchData : WebSearchData)
    (id model : jsstring) (content reasoning reasoningSignature : option jsstring)
    (toolCalls : option (list ToolCall)) (stopReason : jsstring)
    (usage : option UsageIn) (passSignatureToClient : bool) :
  ClaudeStream.ws_results (ClaudeStream.webSearch s) = wsd_results webSearchData ->
  ClaudeStream.ws_supports (ClaudeStream.webSearch s) = wsd_supports webSearchData ->
  let blocks :=
    response_content
      (ClaudeFormat.createClaudeResponse JSON_parse stableEncryptedContent
         makeSrvToolUseId id model content reasoning reasoningSignature toolCalls
         stopReason usage passSignatureToClient (Some webSearchData)) in
  exists s' evs,
    ClaudeStream.emitWebSearchBlocks stableEncryptedContent JSON_stringify
      makeSrvToolUseId (Some s) = Some s' /\
    ClaudeStream.sent s' = ClaudeStream.sent s ++ evs /\
    ClaudeStream.citationsSent evs = citationsOf blocks /\
    ClaudeStream.resultsSent evs = resultsOf blocks.
Proof.
  intros Hresults Hsupports blocks.
  destruct (createClaudeResponse_search webSearchData id model content reasoning
              reasoningSignature toolCalls stopReason usage passSignatureToClient)
    as [Hc Hr].
  subst blocks. rewrite Hc, Hr.
  destruct (searchBlocks_citations webSearchData) as [-> ->].
  rewrite <- Hresults, <- Hsupports.
  destruct (emitWebSearchBlocks_added s)
    as (s' & cs & rs & Hs' & (evs & Hsent & Hcs & Hrs) & -> & ->).
  exists s', evs. split; [exact Hs'|]. split; [exact Hsent|].
  split; [exact Hcs|exact Hrs].
Qed.

End Both.

Lemma stream_and_response_cite_alike_witness :
  (ClaudeStream.ws_results (ClaudeStream.webSearch searchState)
   = wsd_results searchData
   /\ ClaudeStream.ws_supports (ClaudeStream.webSearch searchState)
      = wsd_supports searchData)
  /\
  exists s' evs,
    ClaudeStream.emitWebSearchBlocks firstField firstField (js "srvtoolu_1")
      (Some searchState) = Some s' /\
    ClaudeStream.sent s' = ClaudeStream.sent searchState ++ evs /\
    ClaudeStream.citationsSent evs
    = citationsOf
        (response_content
           (ClaudeFormat.createClaudeResponse parseEmptyObject firstField
              (js "srvtoolu_1") (js "msg_1") (js "claude")
              (Some (js "Rocq is a prover.")) None None None (js "end_turn") None
              false (Some searchData))) /\
    ClaudeStream.resultsSent evs
    = resultsOf
        (response_content
           (ClaudeFormat.createClaudeResponse parseEmptyObject firstField
              (js "srvtoolu_1") (js "msg_1") (js "claude")
              (Some (js "Rocq is a prover.")) None None None (js "end_turn") None
              false (Some searchData))).
Proof.
  split; [split; reflexivity|].
  apply (@stream_and_response_cite_alike parseEmptyObject firstField firstField
           (js "srvtoolu_1") searchState searchData (js "msg_1") (js "claude")
           (Some (js "Rocq is a prover.")) None None None (js "end_turn") None
           false eq_refl eq_refl).
Defined.

(** The blocks of the whole response for the search state's data. *)
Example search_response_evaluated :
  map isToolUseBlock
    (response_content
       (ClaudeFormat.createClaudeResponse parseEmptyObject firstField
          (js "srvtoolu_1") (js "msg_1") (js "claude")
          (Some (js "Rocq is a prover.")) None None None (js "end_turn") None
          false (Some searchData)))
  = [false; false; false; false]
  /\
  List.length
    (citationsOf
       (response_content
          (ClaudeFormat.createClaudeResponse parseEmptyObject firstField
             (js "srvtoolu_1") (js "msg_1") (js "claude")
             (Some (js "Rocq is a prover.")) None None None (js "end_turn") None
             false (Some searchData))))
  = 1.
Proof. vm_compute. split; reflexivity. Qed.

End ClaudeFormatFacts.
